(** * AI-Monitor: adaptive polling scheduler, window filter and classifier

    A shallow embedding of [src/sources/tikhub_twitter.py], [src/storage.py],
    [src/notifiers/telegram.py], [src/decision_logger.py], the round
    driver of [src/main.py], [src/sources/rss.py] and [src/sources/web.py],
    followed by the properties of the scheduler stated in the specification
    and by further properties of the code.

    Conventions of the embedding:
    - an aware [datetime] is the instant it denotes, an integer number of
      microseconds since the Unix epoch ([Z]); [astimezone] does not change
      the instant, and comparison and subtraction of aware datetimes are
      comparison and subtraction of instants;
    - a Python [str] is a [string] (the UTF-8 bytes of the text); [len] and
      slices count the characters of that string;
    - the provider's payload has the types the source annotates and reads:
      the members of a tweet object are strings, the timeline is a list;
    - the per-account dictionaries of [account_states] always hold the same
      five keys, so they are records;
    - the library calls of the source ([str.lower], [str.strip],
      [datetime.strptime], ...) are the methods of the class [PyRuntime];
    - effects (the registry, the audit file, the Telegram API, the SQLite
      table) are threaded explicitly; calls to [logging] and the counters
      that only feed them are left out. *)

From Stdlib Require Import ZArith String List Bool Lia Ascii.
From stdpp Require Import base option gmap strings.
Import ListNotations.

#[local] Open Scope string_scope.
#[local] Open Scope Z_scope.

(** ** Library functions used by the source *)

(** The Python runtime functions the source calls. [strptime s] is
    [datetime.strptime(s, "%a %b %d %H:%M:%S %z %Y")] as an instant, [None]
    when the call raises; [isoformat] is [datetime.isoformat] of an instant
    shown in the UTC+8 zone; [split] is [str.split()] on whitespace;
    [replace old new s] is [s.replace(old, new)]. *)
Class PyRuntime := {
  lower : string -> string;
  upper : string -> string;
  strip : string -> string;
  rstrip : string -> string;
  split : string -> list string;
  replace : string -> string -> string -> string;
  strptime : string -> option Z;
  isoformat : Z -> string;
  sha256_hexdigest : string -> string;
}.

(** [kw in text] on strings: [kw] occurs in [text] as a contiguous run. *)
Fixpoint contains (kw text : string) : bool :=
  String.prefix kw text ||
  match text with
  | EmptyString => false
  | String _ rest => contains kw rest
  end.

(** [next((kw for kw in kws if kw in text), default)] and the
    [for kw in kws: if kw in text: return ...] loops: the first keyword of the
    list, in list order, that occurs in the text. *)
Definition first_hit (kws : list string) (text : string) : option string :=
  List.find (fun kw => contains kw text) kws.

(** [" ".join(parts)]. *)
Fixpoint join (sep : string) (parts : list string) : string :=
  match parts with
  | [] => ""
  | [p] => p
  | p :: rest => p ++ sep ++ join sep rest
  end.

(** ** Time *)

Module Clock.

Definition usec_per_second : Z := 1000000.
Definition usec_per_minute : Z := 60 * usec_per_second.
Definition usec_per_hour : Z := 60 * usec_per_minute.

(** [timedelta(minutes=m)] in microseconds. *)
Definition minutes (m : Z) : Z := m * usec_per_minute.

(** [dt.hour] of an instant shown in the UTC+8 zone ([self._bj_tz]). *)
Definition hour (t : Z) : Z := (t / usec_per_hour + 8) mod 24.

(** [_is_night_window]: 21:00-03:00 Beijing time. Every caller passes a
    datetime, which is truthy, so [dt or self._now_beijing()] is [dt]. *)
Definition _is_night_window (dt : Z) : bool :=
  (21 <=? hour dt) || (hour dt <? 3).

End Clock.

(** ** Interval policy *)

Module Policy.
Import Clock.

Definition _day_base_minutes (tier : string) : Z :=
  if String.eqb tier "B" then 60 else 30.

Definition _next_interval_minutes (tier : string) (no_news_streak : Z) (now : Z) : Z :=
  if _is_night_window now then 15
  else
    let base := _day_base_minutes tier in
    if base =? 60 then (if no_news_streak <=? 0 then 60 else 90)
    else if no_news_streak <=? 0 then 30
    else if no_news_streak =? 1 then 60
    else 90.

(** [_get_poll_interval]: the tick of the main loop, in seconds. *)
Definition _get_poll_interval (now : Z) : Z :=
  (if _is_night_window now then 15 else 30) * 60.

End Policy.

(** ** Storage layer: items and the deduplicating insert *)

Module Storage.

(** [NewsItem] is a dataclass with five fields; the Twitter source then
    attaches six more attributes to the object ([item.vendor = ...]).
    An attribute that was never attached is [None] here, which is what
    [getattr(item, name, None)] observes. *)
Record NewsItem := {
  source : string;
  title : string;
  url : string;
  summary : string;
  published_at : string;
  vendor : option string;
  importance : option string;
  account : option string;
  tweet_id : option string;
  tier : option string;
  selected_reason : option string;
}.

(** One row of the [entries] table: the columns the insert writes, without
    the creation time. *)
Record Row := {
  row_source : string;
  row_title : string;
  row_url : string;
  row_summary : string;
  row_published_at : string;
  content_hash : string;
}.

(** What a statement executed on the connection can raise. *)
Inductive exn :=
| IntegrityError
| OtherException (what : string).

(** Result of a call that may raise. *)
Inductive outcome (A : Type) :=
| Return (a : A)
| Raise (e : exn).
Arguments Return {A} a.
Arguments Raise {A} e.

(** [try: body  except sqlite3.IntegrityError: h1  except Exception: h2]. *)
Definition try_except {A} (body : outcome A) (on_integrity : outcome A)
    (on_exception : outcome A) : outcome A :=
  match body with
  | Return a => Return a
  | Raise IntegrityError => on_integrity
  | Raise (OtherException _) => on_exception
  end.

Section WithRuntime.
Context `{PyRuntime}.

(** [build_item_hash]: title normalised (lower case, single spaces) and
    the first ten characters of the stripped publication date. *)
Definition build_item_hash (item : NewsItem) : string :=
  let normalized_title := join " " (split (lower (strip (title item)))) in
  let raw := normalized_title ++ "|" ++ String.substring 0 10 (strip (published_at item)) in
  sha256_hexdigest raw.

(** [with self.conn: self.conn.execute("INSERT INTO entries ...")].
    [fault] is what the database engine does to this statement apart from
    the constraint check: [Some e] when it fails with [e] (locked file,
    full disk, ...). The [content_hash] column is UNIQUE, so an insert of
    a present hash raises [IntegrityError]; a statement that raises is
    rolled back by the [with] block and leaves the table as it was. *)
Definition execute_insert (entries : list Row) (fault : option exn) (row : Row)
    : outcome unit * list Row :=
  match fault with
  | Some e => (Raise e, entries)
  | None =>
      if existsb (fun r => String.eqb (content_hash r) (content_hash row)) entries
      then (Raise IntegrityError, entries)
      else (Return tt, (entries ++ [row])%list)
  end.

(** [save_if_new], as a call that may raise, with the table after it. *)
Definition save_if_new (entries : list Row) (fault : option exn) (item : NewsItem)
    : outcome bool * list Row :=
  let item_hash := build_item_hash item in
  let row := {| row_source := source item; row_title := title item;
                row_url := url item; row_summary := summary item;
                row_published_at := published_at item;
                content_hash := item_hash |} in
  let '(r, entries') := execute_insert entries fault row in
  (try_except
     (match r with Return _ => Return true | Raise e => Raise e end)
     (Return false)
     (Return false),
   entries').

End WithRuntime.

End Storage.

(** ** Decision log *)

Module DecisionLogger.

(** The payload [log] writes, without its wall-clock [timestamp]. The only
    [extra] the callers pass is [batch_tweet_ids]. *)
Record DecisionRecord := {
  poll_id : string;
  run_id : string;
  account : string;
  tweet_id : string;
  tier : string;
  stage : string;
  decision : string;
  reason_code : string;
  matched_rule : string;
  batch_tweet_ids : option (list string);
}.

(** [x or y] on strings. *)
Definition str_or (x y : string) : string :=
  if String.eqb x "" then y else x.

(** [DecisionLogger.log]: builds the payload. Appending it to the file is
    best effort (a failed write is logged and swallowed), so the audit
    trail of a run is the sequence of payloads [log] was called with. *)
Definition log (poll_id run_id account tweet_id tier stage decision reason_code
    matched_rule : string) (extra : option (list string)) : DecisionRecord :=
  {| poll_id := poll_id; run_id := str_or run_id poll_id; account := account;
     tweet_id := tweet_id; tier := tier; stage := stage; decision := decision;
     reason_code := reason_code; matched_rule := matched_rule;
     batch_tweet_ids := extra |}.

End DecisionLogger.

(** ** The Twitter source: registry, scheduler, window filter, classifier *)

Module TikHubTwitterSource.
Import Clock Policy.
Export Storage(NewsItem).
Export DecisionLogger(DecisionRecord).

(** One entry of [cfg["accounts"]]. A missing key is [None]. *)
Record Account := {
  cfg_screen_name : option string;
  cfg_tier : option string;
  cfg_vendor : option string;
  cfg_is_founder : bool;
}.

(** A value of [vendor_map]. *)
Record VendorInfo := {
  vendor : string;
  is_founder : bool;
}.

(** A value of [account_states]; [last_polled_at] starts as [None]. *)
Record AccountState := {
  tier : string;
  last_check_time : Z;
  last_polled_at : option Z;
  no_news_streak : Z;
  next_due_at : Z;
}.

(** The fields of the source object the scheduler reads and writes. *)
Record Source := {
  accounts : list Account;
  vendor_map : gmap string VendorInfo;
  account_states : gmap string AccountState;
  _init_time : Z;
}.

(** One tweet object of the provider's payload: the three members the
    source reads, each [None] when the key is absent. [tweet_id] is the
    [str(...)] of the member. *)
Record Tweet := {
  tweet_id : option string;
  created_at : option string;
  text : option string;
}.

(** The ["data"] object of the payload. [pinned] is [Some] when the member
    is present and truthy; an element of [timeline] that is not an object
    is [None]. *)
Record RawData := {
  pinned : option Tweet;
  timeline : list (option Tweet);
}.

(** What [requests.get(...)], [raise_for_status()] and [resp.json()] give:
    an exception anywhere, or the decoded body with its ["data"] member
    when it has one. *)
Inductive HttpReply :=
| HttpFailed
| HttpJson (data : option RawData).

Definition empty_raw_data : RawData := {| pinned := None; timeline := [] |}.

Definition with_states (self : Source) (states : gmap string AccountState) : Source :=
  {| accounts := accounts self; vendor_map := vendor_map self;
     account_states := states; _init_time := _init_time self |}.

Definition fresh_state (tier : string) (init_time : Z) : AccountState :=
  {| tier := tier; last_check_time := init_time; last_polled_at := None;
     no_news_streak := 0; next_due_at := init_time |}.

(** [decision_logger.log(...)] under [if decision_logger:]. *)
Definition emit (decision_logger : bool) (r : DecisionRecord) : list DecisionRecord :=
  if decision_logger then [r] else [].

Section WithRuntime.
Context `{PyRuntime}.

(** [(acc.get("screen_name", "") or "").strip()]. *)
Definition account_screen_name (acc : Account) : string :=
  strip (default "" (cfg_screen_name acc)).

(** [str(acc.get("tier", "A") or "A").upper()], coerced to ["A"] when it
    is not one of S, A, B. *)
Definition account_tier (acc : Account) : string :=
  let raw := match cfg_tier acc with
             | Some t => if String.eqb t "" then "A" else t
             | None => "A"
             end in
  let tier := upper raw in
  if existsb (String.eqb tier) ["S"; "A"; "B"] then tier else "A".

(** One iteration of the loop of [__init__]. *)
Definition init_account (self : Source) (acc : Account) : Source :=
  let screen_name := account_screen_name acc in
  if String.eqb screen_name "" then self
  else
    let tier := account_tier acc in
    let key := lower screen_name in
    {| accounts := accounts self;
       vendor_map := <[key := {| vendor := default "" (cfg_vendor acc);
                                 is_founder := cfg_is_founder acc |}]> (vendor_map self);
       account_states := <[key := fresh_state tier (_init_time self)]> (account_states self);
       _init_time := _init_time self |}.

(** [__init__]: [now] is the clock reading stored as [_init_time]. *)
Definition __init__ (cfg_accounts : list Account) (now : Z) : Source :=
  fold_left init_account cfg_accounts
    {| accounts := cfg_accounts; vendor_map := ∅; account_states := ∅;
       _init_time := now |}.

(** [_get_state]: the registry entry, created with defaults when absent.
    The entry is shared: later writes through it are writes to the
    registry at the same key. *)
Definition _get_state (self : Source) (screen_name : string) : AccountState * Source :=
  let key := lower screen_name in
  match account_states self !! key with
  | Some state => (state, self)
  | None =>
      let state := fresh_state "A" (_init_time self) in
      (state, with_states self (<[key := state]> (account_states self)))
  end.

(** [_should_poll_account]. [total_seconds() >= 15 * 60] on a difference
    of instants is the comparison of its microseconds with 900 000 000.
    [next_due_at] always holds a datetime, so [if not next_due] never
    takes its branch. *)
Definition _should_poll_account (self : Source) (screen_name : string) (now : Z)
    : bool * Source :=
  let '(state, self) := _get_state self screen_name in
  if _is_night_window now then
    match last_polled_at state with
    | None => (true, self)
    | Some last_polled => (15 * 60 * usec_per_second <=? now - last_polled, self)
    end
  else (next_due_at state <=? now, self).

(** [_advance_account_schedule]. *)
Definition _advance_account_schedule (self : Source) (screen_name : string)
    (has_news : bool) (now : Z) : Source :=
  let '(state, self) := _get_state self screen_name in
  let tier := tier state in
  let streak := if has_news then 0 else Z.min (no_news_streak state + 1) 6 in
  let interval_minutes := _next_interval_minutes tier streak now in
  with_states self
    (<[lower screen_name :=
         {| tier := tier;
            last_check_time := last_check_time state;
            last_polled_at := Some now;
            no_news_streak := streak;
            next_due_at := now + minutes interval_minutes |}]>
       (account_states self)).

Definition filter_keywords : list string :=
  ["perplexity"; "kane ai"; "keep"; "raycast"; "alfred";
   "linear"; "notion"; "obsidian"; "cursor"].

Definition important_keywords : list string :=
  ["openai"; "anthropic"; "google"; "meta"; "microsoft"; "apple"; "amazon";
   "deepseek"; "mistral"; "llama"; "claude"; "gpt"; "gemini";
   "chatgpt"; "copilot"; "cursor"; "windsurf"].

Definition major_keywords : list string :=
  ["release"; "launch"; "new model"; "new api"; "new mode"; "new feature";
   "announce"; "introduce"; "introducing"; "debut";
   "gpt-"; "claude-"; "gemini"; "codex"; "operator";
   "version 2"; "version 3"; "version 4"; "version 5";
   "veo"; "sora"; "gemini 2"; "claude 4"; "gpt-5";
   "meet "; "meet+"].

Definition minor_keywords : list string :=
  ["update"; "fix"; "bug"; "optimize"; "improve"; "patch";
   "now support"; "add "; "enhance";
   "demo"; "showcase"; "example"; "walkthrough"; "how to";
   "new capability"; "improvement"; "new feature";
   "introducing"; "announcing"; "available"].

Definition noise_keywords : list string :=
  ["hiring"; "job "; "event"; "meetup"; "podcast"; "welcoming"].

(** The part of [_detect_importance_with_rule] after the attention
    filter: the two [for kw in ...] loops and the final [return]. *)
Definition scan_keywords (text_lower : string) : string * string :=
  match first_hit major_keywords text_lower with
  | Some kw => ("major", kw)
  | None =>
      match first_hit minor_keywords text_lower with
      | Some kw => ("minor", kw)
      | None => ("normal", "")
      end
  end.

(** [_detect_importance_with_rule]. *)
Definition _detect_importance_with_rule (text vendor : string) : string * string :=
  let text_lower := lower text in
  if String.eqb vendor "AI快讯" then
    match first_hit filter_keywords text_lower with
    | Some kw => ("filter", kw)
    | None =>
        let has_important :=
          existsb (fun kw => contains kw text_lower) important_keywords in
        if negb has_important then ("filter", "AI快讯_非大厂")
        else scan_keywords text_lower
    end
  else scan_keywords text_lower.

Definition _detect_importance (text vendor : string) : string :=
  fst (_detect_importance_with_rule text vendor).

(** [_get_vendor]. *)
Definition _get_vendor (self : Source) (screen_name : string) : string :=
  match vendor_map self !! lower screen_name with
  | Some info => if is_founder info then vendor info ++ " (创始人)" else vendor info
  | None => screen_name
  end.

(** [_parse_tweet_datetime]: any exception of [strptime] becomes [None]. *)
Definition _parse_tweet_datetime (created_at : string) : option Z :=
  strptime created_at.

(** [_is_in_window]. *)
Definition _is_in_window (tweet_time : option Z) (last_check_time now : Z) : bool :=
  match tweet_time with
  | None => false
  | Some t => (last_check_time <? t) && (t <=? now)
  end.

(** [_fetch_user_tweets]: every failure of the request is logged and
    becomes the empty object. *)
Definition _fetch_user_tweets (net : string -> HttpReply) (screen_name : string)
    : RawData :=
  match net screen_name with
  | HttpJson (Some data) => data
  | HttpJson None => empty_raw_data
  | HttpFailed => empty_raw_data
  end.

(** The list [tweets] built at the top of [_extract_tweets]: the pinned
    tweet first, then the timeline entries that are objects. *)
Definition candidates (raw_data : RawData) : list Tweet :=
  ((match pinned raw_data with Some p => [p] | None => [] end)
   ++ omap id (timeline raw_data))%list.

(** The body of the loop of [_extract_tweets] for one tweet: the tweet if
    it is kept, and the records logged for it. *)
Definition window_step (poll_id run_id screen_name tier : string)
    (decision_logger : bool) (last_check_time now : Z) (t : Tweet)
    : list Tweet * list DecisionRecord :=
  let tweet_id := default "unknown" (tweet_id t) in
  let created_at := default "" (created_at t) in
  let tweet_time := _parse_tweet_datetime created_at in
  let raw := emit decision_logger
    (DecisionLogger.log poll_id run_id screen_name tweet_id tier
       "raw" "pass" "RAW_FETCHED" "" None) in
  if _is_in_window tweet_time last_check_time now then
    ([t],
     (raw ++ emit decision_logger
        (DecisionLogger.log poll_id run_id screen_name tweet_id tier
           "window" "pass" "WINDOW_IN_RANGE" "" None))%list)
  else
    ([],
     (raw ++ emit decision_logger
        (DecisionLogger.log poll_id run_id screen_name tweet_id tier
           "window" "drop" "WINDOW_OLD" created_at None))%list).

(** [for t in tweets: ...] of [_extract_tweets]. *)
Fixpoint window_loop (poll_id run_id screen_name tier : string)
    (decision_logger : bool) (last_check_time now : Z) (tweets : list Tweet)
    : list Tweet * list DecisionRecord :=
  match tweets with
  | [] => ([], [])
  | t :: rest =>
      let '(kept, recs) :=
        window_step poll_id run_id screen_name tier decision_logger
          last_check_time now t in
      let '(kept', recs') :=
        window_loop poll_id run_id screen_name tier decision_logger
          last_check_time now rest in
      ((kept ++ kept')%list, (recs ++ recs')%list)
  end.

(** [_extract_tweets]: the in-window tweets, the records logged, and the
    source (its registry may gain the entry [_get_state] creates). *)
Definition _extract_tweets (self : Source) (raw_data : RawData)
    (screen_name : string) (now : Z) (poll_id run_id tier : string)
    (decision_logger : bool) : list Tweet * list DecisionRecord * Source :=
  let tweets := candidates raw_data in
  let '(state, self) := _get_state self screen_name in
  let last_check_time := last_check_time state in
  let '(filtered, recs) :=
    window_loop poll_id run_id screen_name tier decision_logger
      last_check_time now tweets in
  (filtered, recs, self).

(** [importance if importance not in ["filter", "normal"] else "minor"]. *)
Definition accepted_importance (importance : string) : string :=
  if existsb (String.eqb importance) ["filter"; "normal"] then "minor" else importance.

(** The body of [for tweet in tweets:] in [fetch] for one tweet: the item
    appended to [all_items], if any, and the records logged. With the
    members of a tweet being strings nothing in the [try] block raises. *)
Definition classify_tweet (self : Source) (poll_id run_id screen_name tier : string)
    (decision_logger : bool) (tweet : Tweet)
    : option NewsItem * list DecisionRecord :=
  let tweet_id := default "" (tweet_id tweet) in
  let text := default "" (text tweet) in
  if String.eqb text "" then (None, [])
  else
    let vendor := _get_vendor self screen_name in
    let '(importance, importance_rule) := _detect_importance_with_rule text vendor in
    let run := DecisionLogger.str_or run_id poll_id in
    let record stage decision reason_code matched_rule :=
      emit decision_logger
        (DecisionLogger.log poll_id run screen_name tweet_id tier
           stage decision reason_code matched_rule None) in
    if String.eqb importance "filter" then
      (None, record "importance" "drop" "IMPORTANCE_FILTER" importance_rule)
    else if existsb (String.eqb importance) ["normal"; "filter"] then
      (None, record "importance" "drop" "IMPORTANCE_NORMAL" "")
    else
      let passed := record "importance" "pass" "IMPORTANCE_PASS" importance_rule in
      let text_lower := lower text in
      let hit_noise := default "" (first_hit noise_keywords text_lower) in
      if negb (String.eqb hit_noise "") then
        (None, (passed ++ record "noise" "drop" "NOISE_KEYWORD" hit_noise)%list)
      else
        let noise_passed := record "noise" "pass" "NOISE_PASS" "" in
        let url := "https://x.com/" ++ screen_name ++ "/status/" ++ tweet_id in
        let created_at := default "" (created_at tweet) in
        let tweet_time := _parse_tweet_datetime created_at in
        let published_at :=
          match tweet_time with Some t => isoformat t | None => "" end in
        let summary := String.substring 0 400 text in
        let title :=
          if (80 <? String.length text)%nat
          then String.substring 0 80 text ++ "..." else text in
        let item :=
          {| Storage.source := "Twitter:" ++ screen_name;
             Storage.title := title;
             Storage.url := url;
             Storage.summary := summary;
             Storage.published_at := published_at;
             Storage.vendor := Some vendor;
             Storage.importance := Some (accepted_importance importance);
             Storage.account := Some screen_name;
             Storage.tweet_id := Some tweet_id;
             Storage.tier := Some tier;
             Storage.selected_reason :=
               Some ("importance:" ++ DecisionLogger.str_or importance_rule "n/a") |} in
        (Some item, (passed ++ noise_passed)%list).

(** [for tweet in tweets:] of [fetch]. *)
Fixpoint classify_loop (self : Source) (poll_id run_id screen_name tier : string)
    (decision_logger : bool) (tweets : list Tweet)
    : list NewsItem * list DecisionRecord :=
  match tweets with
  | [] => ([], [])
  | tweet :: rest =>
      let '(item, recs) :=
        classify_tweet self poll_id run_id screen_name tier decision_logger tweet in
      let '(items, recs') :=
        classify_loop self poll_id run_id screen_name tier decision_logger rest in
      ((match item with Some i => [i] | None => [] end ++ items)%list,
       (recs ++ recs')%list)
  end.

(** [state["last_check_time"] = poll_start_time]: a write through the
    shared registry entry of the account. *)
Definition set_last_check_time (self : Source) (screen_name : string) (t : Z) : Source :=
  with_states self
    (alter (fun state =>
              {| tier := tier state; last_check_time := t;
                 last_polled_at := last_polled_at state;
                 no_news_streak := no_news_streak state;
                 next_due_at := next_due_at state |})
       (lower screen_name) (account_states self)).

(** The running state of [fetch]: the source, [all_items], and the
    records logged so far. *)
Definition FetchState : Type := Source * list NewsItem * list DecisionRecord.

(** The body of [for acc in self.accounts:] in [fetch]. [net] is what
    the provider answers for each screen name during this call. Of the
    counters in [stats] only [final] is read back: it is the number of items
    this account appended. *)
Definition fetch_account (poll_id run_id : string) (decision_logger : bool)
    (poll_start_time : Z) (net : string -> HttpReply)
    (st : FetchState) (acc : Account) : FetchState :=
  let '(self, all_items, audit) := st in
  let screen_name := account_screen_name acc in
  if String.eqb screen_name "" then st
  else
    let '(state, self) := _get_state self screen_name in
    let tier := tier state in
    let '(due, self) := _should_poll_account self screen_name poll_start_time in
    if negb due then (self, all_items, audit)
    else
      let raw_data := _fetch_user_tweets net screen_name in
      let '(tweets, recs, self) :=
        _extract_tweets self raw_data screen_name poll_start_time
          poll_id (DecisionLogger.str_or run_id poll_id) tier decision_logger in
      let '(items, recs') :=
        classify_loop self poll_id run_id screen_name tier decision_logger tweets in
      let self := set_last_check_time self screen_name poll_start_time in
      let self :=
        _advance_account_schedule self screen_name
          (0 <? Z.of_nat (length items)) poll_start_time in
      (self, (all_items ++ items)%list, (audit ++ recs ++ recs')%list).

(** [fetch]: [poll_start_time] is the clock reading taken on entry. The
    result is the source after the call, the items returned, and the
    records logged. *)
Definition fetch (self : Source) (poll_id run_id : string) (decision_logger : bool)
    (poll_start_time : Z) (net : string -> HttpReply) : FetchState :=
  fold_left (fetch_account poll_id run_id decision_logger poll_start_time net)
    (accounts self) (self, [], []).

(** One tick of the main loop as the source sees it: the poll id of the
    round (also its run id), the clock reading [fetch] takes on entry,
    and the provider's answers during the call. *)
Record Tick := {
  tick_poll_id : string;
  tick_now : Z;
  tick_net : string -> HttpReply;
}.

(** The life of the process as the source sees it: one [fetch] per tick,
    called by [run_once] with the decision logger. *)
Fixpoint run_ticks (self : Source) (ticks : list Tick) : Source :=
  match ticks with
  | [] => self
  | k :: rest =>
      run_ticks
        (fetch self (tick_poll_id k) (tick_poll_id k) true (tick_now k) (tick_net k)).1.1
        rest
  end.


End WithRuntime.

End TikHubTwitterSource.

(** ** The Telegram notifier *)

Module TelegramNotifier.
Export Storage(NewsItem).

(** What the notifier takes from outside: the text [_format_item] builds
    for an item (it embeds the clock and an LLM summary), the header and
    the numbered line of a batch message, and the Telegram API, whose
    answer to the [n]-th request of the process with a given text is
    [api n text] ([false] for any exception or a body without [ok]). *)
Class TelegramEnv := {
  _format_item : NewsItem -> string;
  batch_header : nat -> string;
  batch_line : nat -> NewsItem -> string;
  api : nat -> string -> bool;
}.

Definition acquisition_keywords : list string :=
  ["acqui"; "acquisition"; "acquire"; "merge"; "merger"; "收购"; "并购"; "合并";
   "acquired"; "acquires"; "acquired by"].

Definition major_keywords : list string :=
  ["new"; "release"; "launch"; "debut"; "introduce"; "announce";
   "新"; "发布"; "推出"; "上线"; "首发"; "重大";
   "gpt-5"; "gpt4"; "claude-4"; "opus"; "sonnet";
   "gemini"; "llama"; "deepseek"; "qwen"; "minimax";
   "model"; "api"; "version"; "v2"; "v3"; "v4"; "v5";
   "feature"; "plugin"; "mode"; "extend"; "support";
   "cowork"; "codex"; "app"; "agent"; "tool"].

Definition normal_keywords : list string :=
  ["fix"; "patch"; "bug"; "hotfix"; "maintenance";
   "update"; "修复"; "补丁"; "维护"].

Section WithRuntime.
Context `{PyRuntime} `{TelegramEnv}.

(** [_detect_importance] of the notifier: a label only, no matched rule. *)
Definition _detect_importance (item : NewsItem) : string :=
  let text := lower (strip (Storage.title item ++ " " ++ Storage.summary item)) in
  if existsb (fun kw => contains kw text) acquisition_keywords then "minor"
  else if existsb (fun kw => contains kw text) major_keywords then "major"
  else if existsb (fun kw => contains kw text) normal_keywords then "normal"
  else "normal".

(** [getattr(item, "importance", None) or self._detect_importance(item)]. *)
Definition importance_of (item : NewsItem) : string :=
  match Storage.importance item with
  | Some imp => if String.eqb imp "" then _detect_importance item else imp
  | None => _detect_importance item
  end.

(** [_send_text]: one request; [sent] is the list of texts posted so far.
    Every exception is caught and becomes [False]. *)
Definition _send_text (sent : list string) (text : string) : bool * list string :=
  (api (length sent) text, (sent ++ [text])%list).

(** [send]. *)
Definition send (sent : list string) (item : NewsItem) : bool * list string :=
  _send_text sent (_format_item item).

(** [sorted(items, key=score)]: the sort is stable and the key is 0 for
    major items and 1 for the others. *)
Definition ordered (items : list NewsItem) : list NewsItem :=
  (List.filter (fun it => String.eqb (importance_of it) "major") items
   ++ List.filter (fun it => negb (String.eqb (importance_of it) "major")) items)%list.

(** [for idx, item in enumerate(ordered, 1)]. *)
Fixpoint lines_from (idx : nat) (items : list NewsItem) : list string :=
  match items with
  | [] => []
  | item :: rest => batch_line idx item :: lines_from (S idx) rest
  end.

(** The chunking loop: the finished chunks and the chunk being built. *)
Fixpoint chunk_loop (chunks : list string) (current : string) (lines : list string)
    : list string * string :=
  match lines with
  | [] => (chunks, current)
  | line :: rest =>
      let block := line ++ "

" in
      if (3600 <? String.length current + String.length block)%nat
      then chunk_loop (chunks ++ [rstrip current])%list ("🧾 批次续报
" ++ block) rest
      else chunk_loop chunks (current ++ block) rest
  end.

(** [for msg in chunks: ok = self._send_text(msg); all_ok = all_ok and ok]:
    every chunk is posted, also after a failure. *)
Fixpoint send_chunks (sent : list string) (all_ok : bool) (chunks : list string)
    : bool * list string :=
  match chunks with
  | [] => (all_ok, sent)
  | msg :: rest =>
      let '(ok, sent) := _send_text sent msg in
      send_chunks sent (all_ok && ok) rest
  end.

(** [send_batch]. *)
Definition send_batch (sent : list string) (items : list NewsItem) : bool * list string :=
  match items with
  | [] => (true, sent)
  | _ =>
      let ordered := ordered items in
      let header := batch_header (length ordered) in
      let lines := lines_from 1 ordered in
      let '(chunks, current) := chunk_loop [] header lines in
      let chunks :=
        if String.eqb (strip current) "" then chunks
        else (chunks ++ [rstrip current])%list in
      send_chunks sent true chunks
  end.

End WithRuntime.

End TelegramNotifier.

(** ** One round of the main loop *)

Module Main.
Import Storage DecisionLogger TelegramNotifier.

(** What [run_once] builds while it walks the fetched items: the [entries]
    table, the number of inserts attempted so far, [staged_items], and
    the records logged. *)
Record RunState := {
  entries : list Row;
  save_calls : nat;
  staged_items : list NewsItem;
  audit : list DecisionRecord;
}.

(** What a round leaves behind. *)
Record RunResult := {
  final_entries : list Row;
  final_audit : list DecisionRecord;
  final_sent : list string;
  pushed : nat;
}.

Section WithRuntime.
Context `{PyRuntime} `{TelegramEnv}.

(** [faults n] is what the database engine does to the [n]-th insert of
    the round (see [Storage.execute_insert]). *)
Variable faults : nat -> option exn.

(** [getattr(item, "account", item.source.replace("Twitter:", ""))]. *)
Definition account_of (item : NewsItem) : string :=
  default (replace "Twitter:" "" (source item)) (Storage.account item).

(** [str(getattr(item, "tweet_id", ""))]. *)
Definition tweet_id_of (item : NewsItem) : string :=
  default "" (Storage.tweet_id item).

(** [str(getattr(item, "tier", "A"))]. *)
Definition tier_of (item : NewsItem) : string :=
  default "A" (Storage.tier item).

(** The body of [for item in items:] for one item. An exception leaves
    the loop; the state reached so far stays. *)
Definition stage_item (poll_id : string) (st : RunState) (item : NewsItem)
    : outcome unit * RunState :=
  let importance := importance_of item in
  if negb (existsb (String.eqb importance) ["major"; "minor"]) then (Return tt, st)
  else
    let account := account_of item in
    let tweet_id := tweet_id_of item in
    let tier := tier_of item in
    let '(saved, entries') :=
      save_if_new (entries st) (faults (save_calls st)) item in
    let st := {| entries := entries'; save_calls := S (save_calls st);
                 staged_items := staged_items st; audit := audit st |} in
    match saved with
    | Raise e => (Raise e, st)
    | Return true =>
        (Return tt,
         {| entries := entries st; save_calls := save_calls st;
            staged_items := (staged_items st ++ [item])%list;
            audit := (audit st ++
              [log poll_id poll_id account tweet_id tier "dedupe" "pass"
                 "DEDUPE_NEW" (default "" (Storage.selected_reason item)) None])%list |})
    | Return false =>
        (Return tt,
         {| entries := entries st; save_calls := save_calls st;
            staged_items := staged_items st;
            audit := (audit st ++
              [log poll_id poll_id account tweet_id tier "dedupe" "drop"
                 "DEDUPE_HASH" "content_hash_exists" None])%list |})
    end.

(** [for item in items:] inside the [try] of one source: an exception is
    logged by the handler and the round goes on with the next source. *)
Fixpoint stage_items (poll_id : string) (st : RunState) (items : list NewsItem)
    : RunState :=
  match items with
  | [] => st
  | item :: rest =>
      match stage_item poll_id st item with
      | (Return _, st') => stage_items poll_id st' rest
      | (Raise _, st') => st'
      end
  end.

(** The record a push logs. *)
Definition push_record (poll_id account tweet_id tier : string) (ok : bool)
    (matched_rule : string) (extra : option (list string)) : DecisionRecord :=
  log poll_id poll_id account tweet_id tier "push"
    (if ok then "pass" else "drop") (if ok then "PUSH_OK" else "PUSH_FAIL")
    matched_rule extra.

(** The two loops that push item by item (night, and the fallback after a
    failed batch): [send] each item, count the successes, log a record. *)
Fixpoint push_each (poll_id matched_rule : string) (extra : option (list string))
    (sent : list string) (pushed : nat) (items : list NewsItem)
    : list string * nat * list DecisionRecord :=
  match items with
  | [] => (sent, pushed, [])
  | item :: rest =>
      let '(ok, sent) := send sent item in
      let pushed := if ok then S pushed else pushed in
      let r := push_record poll_id (account_of item) (tweet_id_of item)
                 (tier_of item) ok matched_rule extra in
      let '(sent, pushed, recs) :=
        push_each poll_id matched_rule extra sent pushed rest in
      (sent, pushed, r :: recs)
  end.

(** The push phase of [run_once] for a non-empty [staged_items]; [night]
    is [_is_night_window_beijing()] at that moment. *)
Definition push_phase (poll_id : string) (night : bool) (sent : list string)
    (staged_items : list NewsItem) : list string * nat * list DecisionRecord :=
  if night then push_each poll_id "night_single" None sent 0%nat staged_items
  else
    let batch_tweet_ids := map tweet_id_of staged_items in
    let '(ok, sent) := send_batch sent staged_items in
    let batch :=
      push_record poll_id "__batch__" (join "," batch_tweet_ids) "-" ok
        "day_batch" (Some batch_tweet_ids) in
    if ok then
      (sent, length staged_items,
       batch :: map (fun item =>
                       push_record poll_id (account_of item) (tweet_id_of item)
                         (tier_of item) true "day_batch" (Some batch_tweet_ids))
                  staged_items)
    else
      let '(sent, pushed, recs) :=
        push_each poll_id "day_batch_fallback_single" (Some batch_tweet_ids)
          sent 0%nat staged_items in
      (sent, pushed, batch :: recs).

(** [run_once]. [fetched] holds, source by source, the items
    [source.fetch(...)] returned (none for a source whose fetch raised);
    [entries] and [sent] are the table and the Telegram requests before
    the round. *)
Definition run_once (poll_id : string) (night : bool) (entries : list Row)
    (sent : list string) (fetched : list (list NewsItem)) : RunResult :=
  let st := fold_left (stage_items poll_id) fetched
              {| entries := entries; save_calls := 0%nat;
                 staged_items := []; audit := [] |} in
  match staged_items st with
  | [] => {| final_entries := Main.entries st; final_audit := audit st;
             final_sent := sent; pushed := 0%nat |}
  | _ =>
      let '(sent, pushed, recs) := push_phase poll_id night sent (staged_items st) in
      {| final_entries := Main.entries st; final_audit := (audit st ++ recs)%list;
         final_sent := sent; pushed := pushed |}
  end.

End WithRuntime.

End Main.

(** ** A concrete runtime, for running the model on examples *)

Module Sample.
Import Clock.

(** [str.isspace] on ASCII characters. *)
Definition is_space (c : ascii) : bool :=
  let n := nat_of_ascii c in
  ((n =? 32) || ((9 <=? n) && (n <=? 13)) || ((28 <=? n) && (n <=? 31)))%nat.

Definition lower_char (c : ascii) : ascii :=
  let n := nat_of_ascii c in
  if ((65 <=? n) && (n <=? 90))%nat then ascii_of_nat (n + 32) else c.

Definition upper_char (c : ascii) : ascii :=
  let n := nat_of_ascii c in
  if ((97 <=? n) && (n <=? 122))%nat then ascii_of_nat (n - 32) else c.

Fixpoint map_chars (f : ascii -> ascii) (s : string) : string :=
  match s with
  | EmptyString => EmptyString
  | String c rest => String (f c) (map_chars f rest)
  end.

Fixpoint lstrip_ascii (s : string) : string :=
  match s with
  | EmptyString => EmptyString
  | String c rest => if is_space c then lstrip_ascii rest else s
  end.

Fixpoint rstrip_ascii (s : string) : string :=
  match s with
  | EmptyString => EmptyString
  | String c rest =>
      let rest' := rstrip_ascii rest in
      if is_space c && String.eqb rest' "" then "" else String c rest'
  end.

Fixpoint split_from (cur : string) (s : string) : list string :=
  match s with
  | EmptyString => if String.eqb cur "" then [] else [cur]
  | String c rest =>
      if is_space c
      then (if String.eqb cur "" then split_from "" rest else cur :: split_from "" rest)
      else split_from (cur ++ String c "") rest
  end.

Fixpoint drop (n : nat) (s : string) : string :=
  match n, s with
  | O, _ => s
  | S n', String _ rest => drop n' rest
  | S _, EmptyString => EmptyString
  end.

Fixpoint replace_fuel (fuel : nat) (old new s : string) : string :=
  match fuel with
  | O => s
  | S fuel' =>
      if String.prefix old s && negb (String.eqb old "")
      then new ++ replace_fuel fuel' old new (drop (String.length old) s)
      else match s with
           | EmptyString => EmptyString
           | String c rest => String c (replace_fuel fuel' old new rest)
           end
  end.

(** The answers of [strptime] on the timestamps used in the examples
    below, as Python computes them; any other string is rejected. *)
Definition strptime_table : list (string * Z) :=
  [("Wed Nov 04 03:00:00 +0000 2026", 1793761200000000);
   ("Wed Nov 04 03:30:00 +0000 2026", 1793763000000000);
   ("Wed Nov 04 04:00:00 +0000 2026", 1793764800000000);
   ("Wed Nov 04 06:00:00 +0000 2026", 1793772000000000);
   ("Wed Nov 04 13:50:00 +0000 2026", 1793800200000000);
   ("Wed Nov 04 14:00:00 +0000 2026", 1793800800000000)].

Definition strptime_sample (s : string) : option Z :=
  snd <$> List.find (fun e => String.eqb (fst e) s) strptime_table.

(** Days since the epoch to (year, month, day) in the Gregorian calendar. *)
Definition civil_from_days (days : Z) : Z * Z * Z :=
  let z := days + 719468 in
  let era := z / 146097 in
  let doe := z - era * 146097 in
  let yoe := (doe - doe / 1460 + doe / 36524 - doe / 146096) / 365 in
  let doy := doe - (365 * yoe + yoe / 4 - yoe / 100) in
  let mp := (5 * doy + 2) / 153 in
  let d := doy - (153 * mp + 2) / 5 + 1 in
  let m := if mp <? 10 then mp + 3 else mp - 9 in
  let y := yoe + era * 400 in
  (if m <=? 2 then y + 1 else y, m, d).

Definition digit (n : Z) : string :=
  String (ascii_of_nat (48 + Z.to_nat (n mod 10))) "".

Fixpoint digits (width : nat) (n : Z) : string :=
  match width with
  | O => ""
  | S w => digits w (n / 10) ++ digit n
  end.

(** [isoformat] of an instant shown at UTC+8. *)
Definition isoformat_bj (t : Z) : string :=
  let local := t + 8 * usec_per_hour in
  let usec_per_day := 24 * usec_per_hour in
  let '(y, m, d) := civil_from_days (local / usec_per_day) in
  let rest := local mod usec_per_day in
  let us := rest mod usec_per_second in
  digits 4 y ++ "-" ++ digits 2 m ++ "-" ++ digits 2 d ++ "T"
  ++ digits 2 (rest / usec_per_hour) ++ ":"
  ++ digits 2 (rest / usec_per_minute mod 60) ++ ":"
  ++ digits 2 (rest / usec_per_second mod 60)
  ++ (if us =? 0 then "" else "." ++ digits 6 us)
  ++ "+08:00".

(** Python's string methods on ASCII text, the table above for
    [strptime], and the identity in place of SHA-256 (distinct inputs,
    distinct digests). *)
Definition runtime : PyRuntime :=
  {| lower := map_chars lower_char;
     upper := map_chars upper_char;
     strip := fun s => rstrip_ascii (lstrip_ascii s);
     rstrip := rstrip_ascii;
     split := split_from "";
     replace := fun old new s => replace_fuel (S (String.length s)) old new s;
     strptime := strptime_sample;
     isoformat := isoformat_bj;
     sha256_hexdigest := fun s => s |}.

(** A notifier environment with plain message texts and the given API. *)
Definition telegram (api : nat -> string -> bool) : TelegramNotifier.TelegramEnv :=
  {| TelegramNotifier._format_item := fun item => Storage.title item ++ " " ++ Storage.url item;
     TelegramNotifier.batch_header := fun n => "batch
";
     TelegramNotifier.batch_line := fun idx item => Storage.title item;
     TelegramNotifier.api := api |}.

End Sample.

(** ** Closed forms used to state the lemmas on [fetch] *)

Module Closed.
Import Clock Policy TikHubTwitterSource.

(** The decision of [_should_poll_account] read off a registry entry. *)
Definition is_due (state : AccountState) (now : Z) : bool :=
  if _is_night_window now then
    match last_polled_at state with
    | None => true
    | Some last_polled => 15 * 60 * usec_per_second <=? now - last_polled
    end
  else next_due_at state <=? now.

(** The registry entry of an account after [fetch] polled it at [now]. *)
Definition polled (state : AccountState) (has_news : bool) (now : Z) : AccountState :=
  let streak := if has_news then 0 else Z.min (no_news_streak state + 1) 6 in
  {| tier := tier state;
     last_check_time := now;
     last_polled_at := Some now;
     no_news_streak := streak;
     next_due_at := now + minutes (_next_interval_minutes (tier state) streak now) |}.

(** The test of the window filter on one tweet. *)
Definition in_window `{PyRuntime} (last_check_time now : Z) (t : Tweet) : bool :=
  _is_in_window (_parse_tweet_datetime (default "" (created_at t))) last_check_time now.



(** [kw] is the first keyword of [kws], in list order, that occurs in [text]. *)
Definition first_occurrence (kws : list string) (text kw : string) : Prop :=
  exists before after,
    kws = (before ++ kw :: after)%list
    /\ contains kw text = true
    /\ forall k, In k before -> contains k text = false.

(** No keyword of [kws] occurs in [text]. *)
Definition none_occurs (kws : list string) (text : string) : Prop :=
  forall k, In k kws -> contains k text = false.

(** Every streak of the registry lies in 0..6. *)
Definition streaks_bounded (self : Source) : Prop :=
  forall key state, account_states self !! key = Some state ->
    0 <= no_news_streak state <= 6.

(** Neither the start time nor any window bound of the registry is later
    than [bound]. *)
Definition checked_by (bound : Z) (self : Source) : Prop :=
  (_init_time self <= bound) /\
  (forall key state, account_states self !! key = Some state ->
     last_check_time state <= bound).


End Closed.

(** ** Example data *)

Module Examples.
Import TikHubTwitterSource.

(** 2026-11-04 12:00 Beijing time (day window) and 22:00 (night window). *)
Definition noon : Z := 1793764800000000.
Definition late : Z := 1793800800000000.

(** A source configured with one tier-A account, started at 11:00. *)
Definition openai : Account :=
  {| cfg_screen_name := Some "OpenAI"; cfg_tier := Some "a";
     cfg_vendor := Some "OpenAI"; cfg_is_founder := false |}.

Definition started : Source := @__init__ Sample.runtime [openai] 1793761200000000.

(** The provider's answer with one timeline tweet stamped 11:30 Beijing
    time that has no text, and one with a launch text. *)
Definition silent_tweet : Tweet :=
  {| tweet_id := Some "1001"; created_at := Some "Wed Nov 04 03:30:00 +0000 2026";
     text := Some "" |}.

Definition launch_tweet : Tweet :=
  {| tweet_id := Some "1002"; created_at := Some "Wed Nov 04 03:30:00 +0000 2026";
     text := Some "OpenAI ships GPT-5" |}.

Definition answer (tweets : list Tweet) : string -> HttpReply :=
  fun _ => HttpJson (Some {| pinned := None; timeline := map Some tweets |}).

Definition failing : string -> HttpReply := fun _ => HttpFailed.

(** Tweets stamped exactly at the start of the window (11:00) and exactly
    at the poll (12:00), and one whose timestamp does not parse. *)
Definition boundary_old : Tweet :=
  {| tweet_id := Some "1"; created_at := Some "Wed Nov 04 03:00:00 +0000 2026";
     text := Some "OpenAI ships GPT-5" |}.

Definition boundary_new : Tweet :=
  {| tweet_id := Some "2"; created_at := Some "Wed Nov 04 04:00:00 +0000 2026";
     text := Some "OpenAI ships GPT-5" |}.

Definition undated : Tweet :=
  {| tweet_id := Some "3"; created_at := Some "yesterday";
     text := Some "OpenAI ships GPT-5" |}.

Definition afternoon_tweet : Tweet :=
  {| tweet_id := Some "5"; created_at := Some "Wed Nov 04 06:00:00 +0000 2026";
     text := Some "OpenAI ships GPT-5" |}.

Definition hiring_tweet : Tweet :=
  {| tweet_id := Some "4"; created_at := Some "Wed Nov 04 03:30:00 +0000 2026";
     text := Some "Launch party: the team is hiring engineers" |}.

Definition greeting_tweet : Tweet :=
  {| tweet_id := Some "1003"; created_at := Some "Wed Nov 04 03:30:00 +0000 2026";
     text := Some "Good morning" |}.

(** The source after a first poll at noon during which the request failed. *)
Definition polled_once : Source :=
  (@fetch Sample.runtime started "p0" "p0" true noon failing).1.1.

Definition after_failed_poll : AccountState :=
  {| tier := "A"; last_check_time := noon; last_polled_at := Some noon;
     no_news_streak := 1; next_due_at := noon + Clock.minutes 60 |}.

Definition tick_noon : Tick :=
  {| tick_poll_id := "p1"; tick_now := noon; tick_net := failing |}.


(** Two accepted items, as [fetch] builds them. *)
Definition item_a : NewsItem :=
  {| Storage.source := "Twitter:OpenAI"; Storage.title := "OpenAI ships GPT-5";
     Storage.url := "https://x.com/OpenAI/status/1002";
     Storage.summary := "OpenAI ships GPT-5";
     Storage.published_at := "2026-11-04T11:30:00+08:00";
     Storage.vendor := Some "OpenAI"; Storage.importance := Some "major";
     Storage.account := Some "OpenAI"; Storage.tweet_id := Some "1002";
     Storage.tier := Some "A"; Storage.selected_reason := Some "importance:gpt-" |}.

Definition item_b : NewsItem :=
  {| Storage.source := "Twitter:OpenAI"; Storage.title := "Bug fix for the editor";
     Storage.url := "https://x.com/OpenAI/status/1004";
     Storage.summary := "Bug fix for the editor";
     Storage.published_at := "2026-11-04T11:30:00+08:00";
     Storage.vendor := Some "OpenAI"; Storage.importance := Some "minor";
     Storage.account := Some "OpenAI"; Storage.tweet_id := Some "1004";
     Storage.tier := Some "A"; Storage.selected_reason := Some "importance:fix" |}.

(** A Telegram API that refuses the first two requests and accepts the third. *)
Definition flaky : TelegramNotifier.TelegramEnv :=
  Sample.telegram (fun n _ => Nat.eqb n 2).

(** A table that already holds [item_a], and two database behaviours. *)
Definition table_with_a : list Storage.Row :=
  (@Storage.save_if_new Sample.runtime [] None item_a).2.

Definition locked : nat -> option Storage.exn :=
  fun _ => Some (Storage.OtherException "database is locked").

Definition healthy : nat -> option Storage.exn := fun _ => None.

End Examples.

(** ** Page snapshots of the storage layer *)

Module Snapshots.

(** One row of the [snapshots] table; [source] is its primary key, so the
    table is a finite map from sources to rows. *)
Record Snapshot := {
  page_hash : string;
  last_checked_at : string;
}.

(** [get_snapshot_hash]: [row["page_hash"] if row else None]. *)
Definition get_snapshot_hash (snapshots : gmap string Snapshot) (source : string)
    : option string :=
  page_hash <$> snapshots !! source.

(** [upsert_snapshot_hash]: [INSERT ... ON CONFLICT(source) DO UPDATE];
    [now_iso] is the reading of [_now_iso()]. *)
Definition upsert_snapshot_hash (snapshots : gmap string Snapshot)
    (source page_hash now_iso : string) : gmap string Snapshot :=
  <[source := {| page_hash := page_hash; last_checked_at := now_iso |}]> snapshots.

End Snapshots.

(** ** The RSS source *)

Module RSSSource.
Export Storage(NewsItem).

(** The attributes of a feed entry the source reads; [None] when the entry
    lacks the attribute. *)
Record Entry := {
  entry_title : option string;
  entry_link : option string;
  entry_summary : option string;
  entry_description : option string;
  entry_published : option string;
  entry_updated : option string;
}.

(** The fields of the source object. *)
Record Source := {
  name : string;
  url : string;
  max_items : Z;
}.

(** What the source takes from its libraries: the text BeautifulSoup
    extracts from a fragment, and [parsedate_to_datetime] followed by the
    conversion to an ISO string in UTC ([None] when it raises). *)
Class RssEnv := {
  html_text : string -> string;
  parsedate_iso : string -> option string;
}.

(** [l[:n]] for an integer [n]: a negative [n] counts from the end. *)
Definition slice_to {A} (n : Z) (l : list A) : list A :=
  if 0 <=? n then firstn (Z.to_nat n) l
  else firstn (Z.to_nat (Z.of_nat (length l) + n)) l.

(** [a or b] on strings that may be absent. *)
Definition or_else (a : option string) (b : string) : string :=
  match a with
  | Some s => if String.eqb s "" then b else s
  | None => b
  end.

Section WithRuntime.
Context `{PyRuntime} `{RssEnv}.

(** [_clean_html]. *)
Definition _clean_html (text : string) : string :=
  if String.eqb text "" then "" else html_text text.

(** [_normalize_date]. *)
Definition _normalize_date (date_text : string) : string :=
  if String.eqb date_text "" then ""
  else match parsedate_iso date_text with
       | Some iso => iso
       | None => strip date_text
       end.

(** The body of the loop of [fetch] for one entry. *)
Definition item_of_entry (self : Source) (entry : Entry) : option NewsItem :=
  let title :=
    let stripped := strip (or_else (entry_title entry) "") in
    if String.eqb stripped "" then "(无标题)" else stripped in
  let link := strip (or_else (entry_link entry) "") in
  if String.eqb link "" then None
  else
    let summary_raw := or_else (entry_summary entry) (or_else (entry_description entry) "") in
    let summary := String.substring 0 400 (_clean_html summary_raw) in
    let published_raw := or_else (entry_published entry) (or_else (entry_updated entry) "") in
    let published_at := _normalize_date published_raw in
    Some {| Storage.source := name self; Storage.title := title; Storage.url := link;
            Storage.summary := summary; Storage.published_at := published_at;
            Storage.vendor := None; Storage.importance := None;
            Storage.account := None; Storage.tweet_id := None;
            Storage.tier := None; Storage.selected_reason := None |}.

(** [fetch]: [feed] is what [feedparser.parse] returned, [None] when it
    raised; the handler then returns the empty list built so far. *)
Definition fetch (self : Source) (feed : option (list Entry)) : list NewsItem :=
  match feed with
  | None => []
  | Some entries => omap (item_of_entry self) (slice_to (max_items self) entries)
  end.

End WithRuntime.

End RSSSource.

(** ** The web page source *)

Module WebSource.
Export Storage(NewsItem).
Import Snapshots.

(** An element BeautifulSoup selected: its tag name, the text
    [get_text(" ", strip=True)] gives, and its [href] attribute. *)
Record Element := {
  el_name : string;
  el_text : string;
  el_href : option string;
}.

(** What the four [select_one] calls find in one article container. *)
Record Container := {
  title_el : option Element;
  link_el : option Element;
  summary_el : option Element;
  date_el : option Element;
}.

(** What the two [select] calls find in the page. *)
Record Soup := {
  containers : list Container;
  anchors : list Element;
}.

(** The fields of the source object the code below reads. *)
Record Source := {
  name : string;
  url : string;
  max_items : Z;
  fallback_change_notice : bool;
}.

(** What the source takes from its libraries: the parse of a page with the
    configured selectors applied, and [urljoin]. *)
Class WebEnv := {
  soup_of : string -> Soup;
  urljoin : string -> string -> string;
}.

(** [(el.get("href") or "").strip()]. *)
Definition href_of `{PyRuntime} (el : Element) : string :=
  strip (RSSSource.or_else (el_href el) "").

Definition plain_item (source title url summary published_at : string) : NewsItem :=
  {| Storage.source := source; Storage.title := title; Storage.url := url;
     Storage.summary := summary; Storage.published_at := published_at;
     Storage.vendor := None; Storage.importance := None;
     Storage.account := None; Storage.tweet_id := None;
     Storage.tier := None; Storage.selected_reason := None |}.

Definition path_markers : list string := ["/blog"; "/news"; "/post"; "/article"].

Section WithRuntime.
Context `{PyRuntime} `{WebEnv}.

(** The heuristic loop over all links of a page without containers. *)
Fixpoint heuristic_loop (self : Source) (links : list Element) (seen_urls : gset string)
    (items : list NewsItem) : list NewsItem :=
  match links with
  | [] => items
  | a :: rest =>
      let href := href_of a in
      let text := el_text a in
      if String.eqb href "" || (String.length text <? 4)%nat
      then heuristic_loop self rest seen_urls items
      else
        let full_url := urljoin (url self) href in
        let key := lower full_url in
        if bool_decide (key ∈ seen_urls) then heuristic_loop self rest seen_urls items
        else
          let hit := existsb (fun k => contains k key) path_markers in
          let seen_urls := if hit then {[key]} ∪ seen_urls else seen_urls in
          let items :=
            if hit
            then (items ++ [plain_item (name self) (String.substring 0 160 text)
                              full_url "" ""])%list
            else items in
          if max_items self <=? Z.of_nat (length items) then items
          else heuristic_loop self rest seen_urls items
  end.

(** The loop over the article containers. *)
Fixpoint structured_loop (self : Source) (cs : list Container) (seen_urls : gset string)
    (items : list NewsItem) : list NewsItem :=
  match cs with
  | [] => items
  | container :: rest =>
      match title_el container with
      | None => structured_loop self rest seen_urls items
      | Some title_el =>
          let title := String.substring 0 160 (el_text title_el) in
          if String.eqb title "" then structured_loop self rest seen_urls items
          else
            let href :=
              match link_el container with
              | Some link_el => href_of link_el
              | None => ""
              end in
            let href :=
              if String.eqb href "" && String.eqb (el_name title_el) "a"
              then href_of title_el else href in
            if String.eqb href "" then structured_loop self rest seen_urls items
            else
              let full_url := urljoin (url self) href in
              if bool_decide (full_url ∈ seen_urls)
              then structured_loop self rest seen_urls items
              else
                let seen_urls := {[full_url]} ∪ seen_urls in
                let summary :=
                  match summary_el container with
                  | Some el => String.substring 0 400 (el_text el)
                  | None => ""
                  end in
                let published_at :=
                  match date_el container with
                  | Some el => el_text el
                  | None => ""
                  end in
                let items :=
                  (items ++ [plain_item (name self) title full_url summary
                               published_at])%list in
                if max_items self <=? Z.of_nat (length items) then items
                else structured_loop self rest seen_urls items
      end
  end.

(** [_parse_structured_items]. *)
Definition _parse_structured_items (self : Source) (html : string) : list NewsItem :=
  let soup := soup_of html in
  match containers soup with
  | [] => heuristic_loop self (anchors soup) ∅ []
  | cs => structured_loop self cs ∅ []
  end.

(** [fetch]. [reply] is the page text, [None] when the request raised;
    [checked_at] and [noticed_at] are the clock readings of the two
    [_now_iso()] calls. The storage calls are taken to succeed. *)
Definition fetch (self : Source) (reply : option string)
    (snapshots : gmap string Snapshot) (checked_at noticed_at : string)
    : list NewsItem * gmap string Snapshot :=
  match reply with
  | None => ([], snapshots)
  | Some html =>
      let items := _parse_structured_items self html in
      match items with
      | _ :: _ =>
          let fingerprint :=
            join "||" (map (fun it => Storage.title it ++ "|" ++ Storage.url it) items) in
          let page_hash := sha256_hexdigest fingerprint in
          (items, upsert_snapshot_hash snapshots (name self) page_hash checked_at)
      | [] =>
          let current_hash := sha256_hexdigest html in
          let old_hash := get_snapshot_hash snapshots (name self) in
          let snapshots :=
            upsert_snapshot_hash snapshots (name self) current_hash checked_at in
          let changed :=
            match old_hash with
            | Some old => negb (String.eqb old "") && negb (String.eqb old current_hash)
            | None => false
            end in
          if fallback_change_notice self && changed
          then ([plain_item (name self) "官网页面检测到更新" (url self)
                   "未解析到结构化文章，但页面内容发生变化。" noticed_at],
                snapshots)
          else ([], snapshots)
      end
  end.

End WithRuntime.

End WebSource.

(** ** The tick of the main loop *)

Module Loop.

(** A client [build_sources] puts in the list. *)
Inductive Client :=
| RssClient (source : RSSSource.Source)
| TwitterClient (source : TikHubTwitterSource.Source).

(** [get_poll_interval]: the tick of the first Twitter source, whose
    [_get_poll_interval] reads the clock as [now]; otherwise the configured
    default. In seconds. *)
Fixpoint get_poll_interval (sources : list Client) (default_minutes : Z) (now : Z) : Z :=
  match sources with
  | [] => default_minutes * 60
  | TwitterClient _ :: _ => Policy._get_poll_interval now
  | RssClient _ :: rest => get_poll_interval rest default_minutes now
  end.

End Loop.

(** ** Notions used to state the further properties *)

Module Derived.
Import Storage.

(** The row [save_if_new] inserts for an item. *)
Definition row_of `{PyRuntime} (item : NewsItem) : Row :=
  {| row_source := source item; row_title := title item; row_url := url item;
     row_summary := summary item; row_published_at := published_at item;
     content_hash := build_item_hash item |}.

(** The fingerprints of the rows of a table. *)
Definition hashes (entries : list Row) : list string := map content_hash entries.

(** The records of an audit trail with a given reason code. *)
Definition with_reason (reason : string) (audit : list DecisionLogger.DecisionRecord)
    : list DecisionLogger.DecisionRecord :=
  List.filter (fun r => String.eqb (DecisionLogger.reason_code r) reason) audit.

(** The funnel of an audit trail written by [fetch] balances, with [final]
    items output: every raw record has its window record, every importance
    pass its noise record, and every noise pass its item. *)
Definition balanced (final : nat) (audit : list DecisionLogger.DecisionRecord) : Prop :=
  length (with_reason "RAW_FETCHED" audit)
  = (length (with_reason "WINDOW_IN_RANGE" audit)
     + length (with_reason "WINDOW_OLD" audit))%nat
  /\ length (with_reason "IMPORTANCE_PASS" audit)
     = (length (with_reason "NOISE_PASS" audit)
        + length (with_reason "NOISE_KEYWORD" audit))%nat
  /\ length (with_reason "NOISE_PASS" audit) = final.

(** [what ++ suffix] for some [what]. *)
Definition ends_with (suffix s : string) : Prop := exists what, s = what ++ suffix.

(** An item of a plain source: titled, attributed to the source named
    [source_name], and without an importance attribute. *)
Definition well_formed (source_name : string) (item : NewsItem) : Prop :=
  title item <> "" /\ source item = source_name /\ importance item = None.

End Derived.

(** ** Example pages, feeds and items *)

Module Pages.
Import Snapshots.

(** A page without article containers and two links, and a parser that
    knows this page only; [urljoin] of a site root and an absolute path. *)
Definition blog_link : WebSource.Element :=
  {| WebSource.el_name := "a"; WebSource.el_text := "Agents at work";
     WebSource.el_href := Some "/blog/agents" |}.

Definition news_link : WebSource.Element :=
  {| WebSource.el_name := "a"; WebSource.el_text := "Newsroom";
     WebSource.el_href := Some "/news" |}.

Definition listing : string :=
  "<a href=/blog/agents>Agents at work</a><a href=/news>Newsroom</a>".

Definition web : WebSource.WebEnv :=
  {| WebSource.soup_of := fun html =>
       if String.eqb html listing
       then {| WebSource.containers := []; WebSource.anchors := [blog_link; news_link] |}
       else {| WebSource.containers := []; WebSource.anchors := [] |};
     WebSource.urljoin := fun base href => base ++ href |}.

Definition lab (max_items : Z) : WebSource.Source :=
  {| WebSource.name := "Lab"; WebSource.url := "https://lab.example";
     WebSource.max_items := max_items; WebSource.fallback_change_notice := true |}.

(** The snapshot table after a visit of the page "<p>v1</p>": the sample
    runtime takes the text itself as its digest. *)
Definition visited : gmap string Snapshot :=
  {[ "Lab" := {| page_hash := "<p>v1</p>"; last_checked_at := "2026-11-04T03:00:00+00:00" |} ]}.

(** [item_a] of the examples as another source reports it: the title in
    another case and spacing, another URL, a later time of the same day. *)
Definition item_a_again : Storage.NewsItem :=
  {| Storage.source := "Lab"; Storage.title := "  OPENAI ships   gpt-5 ";
     Storage.url := "https://lab.example/blog/gpt-5";
     Storage.summary := "";
     Storage.published_at := " 2026-11-04T18:45:00+08:00";
     Storage.vendor := None; Storage.importance := None;
     Storage.account := None; Storage.tweet_id := None;
     Storage.tier := None; Storage.selected_reason := None |}.

(** The example account written in capitals. *)
Definition openai_caps : TikHubTwitterSource.Account :=
  {| TikHubTwitterSource.cfg_screen_name := Some "OPENAI";
     TikHubTwitterSource.cfg_tier := Some "s";
     TikHubTwitterSource.cfg_vendor := None;
     TikHubTwitterSource.cfg_is_founder := false |}.


End Pages.

(** * Properties *)

(** ** Interval policy *)

Section PolicyFacts.
Import Clock Policy.

Lemma night_window_hours (now : Z) :
  _is_night_window now = true <-> 21 <= hour now < 24 \/ 0 <= hour now < 3.
Proof.
  unfold _is_night_window.
  assert (0 <= hour now < 24) by (unfold hour; apply Z.mod_pos_bound; lia).
  rewrite orb_true_iff, Z.leb_le, Z.ltb_lt. lia.
Qed.

(** C3. For a tier in S, A, B and a streak that is not negative: at night
    the interval is 15 minutes whatever the tier and the streak; by day tier
    B gets 60 at streak 0 and 90 from streak 1 on, tiers S and A get 30 at
    streak 0, 60 at streak 1 and 90 from streak 2 on; the result is always
    one of 15, 30, 60, 90. *)
Theorem next_interval_ladder (tier : string) (streak now : Z) :
  In tier ["S"; "A"; "B"] -> 0 <= streak ->
  (_is_night_window now = true -> _next_interval_minutes tier streak now = 15) /\
  (_is_night_window now = false -> tier = "B" ->
     (streak <= 0 -> _next_interval_minutes tier streak now = 60) /\
     (1 <= streak -> _next_interval_minutes tier streak now = 90)) /\
  (_is_night_window now = false -> tier = "S" \/ tier = "A" ->
     (streak <= 0 -> _next_interval_minutes tier streak now = 30) /\
     (streak = 1 -> _next_interval_minutes tier streak now = 60) /\
     (2 <= streak -> _next_interval_minutes tier streak now = 90)) /\
  In (_next_interval_minutes tier streak now) [15; 30; 60; 90].
Proof.
  intros Htier Hstreak. unfold _next_interval_minutes, _day_base_minutes.
  destruct (_is_night_window now) eqn:Hnight.
  - repeat split; try discriminate; simpl; auto.
  - assert (Hcases : tier = "S" \/ tier = "A" \/ tier = "B")
      by (destruct Htier as [<- | [<- | [<- | []]]]; auto).
    split; [discriminate |]. split; [| split].
    + intros _ ->. simpl.
      split; intros Hs; destruct (Z.leb_spec streak 0); (reflexivity || lia).
    + intros _ Hsa.
      assert (Hbase : (if String.eqb tier "B" then 60 else 30) = 30)
        by (destruct Hsa as [-> | ->]; reflexivity).
      rewrite Hbase. simpl.
      split; [| split]; intros Hs;
        destruct (Z.leb_spec streak 0); try lia; try reflexivity;
        destruct (Z.eqb_spec streak 1); (reflexivity || lia).
    + destruct Hcases as [-> | [-> | ->]]; simpl;
        destruct (streak <=? 0); try destruct (streak =? 1); simpl; auto 6.
Qed.

Lemma next_interval_ladder_witness :
  _next_interval_minutes "A" 2 Examples.noon = 90
  /\ _next_interval_minutes "B" 4 Examples.late = 15.
Proof.
  split.
  - apply (next_interval_ladder "A" 2 Examples.noon); simpl; try reflexivity; try lia; auto.
  - apply (next_interval_ladder "B" 4 Examples.late); simpl; try reflexivity; try lia; auto.
Defined.

End PolicyFacts.

(** ** The registry *)

Section RegistryFacts.
Context `{PyRuntime}.
Import Clock Policy TikHubTwitterSource Closed.

Lemma get_state_present (self : Source) (screen_name : string) (state : AccountState) :
  account_states self !! lower screen_name = Some state ->
  _get_state self screen_name = (state, self).
Proof. intros Hlook. unfold _get_state. now rewrite Hlook. Qed.

Lemma get_state_lookup (self : Source) (screen_name : string) :
  account_states (_get_state self screen_name).2 !! lower screen_name
  = Some (_get_state self screen_name).1.
Proof.
  unfold _get_state.
  destruct (account_states self !! lower screen_name) eqn:Hlook; simpl.
  - exact Hlook.
  - apply lookup_insert_eq.
Qed.

Lemma get_state_keeps (self : Source) (screen_name key : string) (state : AccountState) :
  account_states self !! key = Some state ->
  account_states (_get_state self screen_name).2 !! key = Some state.
Proof.
  intros Hkey. unfold _get_state.
  destruct (account_states self !! lower screen_name) eqn:Hlook; simpl; [exact Hkey |].
  rewrite lookup_insert_ne; [exact Hkey | congruence].
Qed.

Lemma get_state_fields (self : Source) (screen_name : string) :
  accounts (_get_state self screen_name).2 = accounts self
  /\ vendor_map (_get_state self screen_name).2 = vendor_map self
  /\ _init_time (_get_state self screen_name).2 = _init_time self.
Proof.
  unfold _get_state. destruct (account_states self !! lower screen_name); simpl; auto.
Qed.

Lemma get_state_fresh (self : Source) (screen_name : string) :
  account_states self !! lower screen_name = None ->
  (_get_state self screen_name).1 = fresh_state "A" (_init_time self).
Proof. intros Hlook. unfold _get_state. now rewrite Hlook. Qed.

Lemma get_state_twice (self : Source) (screen_name : string) :
  _get_state (_get_state self screen_name).2 screen_name
  = ((_get_state self screen_name).1, (_get_state self screen_name).2).
Proof. apply get_state_present, get_state_lookup. Qed.

Lemma should_poll_present (self : Source) (screen_name : string) (now : Z)
    (state : AccountState) :
  account_states self !! lower screen_name = Some state ->
  _should_poll_account self screen_name now = (is_due state now, self).
Proof.
  intros Hlook. unfold _should_poll_account, is_due.
  rewrite (get_state_present _ _ _ Hlook).
  destruct (_is_night_window now); [destruct (last_polled_at state) |]; reflexivity.
Qed.

End RegistryFacts.

(** ** The window filter *)

Section WindowFacts.
Context `{PyRuntime}.
Import Clock Policy TikHubTwitterSource Closed.

Lemma is_in_window_iff (tweet_time : option Z) (last now : Z) :
  _is_in_window tweet_time last now = true
  <-> exists t, tweet_time = Some t /\ last < t <= now.
Proof.
  unfold _is_in_window. destruct tweet_time as [t |].
  - rewrite andb_true_iff, Z.ltb_lt, Z.leb_le. split.
    + intros [? ?]. exists t. auto.
    + intros (t' & [= <-] & ? & ?). auto.
  - split; [discriminate | intros (t & ? & _); discriminate].
Qed.

Lemma window_loop_kept (poll_id run_id screen_name tier : string) (dl : bool)
    (last now : Z) (tweets : list Tweet) :
  (window_loop poll_id run_id screen_name tier dl last now tweets).1
  = List.filter (in_window last now) tweets.
Proof.
  induction tweets as [| t rest IH]; [reflexivity |].
  simpl. unfold window_step at 1. fold (in_window last now t).
  destruct (window_loop poll_id run_id screen_name tier dl last now rest) as [kept' recs'].
  simpl in IH. subst kept'.
  destruct (in_window last now t); reflexivity.
Qed.

Lemma extract_tweets_kept (self : Source) (raw_data : RawData) (screen_name : string)
    (now : Z) (poll_id run_id tier : string) (dl : bool) :
  (_extract_tweets self raw_data screen_name now poll_id run_id tier dl).1.1
  = List.filter (in_window (last_check_time (_get_state self screen_name).1) now)
      (candidates raw_data).
Proof.
  unfold _extract_tweets.
  destruct (_get_state self screen_name) as [state self'] eqn:Hstate. simpl.
  rewrite <- (window_loop_kept poll_id run_id screen_name tier dl).
  destruct (window_loop poll_id run_id screen_name tier dl
              (last_check_time state) now (candidates raw_data)); reflexivity.
Qed.

(** C2. Among the candidates of a due account the window filter keeps a
    tweet exactly when its provider timestamp parses to an instant [time]
    with [last_check_time < time <= now]; a timestamp equal to
    [last_check_time] is out, one equal to [now] is in; a tweet whose
    timestamp does not parse, or is missing (then the empty string is
    parsed, which the library rejects), is never kept. The filter is a total
    function: no input makes it fail. *)
Theorem window_filter_keeps (self : Source) (raw_data : RawData) (screen_name : string)
    (now : Z) (poll_id run_id tier : string) (decision_logger : bool) (t : Tweet) :
  let T0 := last_check_time (_get_state self screen_name).1 in
  let kept :=
    (_extract_tweets self raw_data screen_name now poll_id run_id tier
       decision_logger).1.1 in
  (In t kept <->
   In t (candidates raw_data) /\
   exists time, _parse_tweet_datetime (default "" (created_at t)) = Some time
                /\ T0 < time <= now)
  /\ _is_in_window (Some T0) T0 now = false
  /\ (T0 < now -> _is_in_window (Some now) T0 now = true)
  /\ (_parse_tweet_datetime (default "" (created_at t)) = None -> ~ In t kept)
  /\ (created_at t = None -> strptime "" = None -> ~ In t kept)
  /\ _is_in_window None T0 now = false.
Proof.
  intros T0 kept.
  assert (Hkept : In t kept <->
            In t (candidates raw_data) /\
            exists time, _parse_tweet_datetime (default "" (created_at t)) = Some time
                         /\ T0 < time <= now).
  { subst kept T0. rewrite extract_tweets_kept, filter_In.
    unfold in_window. now rewrite is_in_window_iff. }
  split; [exact Hkept |].
  split; [unfold _is_in_window; rewrite Z.ltb_irrefl; reflexivity |].
  split; [intros Hlt; unfold _is_in_window;
          apply andb_true_iff; split; [apply Z.ltb_lt; exact Hlt | apply Z.leb_refl] |].
  split; [intros Hnone [_ (time & Hsome & _)] %Hkept; congruence |].
  split; [| reflexivity].
  intros Hmissing Hempty [_ (time & Hsome & _)] %Hkept.
  rewrite Hmissing in Hsome. simpl in Hsome. unfold _parse_tweet_datetime in Hsome.
  congruence.
Qed.

End WindowFacts.

(** ** One account in [fetch] *)

Section PollFacts.
Context `{PyRuntime}.
Import Clock Policy TikHubTwitterSource Closed.

Lemma with_states_same (self : Source) : with_states self (account_states self) = self.
Proof. destruct self; reflexivity. Qed.

Lemma extract_tweets_present (self : Source) (raw_data : RawData) (screen_name : string)
    (now : Z) (poll_id run_id tier : string) (dl : bool) (state : AccountState) :
  account_states self !! lower screen_name = Some state ->
  _extract_tweets self raw_data screen_name now poll_id run_id tier dl
  = (List.filter (in_window (last_check_time state) now) (candidates raw_data),
     (window_loop poll_id run_id screen_name tier dl (last_check_time state) now
        (candidates raw_data)).2,
     self).
Proof.
  intros Hlook. unfold _extract_tweets. rewrite (get_state_present _ _ _ Hlook).
  rewrite <- (window_loop_kept poll_id run_id screen_name tier dl).
  destruct (window_loop poll_id run_id screen_name tier dl
              (last_check_time state) now (candidates raw_data)); reflexivity.
Qed.

(** What [fetch] does for an account that has a registry entry. *)
Lemma fetch_account_present (poll_id run_id : string) (dl : bool) (now : Z)
    (net : string -> HttpReply) (self : Source) (all_items : list NewsItem)
    (audit : list DecisionRecord) (acc : Account) (state : AccountState) :
  let screen_name := account_screen_name acc in
  let tweets := candidates (_fetch_user_tweets net screen_name) in
  let kept := List.filter (in_window (last_check_time state) now) tweets in
  let out := classify_loop self poll_id run_id screen_name (tier state) dl kept in
  screen_name <> "" ->
  account_states self !! lower screen_name = Some state ->
  fetch_account poll_id run_id dl now net (self, all_items, audit) acc
  = if is_due state now then
      (with_states self
         (<[lower screen_name := polled state (0 <? Z.of_nat (length out.1)) now]>
            (account_states self)),
       (all_items ++ out.1)%list,
       (audit
        ++ (window_loop poll_id (DecisionLogger.str_or run_id poll_id) screen_name
              (tier state) dl (last_check_time state) now tweets).2
        ++ out.2)%list)
    else (self, all_items, audit).
Proof.
  intros screen_name tweets kept out Hname Hlook.
  unfold fetch_account. fold screen_name.
  apply String.eqb_neq in Hname. rewrite Hname.
  rewrite (get_state_present _ _ _ Hlook).
  rewrite (should_poll_present _ _ _ _ Hlook).
  destruct (is_due state now); [| reflexivity]. simpl negb. cbv iota.
  rewrite (extract_tweets_present _ _ _ _ _ _ _ _ _ Hlook).
  fold tweets kept out. destruct out as [items recs'] eqn:Hout. simpl fst. simpl snd.
  unfold _advance_account_schedule, set_last_check_time.
  rewrite (get_state_present _ _
             {| tier := tier state; last_check_time := now;
                last_polled_at := last_polled_at state;
                no_news_streak := no_news_streak state;
                next_due_at := next_due_at state |}).
  2:{ simpl. rewrite lookup_alter_eq, Hlook. reflexivity. }
  unfold with_states, polled. simpl. f_equal. f_equal. f_equal.
  apply map_eq. intros k. destruct (decide (lower screen_name = k)) as [<- | Hne].
  - now rewrite !lookup_insert_eq.
  - rewrite !lookup_insert_ne by exact Hne. now rewrite lookup_alter_ne.
Qed.

(** The first thing [fetch] does for an account is [_get_state]; doing it
    beforehand changes nothing. *)
Lemma fetch_account_get_state (poll_id run_id : string) (dl : bool) (now : Z)
    (net : string -> HttpReply) (self : Source) (all_items : list NewsItem)
    (audit : list DecisionRecord) (acc : Account) :
  fetch_account poll_id run_id dl now net (self, all_items, audit) acc
  = if String.eqb (account_screen_name acc) "" then (self, all_items, audit)
    else fetch_account poll_id run_id dl now net
           ((_get_state self (account_screen_name acc)).2, all_items, audit) acc.
Proof.
  unfold fetch_account.
  destruct (String.eqb (account_screen_name acc) "") eqn:Hname; [reflexivity |].
  rewrite get_state_twice.
  destruct (_get_state self (account_screen_name acc)) as [state self']. reflexivity.
Qed.

End PollFacts.

(** ** The due-set selector *)

Section SelectorFacts.
Context `{PyRuntime}.
Import Clock Policy TikHubTwitterSource Closed.

Lemma get_state_other (self : Source) (screen_name key : string) :
  key <> lower screen_name ->
  account_states (_get_state self screen_name).2 !! key = account_states self !! key.
Proof.
  intros Hne. unfold _get_state.
  destruct (account_states self !! lower screen_name); simpl; [reflexivity |].
  now rewrite lookup_insert_ne by congruence.
Qed.

(** The registry after [fetch] handled one account, entry by entry. *)
Lemma fetch_account_lookup (poll_id run_id : string) (dl : bool) (now : Z)
    (net : string -> HttpReply) (self : Source) (all_items : list NewsItem)
    (audit : list DecisionRecord) (acc : Account) (key : string) :
  let screen_name := account_screen_name acc in
  let state := (_get_state self screen_name).1 in
  exists has_news : bool,
    account_states
      (fetch_account poll_id run_id dl now net (self, all_items, audit) acc).1.1 !! key
    = if String.eqb screen_name "" then account_states self !! key
      else if decide (key = lower screen_name)
           then Some (if is_due state now then polled state has_news now else state)
           else account_states self !! key.
Proof.
  intros screen_name state. rewrite fetch_account_get_state. fold screen_name.
  destruct (String.eqb screen_name "") eqn:Hname; [exists true; reflexivity |].
  apply String.eqb_neq in Hname.
  pose proof (get_state_lookup self screen_name) as Hlook. fold state in Hlook.
  rewrite (fetch_account_present _ _ _ _ _ _ _ _ _ state Hname Hlook).
  destruct (is_due state now).
  - eexists. simpl. destruct (decide (key = lower screen_name)) as [-> | Hne].
    + apply lookup_insert_eq.
    + rewrite lookup_insert_ne by (intros Heq; apply Hne; symmetry; exact Heq).
      now apply get_state_other.
  - exists true. simpl. destruct (decide (key = lower screen_name)) as [-> | Hne].
    + exact Hlook.
    + now apply get_state_other.
Qed.

Lemma fetch_account_init_time (poll_id run_id : string) (dl : bool) (now : Z)
    (net : string -> HttpReply) (self : Source) (all_items : list NewsItem)
    (audit : list DecisionRecord) (acc : Account) :
  let self' := (fetch_account poll_id run_id dl now net (self, all_items, audit) acc).1.1 in
  _init_time self' = _init_time self /\ accounts self' = accounts self
  /\ vendor_map self' = vendor_map self.
Proof.
  rewrite fetch_account_get_state.
  destruct (String.eqb (account_screen_name acc) "") eqn:Hname; [simpl; auto |].
  apply String.eqb_neq in Hname.
  pose proof (get_state_lookup self (account_screen_name acc)) as Hlook.
  pose proof (get_state_fields self (account_screen_name acc)) as (Ha & Hv & Hi).
  rewrite (fetch_account_present _ _ _ _ _ _ _ _ _ _ Hname Hlook).
  destruct (is_due _ now); simpl; auto.
Qed.

(** An entry that is not due at [now] comes out of [fetch] as it went in. *)
Lemma fetch_keeps_not_due (poll_id run_id : string) (dl : bool) (now : Z)
    (net : string -> HttpReply) (key : string) (state : AccountState)
    (accs : list Account) :
  is_due state now = false ->
  forall st : FetchState,
    account_states st.1.1 !! key = Some state ->
    account_states
      (fold_left (fetch_account poll_id run_id dl now net) accs st).1.1 !! key
    = Some state.
Proof.
  intros Hdue. induction accs as [| acc rest IH]; intros [[self items] audit] Hlook;
    [exact Hlook |].
  cbn [fold_left]. apply IH.
  destruct (fetch_account_lookup poll_id run_id dl now net self items audit acc key)
    as [has_news ->].
  simpl in Hlook.
  destruct (String.eqb (account_screen_name acc) ""); [exact Hlook |].
  destruct (decide (key = lower (account_screen_name acc))) as [-> | Hne]; [| exact Hlook].
  rewrite (get_state_present _ _ _ Hlook). simpl. now rewrite Hdue.
Qed.

(** C5. For an account with a registry entry: at night it is polled exactly
    when it was never polled or at least 15 minutes have passed since the
    last poll, whatever [next_due_at] holds; by day exactly when
    [now >= next_due_at]. The test itself changes nothing, an account that
    is not due leaves the source, the items and the audit trail as they
    were, and its entry is the same after the whole [fetch]. *)
Theorem due_set_selector (self : Source) (screen_name : string) (now : Z)
    (state : AccountState) :
  account_states self !! lower screen_name = Some state ->
  (_is_night_window now = true ->
     ((_should_poll_account self screen_name now).1 = true <->
      last_polled_at state = None \/
      exists last_polled, last_polled_at state = Some last_polled
                          /\ minutes 15 <= now - last_polled)) /\
  (_is_night_window now = false ->
     ((_should_poll_account self screen_name now).1 = true <-> next_due_at state <= now)) /\
  (_should_poll_account self screen_name now).2 = self /\
  ((_should_poll_account self screen_name now).1 = false ->
     (forall poll_id run_id decision_logger net all_items audit acc,
        account_screen_name acc = screen_name ->
        fetch_account poll_id run_id decision_logger now net (self, all_items, audit) acc
        = (self, all_items, audit)) /\
     (forall poll_id run_id decision_logger net,
        account_states (fetch self poll_id run_id decision_logger now net).1.1
          !! lower screen_name = Some state)).
Proof.
  intros Hlook. rewrite (should_poll_present _ _ _ _ Hlook). cbn [fst snd].
  assert (Hquarter : minutes 15 = 15 * 60 * usec_per_second) by reflexivity.
  split; [| split; [| split; [reflexivity | intros Hskip; split]]].
  - intros Hnight. unfold is_due. rewrite Hnight, Hquarter.
    destruct (last_polled_at state) as [lp |].
    + rewrite Z.leb_le. split.
      * intros Hle. right. exists lp. split; [reflexivity | exact Hle].
      * intros [Hnone | (lp' & [= <-] & Hle)]; [discriminate | exact Hle].
    + split; auto.
  - intros Hnight. unfold is_due. rewrite Hnight. apply Z.leb_le.
  - intros poll_id run_id dl net all_items audit acc Hacc.
    destruct (String.eqb_spec screen_name "") as [Hempty | Hname].
    + unfold fetch_account. rewrite Hacc, Hempty. reflexivity.
    + rewrite <- Hacc in Hname, Hlook.
      rewrite (fetch_account_present _ _ _ _ _ _ _ _ _ _ Hname Hlook).
      now rewrite Hskip.
  - intros poll_id run_id dl net. unfold fetch.
    now apply fetch_keeps_not_due.
Qed.

End SelectorFacts.

(** ** Invariants of the registry *)

Section InvariantFacts.
Context `{PyRuntime}.
Import Clock Policy TikHubTwitterSource Closed.

Lemma get_state_cases (self : Source) (screen_name : string) :
  account_states self !! lower screen_name = Some (_get_state self screen_name).1
  \/ (account_states self !! lower screen_name = None
      /\ (_get_state self screen_name).1 = fresh_state "A" (_init_time self)).
Proof.
  unfold _get_state. destruct (account_states self !! lower screen_name); simpl; auto.
Qed.


Lemma polled_streak_bounded (state : AccountState) (has_news : bool) (now : Z) :
  0 <= no_news_streak state -> 0 <= no_news_streak (polled state has_news now) <= 6.
Proof. intros Hpos. unfold polled. simpl. destruct has_news; lia. Qed.




(** One account of [fetch] keeps the streaks in range. *)
Lemma fetch_account_streaks (poll_id run_id : string) (dl : bool) (now : Z)
    (net : string -> HttpReply) (self : Source) (all_items : list NewsItem)
    (audit : list DecisionRecord) (acc : Account) :
  streaks_bounded self ->
  streaks_bounded
    (fetch_account poll_id run_id dl now net (self, all_items, audit) acc).1.1.
Proof.
  intros Hstreaks key state Hlook.
  destruct (fetch_account_lookup poll_id run_id dl now net self all_items audit acc key)
    as [has_news Heq].
  rewrite Heq in Hlook.
  destruct (String.eqb (account_screen_name acc) ""); [exact (Hstreaks _ _ Hlook) |].
  destruct (decide (key = lower (account_screen_name acc))); [| exact (Hstreaks _ _ Hlook)].
  injection Hlook as <-.
  assert (Hstreak0 : 0 <= no_news_streak (_get_state self (account_screen_name acc)).1 <= 6).
  { destruct (get_state_cases self (account_screen_name acc)) as [Hsome | [_ Hfresh]].
    - exact (Hstreaks _ _ Hsome).
    - rewrite Hfresh. simpl. lia. }
  destruct (is_due _ now); [apply polled_streak_bounded; lia | exact Hstreak0].
Qed.

Lemma fetch_loop_streaks (poll_id run_id : string) (dl : bool) (now : Z)
    (net : string -> HttpReply) (accs : list Account) :
  forall st : FetchState,
    streaks_bounded st.1.1 ->
    streaks_bounded (fold_left (fetch_account poll_id run_id dl now net) accs st).1.1.
Proof.
  induction accs as [| acc rest IH]; intros [[self items] audit] Hstreaks; [exact Hstreaks |].
  cbn [fold_left]. apply IH.
  pose proof (fetch_account_streaks poll_id run_id dl now net self items audit acc Hstreaks)
    as Hstep.
  destruct (fetch_account poll_id run_id dl now net (self, items, audit) acc) as [[? ?] ?].
  exact Hstep.
Qed.

Lemma run_ticks_streaks (ticks : list Tick) :
  forall self : Source, streaks_bounded self -> streaks_bounded (run_ticks self ticks).
Proof.
  induction ticks as [| k rest IH]; intros self Hstreaks; [exact Hstreaks |].
  cbn [run_ticks]. apply IH. unfold fetch.
  exact (fetch_loop_streaks _ _ _ _ _ _ (self, [], []) Hstreaks).
Qed.



Lemma init_invariants (cfg_accounts : list Account) (now : Z) :
  checked_by now (__init__ cfg_accounts now)
  /\ streaks_bounded (__init__ cfg_accounts now).
Proof.
  unfold __init__.
  set (start := {| accounts := cfg_accounts; vendor_map := ∅; account_states := ∅;
                   _init_time := now |}).
  assert (Hstart : _init_time start = now
                   /\ forall key state, account_states start !! key = Some state ->
                        last_check_time state <= now /\ 0 <= no_news_streak state <= 6).
  { split; [reflexivity |]. intros key state Hlook. simpl in Hlook.
    rewrite lookup_empty in Hlook. discriminate. }
  clearbody start. generalize dependent start.
  generalize cfg_accounts at 1 2 as accs.
  induction accs as [| acc rest IH]; intros start [Hinit Hall].
  - simpl. split; [split; [lia |] |]; intros key state Hlook; apply (Hall _ _ Hlook).
  - cbn [fold_left]. apply IH. unfold init_account.
    destruct (String.eqb (account_screen_name acc) ""); [split; assumption |].
    simpl. split; [exact Hinit |]. intros key state Hlook.
    destruct (decide (lower (account_screen_name acc) = key)) as [<- | Hne].
    + rewrite lookup_insert_eq in Hlook. injection Hlook as <-. simpl. lia.
    + rewrite lookup_insert_ne in Hlook by exact Hne. exact (Hall _ _ Hlook).
Qed.

Lemma init_account_keeps (self : Source) (acc : Account) (key : string) :
  is_Some (account_states self !! key) ->
  is_Some (account_states (init_account self acc) !! key).
Proof.
  intros Hsome. unfold init_account.
  destruct (String.eqb (account_screen_name acc) ""); [exact Hsome |]. simpl.
  destruct (decide (lower (account_screen_name acc) = key)) as [<- | Hne].
  - rewrite lookup_insert_eq. eauto.
  - now rewrite lookup_insert_ne.
Qed.

Lemma init_loop_keeps (accs : list Account) (key : string) :
  forall self : Source,
    is_Some (account_states self !! key) ->
    is_Some (account_states (fold_left init_account accs self) !! key).
Proof.
  induction accs as [| acc rest IH]; intros self Hsome; [exact Hsome |].
  cbn [fold_left]. apply IH. now apply init_account_keeps.
Qed.

Lemma init_loop_registers (acc : Account) (accs : list Account) :
  In acc accs -> account_screen_name acc <> "" ->
  forall self : Source,
    is_Some (account_states (fold_left init_account accs self)
               !! lower (account_screen_name acc)).
Proof.
  intros Hin Hname. induction accs as [| a rest IH]; intros self; [destruct Hin |].
  cbn [fold_left]. destruct Hin as [-> | Hin]; [| now apply IH].
  apply init_loop_keeps. unfold init_account.
  apply String.eqb_neq in Hname. rewrite Hname. simpl.
  rewrite lookup_insert_eq. eauto.
Qed.

Lemma fetch_loop_keeps_entries (poll_id run_id : string) (dl : bool) (now : Z)
    (net : string -> HttpReply) (key : string) (accs : list Account) :
  forall st : FetchState,
    is_Some (account_states st.1.1 !! key) ->
    is_Some (account_states
               (fold_left (fetch_account poll_id run_id dl now net) accs st).1.1 !! key).
Proof.
  induction accs as [| acc rest IH]; intros [[self items] audit] Hsome; [exact Hsome |].
  cbn [fold_left]. apply IH.
  destruct (fetch_account_lookup poll_id run_id dl now net self items audit acc key)
    as [has_news ->].
  destruct (String.eqb (account_screen_name acc) ""); [exact Hsome |].
  destruct (decide (key = lower (account_screen_name acc))); [eauto | exact Hsome].
Qed.

(** Every configured account with a name has a registry entry, from
    [__init__] on and after any number of ticks. *)
Lemma configured_accounts_registered (cfg_accounts : list Account) (t0 : Z)
    (ticks : list Tick) (acc : Account) :
  In acc cfg_accounts -> account_screen_name acc <> "" ->
  is_Some (account_states (run_ticks (__init__ cfg_accounts t0) ticks)
             !! lower (account_screen_name acc)).
Proof.
  intros Hin Hname.
  assert (Hinit : is_Some (account_states (__init__ cfg_accounts t0)
                             !! lower (account_screen_name acc)))
    by (unfold __init__; now apply init_loop_registers).
  revert Hinit. generalize (__init__ cfg_accounts t0) as self.
  induction ticks as [| k rest IH]; intros self Hsome; [exact Hsome |].
  cbn [run_ticks]. apply IH. unfold fetch.
  exact (fetch_loop_keeps_entries _ _ _ _ _ _ _ (self, [], []) Hsome).
Qed.




End InvariantFacts.

(** ** The schedule advancer *)

Section AdvancerFacts.
Context `{PyRuntime}.
Import Clock Policy TikHubTwitterSource Closed.

Lemma advance_present (self : Source) (screen_name : string) (has_news : bool) (now : Z)
    (state : AccountState) :
  account_states self !! lower screen_name = Some state ->
  account_states (_advance_account_schedule self screen_name has_news now)
    !! lower screen_name
  = Some {| tier := tier state;
            last_check_time := last_check_time state;
            last_polled_at := Some now;
            no_news_streak := if has_news then 0 else Z.min (no_news_streak state + 1) 6;
            next_due_at :=
              now + minutes (_next_interval_minutes (tier state)
                               (if has_news then 0 else Z.min (no_news_streak state + 1) 6)
                               now) |}.
Proof.
  intros Hlook. unfold _advance_account_schedule.
  rewrite (get_state_present _ _ _ Hlook). simpl. apply lookup_insert_eq.
Qed.

(** C4. After the schedule advancer the streak of the account is 0 when
    the poll had news and [min (previous + 1) 6] otherwise, and it lies in
    0..6; in [fetch] "had news" means that at least one tweet of this poll of
    the account was accepted into the output; and from [__init__] on, through
    any number of ticks, every streak of the registry lies in 0..6. *)
Theorem empty_streak_bounds :
  (forall (self : Source) (screen_name : string) (has_news : bool) (now : Z)
          (state : AccountState),
     account_states self !! lower screen_name = Some state ->
     0 <= no_news_streak state ->
     exists state',
       account_states (_advance_account_schedule self screen_name has_news now)
         !! lower screen_name = Some state'
       /\ 0 <= no_news_streak state' <= 6
       /\ (has_news = true -> no_news_streak state' = 0)
       /\ (has_news = false ->
           no_news_streak state' = Z.min (no_news_streak state + 1) 6))
  /\ (forall (poll_id run_id : string) (decision_logger : bool) (now : Z)
             (net : string -> HttpReply) (self : Source) (all_items : list NewsItem)
             (audit : list DecisionRecord) (acc : Account) (state : AccountState),
        let screen_name := account_screen_name acc in
        let kept :=
          (_extract_tweets self (_fetch_user_tweets net screen_name) screen_name now
             poll_id (DecisionLogger.str_or run_id poll_id) (tier state)
             decision_logger).1.1 in
        let accepted :=
          (classify_loop self poll_id run_id screen_name (tier state) decision_logger
             kept).1 in
        let after :=
          fetch_account poll_id run_id decision_logger now net (self, all_items, audit) acc in
        screen_name <> "" ->
        account_states self !! lower screen_name = Some state ->
        (_should_poll_account self screen_name now).1 = true ->
        after.1.2 = (all_items ++ accepted)%list
        /\ exists state',
             account_states after.1.1 !! lower screen_name = Some state'
             /\ (accepted <> [] -> no_news_streak state' = 0)
             /\ (accepted = [] ->
                 no_news_streak state' = Z.min (no_news_streak state + 1) 6))
  /\ (forall (cfg_accounts : list Account) (t0 : Z) (ticks : list Tick)
             (key : string) (state : AccountState),
        account_states (run_ticks (__init__ cfg_accounts t0) ticks) !! key = Some state ->
        0 <= no_news_streak state <= 6).
Proof.
  split; [| split].
  - intros self screen_name has_news now state Hlook Hpos.
    eexists. split; [apply (advance_present _ _ _ _ _ Hlook) |]. simpl.
    destruct has_news; repeat split; (lia || discriminate || reflexivity).
  - intros poll_id run_id dl now net self all_items audit acc state
      screen_name kept accepted after Hname Hlook Hdue.
    subst after. rewrite (should_poll_present _ _ _ _ Hlook) in Hdue. simpl in Hdue.
    rewrite (fetch_account_present _ _ _ _ _ _ _ _ _ _ Hname Hlook), Hdue.
    fold screen_name.
    assert (Hkept : kept = List.filter (in_window (last_check_time state) now)
                             (candidates (_fetch_user_tweets net screen_name))).
    { subst kept. now rewrite (extract_tweets_present _ _ _ _ _ _ _ _ _ Hlook). }
    rewrite <- Hkept. fold accepted. cbn [fst snd].
    split; [reflexivity |]. eexists. split; [apply lookup_insert_eq |].
    unfold polled. cbn [no_news_streak].
    destruct accepted as [| item rest]; simpl; split; intros Hacc;
      (reflexivity || congruence).
  - intros cfg_accounts t0 ticks key state Hlook.
    destruct (init_invariants cfg_accounts t0) as [_ Hstreaks].
    exact (run_ticks_streaks ticks _ Hstreaks _ _ Hlook).
Qed.

End AdvancerFacts.

(** ** The window bound *)

Section BoundFacts.
Context `{PyRuntime}.
Import Clock Policy TikHubTwitterSource Closed.





End BoundFacts.

(** ** The classifier *)

Section ClassifierFacts.
Context `{PyRuntime}.
Import Clock Policy TikHubTwitterSource Closed.

Lemma first_hit_some (kws : list string) (text kw : string) :
  first_hit kws text = Some kw <-> first_occurrence kws text kw.
Proof.
  unfold first_hit, first_occurrence. induction kws as [| k rest IH]; simpl.
  - split; [discriminate |]. intros (before & after & Heq & _).
    destruct before; discriminate.
  - destruct (contains k text) eqn:Hk.
    + split.
      * intros [= <-]. exists [], rest. repeat split; [exact Hk | intros ? []].
      * intros (before & after & Heq & Hkw & Hbefore).
        destruct before as [| b before]; simpl in Heq; injection Heq as <- _;
          [reflexivity |].
        rewrite (Hbefore k) in Hk; [discriminate | now left].
    + rewrite IH. split.
      * intros (before & after & -> & Hkw & Hbefore).
        exists (k :: before), after. repeat split; [exact Hkw |].
        intros k' [<- | Hin]; [exact Hk | exact (Hbefore _ Hin)].
      * intros (before & after & Heq & Hkw & Hbefore).
        destruct before as [| b before]; simpl in Heq; injection Heq as <- ->;
          [congruence |].
        exists before, after. repeat split; [exact Hkw |].
        intros k' Hin. apply Hbefore. now right.
Qed.

Lemma first_hit_none (kws : list string) (text : string) :
  first_hit kws text = None <-> none_occurs kws text.
Proof.
  unfold first_hit, none_occurs. induction kws as [| k rest IH]; simpl.
  - split; [intros _ ? [] | reflexivity].
  - destruct (contains k text) eqn:Hk.
    + split; [discriminate |]. intros Hall. rewrite (Hall k) in Hk; [discriminate | now left].
    + rewrite IH. split.
      * intros Hall k' [<- | Hin]; [exact Hk | exact (Hall _ Hin)].
      * intros Hall k' Hin. apply Hall. now right.
Qed.

Lemma existsb_contains_false (kws : list string) (text : string) :
  existsb (fun kw => contains kw text) kws = false <-> none_occurs kws text.
Proof.
  unfold none_occurs. induction kws as [| k rest IH]; simpl.
  - split; [intros _ ? [] | reflexivity].
  - rewrite orb_false_iff, IH. split.
    + intros [Hk Hall] k' [<- | Hin]; [exact Hk | exact (Hall _ Hin)].
    + intros Hall. split; [apply Hall; now left | intros k' Hin; apply Hall; now right].
Qed.

Lemma scan_keywords_order (text_lower : string) :
  (forall kw, first_occurrence major_keywords text_lower kw ->
     scan_keywords text_lower = ("major", kw))
  /\ (none_occurs major_keywords text_lower ->
      forall kw, first_occurrence minor_keywords text_lower kw ->
        scan_keywords text_lower = ("minor", kw))
  /\ (none_occurs major_keywords text_lower -> none_occurs minor_keywords text_lower ->
      scan_keywords text_lower = ("normal", "")).
Proof.
  unfold scan_keywords. repeat split.
  - intros kw Hkw. apply first_hit_some in Hkw. now rewrite Hkw.
  - intros Hmajor kw Hkw. apply first_hit_none in Hmajor. apply first_hit_some in Hkw.
    now rewrite Hmajor, Hkw.
  - intros Hmajor Hminor. apply first_hit_none in Hmajor, Hminor.
    now rewrite Hmajor, Hminor.
Qed.

Lemma scan_keywords_labels (text_lower : string) :
  In (scan_keywords text_lower).1 ["major"; "minor"; "normal"].
Proof.
  unfold scan_keywords.
  destruct (first_hit major_keywords text_lower); [simpl; auto |].
  destruct (first_hit minor_keywords text_lower); simpl; auto.
Qed.

Lemma detect_labels (text vendor : string) :
  In (_detect_importance_with_rule text vendor).1 ["filter"; "major"; "minor"; "normal"].
Proof.
  unfold _detect_importance_with_rule.
  pose proof (scan_keywords_labels (lower text)) as Hscan.
  assert (Hok : In (scan_keywords (lower text)).1 ["filter"; "major"; "minor"; "normal"])
    by (simpl in *; tauto).
  destruct (String.eqb vendor "AI快讯"); [| exact Hok].
  destruct (first_hit filter_keywords (lower text)); [simpl; auto |].
  destruct (negb _); [simpl; auto | exact Hok].
Qed.

(** When the attention filter does not apply (another vendor) or lets the
    text through, the result is that of the two keyword loops. *)
Lemma detect_is_scan (text vendor : string) :
  vendor <> "AI快讯"
  \/ (none_occurs filter_keywords (lower text)
      /\ ~ none_occurs important_keywords (lower text)) ->
  _detect_importance_with_rule text vendor = scan_keywords (lower text).
Proof.
  intros Hpass. unfold _detect_importance_with_rule.
  destruct (String.eqb_spec vendor "AI快讯") as [-> | Hne]; [| reflexivity].
  destruct Hpass as [Hne | [Hdeny Hallow]]; [congruence |].
  apply first_hit_none in Hdeny. rewrite Hdeny.
  destruct (existsb (fun kw => contains kw (lower text)) important_keywords) eqn:Hany;
    [reflexivity |].
  apply existsb_contains_false in Hany. contradiction.
Qed.

End ClassifierFacts.

Section ImportanceFacts.
Context `{PyRuntime}.
Import Clock Policy TikHubTwitterSource Closed.

(** C6, as the code has it. In the Importance stage, for a text the attention filter
    does not stop, the lower-cased text is scanned against two ordered
    keyword lists: first the launch/release/version/feature list, whose
    first keyword that occurs gives label major; if none occurs, the generic
    update list, whose first keyword that occurs gives label minor; if none
    occurs either, the label is normal and the matched rule is empty. The
    keyword that decided is the matched rule. There is no acquisition list in
    this stage: acquisition terms are checked (first, giving minor, before
    the major terms, with normal as the fallback) only by the notifier's
    [_detect_importance], which returns a label and no matched rule. *)
Theorem importance_scan_order (text vendor : string) :
  vendor <> "AI快讯"
  \/ (none_occurs filter_keywords (lower text)
      /\ ~ none_occurs important_keywords (lower text)) ->
  (forall kw, first_occurrence TikHubTwitterSource.major_keywords (lower text) kw ->
     _detect_importance_with_rule text vendor = ("major", kw))
  /\ (none_occurs TikHubTwitterSource.major_keywords (lower text) ->
      forall kw, first_occurrence minor_keywords (lower text) kw ->
        _detect_importance_with_rule text vendor = ("minor", kw))
  /\ (none_occurs TikHubTwitterSource.major_keywords (lower text) ->
      none_occurs minor_keywords (lower text) ->
      _detect_importance_with_rule text vendor = ("normal", ""))
  /\ (forall item : NewsItem,
        let t := lower (strip (Storage.title item ++ " " ++ Storage.summary item)) in
        (~ none_occurs TelegramNotifier.acquisition_keywords t ->
           TelegramNotifier._detect_importance item = "minor")
        /\ (none_occurs TelegramNotifier.acquisition_keywords t ->
            ~ none_occurs TelegramNotifier.major_keywords t ->
            TelegramNotifier._detect_importance item = "major")
        /\ (none_occurs TelegramNotifier.acquisition_keywords t ->
            none_occurs TelegramNotifier.major_keywords t ->
            TelegramNotifier._detect_importance item = "normal")).
Proof.
  intros Hpass. rewrite (detect_is_scan _ _ Hpass).
  destruct (scan_keywords_order (lower text)) as (Hmajor & Hminor & Hnormal).
  split; [exact Hmajor |]. split; [exact Hminor |]. split; [exact Hnormal |].
  intros item t. repeat split.
  - intros Hacq. unfold TelegramNotifier._detect_importance. fold t.
    destruct (existsb _ TelegramNotifier.acquisition_keywords) eqn:Hany; [reflexivity |].
    apply existsb_contains_false in Hany. contradiction.
  - intros Hacq Hmaj. unfold TelegramNotifier._detect_importance. fold t.
    apply existsb_contains_false in Hacq. rewrite Hacq.
    destruct (existsb _ TelegramNotifier.major_keywords) eqn:Hany; [reflexivity |].
    apply existsb_contains_false in Hany. contradiction.
  - intros Hacq Hmaj. unfold TelegramNotifier._detect_importance. fold t.
    apply existsb_contains_false in Hacq, Hmaj. rewrite Hacq, Hmaj.
    destruct (existsb _ TelegramNotifier.normal_keywords); reflexivity.
Qed.

End ImportanceFacts.

Lemma importance_scan_order_witness :
  @TikHubTwitterSource._detect_importance_with_rule Sample.runtime
    "OpenAI ships GPT-5" "OpenAI" = ("major", "gpt-").
Proof.
  apply (@importance_scan_order Sample.runtime "OpenAI ships GPT-5" "OpenAI").
  - left. discriminate.
  - apply first_hit_some. reflexivity.
Defined.

(** The Importance stage has no acquisition list and labels generic update
    terms minor: an acquisition text with no other keyword is normal, a bug
    fix is minor with matched rule "fix", and a text with both an
    acquisition term and a launch term is major. *)
Lemma importance_scan_order_counterexample :
  @TikHubTwitterSource._detect_importance_with_rule Sample.runtime
    "OpenAI acquires a startup" "OpenAI" = ("normal", "")
  /\ @TikHubTwitterSource._detect_importance_with_rule Sample.runtime
       "Bug fix for the editor" "OpenAI" = ("minor", "fix")
  /\ @TikHubTwitterSource._detect_importance_with_rule Sample.runtime
       "Acquisition closes ahead of the launch" "OpenAI" = ("major", "launch").
Proof. repeat split; reflexivity. Qed.

Section AcceptanceFacts.
Context `{PyRuntime}.
Import Clock Policy TikHubTwitterSource Closed.

Lemma first_hit_in (kws : list string) (text kw : string) :
  first_hit kws text = Some kw -> In kw kws.
Proof. intros Hhit. exact (proj1 (find_some _ _ Hhit)). Qed.

Lemma noise_keyword_not_empty (kw : string) : In kw noise_keywords -> String.eqb kw "" = false.
Proof.
  intros Hin. unfold noise_keywords in Hin. simpl in Hin.
  repeat (destruct Hin as [<- | Hin]; [reflexivity |]). destruct Hin.
Qed.

(** The outcomes of the loop body of [fetch] on a tweet with a text. *)
Lemma classify_tweet_cases (self : Source) (poll_id run_id screen_name tier : string)
    (dl : bool) (tweet : Tweet) (txt : string) :
  let detected := _detect_importance_with_rule txt (_get_vendor self screen_name) in
  let record stage decision reason_code matched_rule :=
    emit dl
      (DecisionLogger.log poll_id (DecisionLogger.str_or run_id poll_id) screen_name
         (default "" (tweet_id tweet)) tier stage decision reason_code matched_rule None) in
  let result := classify_tweet self poll_id run_id screen_name tier dl tweet in
  text tweet = Some txt -> txt <> "" ->
  (detected.1 = "filter"
   /\ result = (None, record "importance" "drop" "IMPORTANCE_FILTER" detected.2))
  \/ (detected.1 = "normal"
      /\ result = (None, record "importance" "drop" "IMPORTANCE_NORMAL" ""))
  \/ ((detected.1 = "major" \/ detected.1 = "minor")
      /\ ((exists kw,
             first_occurrence noise_keywords (lower txt) kw
             /\ result = (None,
                          (record "importance" "pass" "IMPORTANCE_PASS" detected.2
                           ++ record "noise" "drop" "NOISE_KEYWORD" kw)%list))
          \/ (none_occurs noise_keywords (lower txt)
              /\ exists item,
                   Storage.importance item = Some detected.1
                   /\ result = (Some item,
                                (record "importance" "pass" "IMPORTANCE_PASS" detected.2
                                 ++ record "noise" "pass" "NOISE_PASS" "")%list)))).
Proof.
  intros detected record result Htext Hne.
  subst result. unfold classify_tweet. rewrite Htext.
  change (default "" (Some txt)) with txt.
  apply String.eqb_neq in Hne. rewrite Hne.
  pose proof (detect_labels txt (_get_vendor self screen_name)) as Hlabels.
  fold detected in Hlabels |- *.
  destruct detected as [label rule]. cbn [fst snd] in *.
  destruct Hlabels as [<- | [<- | [<- | [<- | []]]]].
  - left. split; reflexivity.
  - right. right. split; [now left |].
    change (existsb (String.eqb "major") ["normal"; "filter"]) with false.
    change (String.eqb "major" "filter") with false. cbv iota.
    destruct (first_hit noise_keywords (lower txt)) as [kw |] eqn:Hhit;
      [change (default "" (Some kw)) with kw | change (default "" (@None string)) with ""].
    + left. exists kw. rewrite (noise_keyword_not_empty _ (first_hit_in _ _ _ Hhit)).
      split; [now apply first_hit_some | reflexivity].
    + right. split; [now apply first_hit_none |]. eexists. split; [| reflexivity].
      reflexivity.
  - right. right. split; [now right |].
    change (existsb (String.eqb "minor") ["normal"; "filter"]) with false.
    change (String.eqb "minor" "filter") with false. cbv iota.
    destruct (first_hit noise_keywords (lower txt)) as [kw |] eqn:Hhit;
      [change (default "" (Some kw)) with kw | change (default "" (@None string)) with ""].
    + left. exists kw. rewrite (noise_keyword_not_empty _ (first_hit_in _ _ _ Hhit)).
      split; [now apply first_hit_some | reflexivity].
    + right. split; [now apply first_hit_none |]. eexists. split; [| reflexivity].
      reflexivity.
  - right. left. split; reflexivity.
Qed.

Lemma classify_tweet_no_text (self : Source) (poll_id run_id screen_name tier : string)
    (dl : bool) (tweet : Tweet) :
  default "" (text tweet) = "" ->
  classify_tweet self poll_id run_id screen_name tier dl tweet = (None, []).
Proof. intros Hnone. unfold classify_tweet. now rewrite Hnone. Qed.

(** Whatever [fetch] appends for a tweet carries importance major or minor. *)
Lemma classify_tweet_item (self : Source) (poll_id run_id screen_name tier : string)
    (dl : bool) (tweet : Tweet) (item : NewsItem) :
  (classify_tweet self poll_id run_id screen_name tier dl tweet).1 = Some item ->
  (_detect_importance_with_rule (default "" (text tweet)) (_get_vendor self screen_name)).1
    = "major"
    /\ Storage.importance item = Some "major"
  \/ (_detect_importance_with_rule (default "" (text tweet)) (_get_vendor self screen_name)).1
       = "minor"
     /\ Storage.importance item = Some "minor".
Proof.
  intros Hitem.
  destruct (String.eqb_spec (default "" (text tweet)) "") as [Hnone | Hsome].
  - rewrite (classify_tweet_no_text _ _ _ _ _ _ _ Hnone) in Hitem. discriminate.
  - destruct (text tweet) as [txt |] eqn:Htext; [| now contradiction Hsome].
    change (default "" (Some txt)) with txt in *.
    destruct (classify_tweet_cases self poll_id run_id screen_name tier dl tweet txt
                Htext Hsome)
      as [[_ Hres] | [[_ Hres] | [Hlabel [(kw & _ & Hres) | (_ & item' & Himp & Hres)]]]];
      rewrite Hres in Hitem; try discriminate.
    injection Hitem as <-. destruct Hlabel as [Hl | Hl]; rewrite Hl in Himp |- *; auto.
Qed.

Lemma classify_loop_items (self : Source) (poll_id run_id screen_name tier : string)
    (dl : bool) (tweets : list Tweet) (item : NewsItem) :
  In item (classify_loop self poll_id run_id screen_name tier dl tweets).1 ->
  exists tweet, In tweet tweets
    /\ (classify_tweet self poll_id run_id screen_name tier dl tweet).1 = Some item.
Proof.
  induction tweets as [| tweet rest IH]; simpl; [intros [] |].
  destruct (classify_tweet self poll_id run_id screen_name tier dl tweet) as [first recs] eqn:Hone.
  destruct (classify_loop self poll_id run_id screen_name tier dl rest) as [items recs'].
  simpl. intros Hin. apply in_app_or in Hin. destruct Hin as [Hin | Hin].
  - destruct first as [i |]; [| destruct Hin]. destruct Hin as [<- | []].
    exists tweet. rewrite Hone. auto.
  - destruct (IH Hin) as (t & Ht & Hres). exists t. auto.
Qed.

Lemma fetch_account_items (poll_id run_id : string) (dl : bool) (now : Z)
    (net : string -> HttpReply) (self : Source) (all_items : list NewsItem)
    (audit : list DecisionRecord) (acc : Account) (item : NewsItem) :
  In item (fetch_account poll_id run_id dl now net (self, all_items, audit) acc).1.2 ->
  In item all_items
  \/ exists self' tier tweet,
       (classify_tweet self' poll_id run_id (account_screen_name acc) tier dl tweet).1
       = Some item.
Proof.
  rewrite fetch_account_get_state.
  destruct (String.eqb (account_screen_name acc) "") eqn:Hname; [simpl; auto |].
  apply String.eqb_neq in Hname.
  rewrite (fetch_account_present _ _ _ _ _ _ _ _ _ _ Hname (get_state_lookup self _)).
  destruct (is_due _ now); [| simpl; auto].
  cbn [fst snd]. intros Hin. apply in_app_or in Hin. destruct Hin as [Hin | Hin]; [auto |].
  right. apply classify_loop_items in Hin. destruct Hin as (tweet & _ & Hres). eauto.
Qed.

Lemma fetch_loop_items (poll_id run_id : string) (dl : bool) (now : Z)
    (net : string -> HttpReply) (accs : list Account) (item : NewsItem) :
  forall st : FetchState,
    In item (fold_left (fetch_account poll_id run_id dl now net) accs st).1.2 ->
    In item st.1.2
    \/ exists self' screen_name tier tweet,
         (classify_tweet self' poll_id run_id screen_name tier dl tweet).1 = Some item.
Proof.
  induction accs as [| acc rest IH]; intros [[self items] audit] Hin; [auto |].
  cbn [fold_left] in Hin. apply IH in Hin. destruct Hin as [Hin | Hin]; [| auto].
  destruct (fetch_account poll_id run_id dl now net (self, items, audit) acc)
    as [[self1 items1] audit1] eqn:Hstep.
  pose proof (fetch_account_items poll_id run_id dl now net self items audit acc item) as Hone.
  rewrite Hstep in Hone. destruct (Hone Hin) as [Hold | (s & t & tw & Hres)]; [auto |].
  right. eauto.
Qed.

End AcceptanceFacts.

Section GateFacts.
Context `{PyRuntime}.
Import Clock Policy TikHubTwitterSource Closed.

Lemma in_emit (dl : bool) (r x : DecisionRecord) : In x (emit dl r) -> x = r.
Proof. unfold emit. destruct dl; simpl; [intros [<- | []]; reflexivity | intros []]. Qed.

(** C7. For a windowed tweet with a text: label filter drops it at the
    Importance stage with reason IMPORTANCE_FILTER, label normal drops it
    there with reason IMPORTANCE_NORMAL, and an importance record with
    decision pass exists only for labels major and minor; an item is output
    only for those labels and carries that label. The acceptance expression
    maps major to major and the three other labels to minor. Every item
    [fetch] returns carries importance major or minor. *)
Theorem importance_gate :
  (forall (self : Source) (poll_id run_id screen_name tier : string)
          (decision_logger : bool) (tweet : Tweet) (txt : string),
     let detected := _detect_importance_with_rule txt (_get_vendor self screen_name) in
     let result :=
       classify_tweet self poll_id run_id screen_name tier decision_logger tweet in
     let dropped reason_code matched_rule :=
       emit decision_logger
         (DecisionLogger.log poll_id (DecisionLogger.str_or run_id poll_id) screen_name
            (default "" (tweet_id tweet)) tier "importance" "drop"
            reason_code matched_rule None) in
     text tweet = Some txt -> txt <> "" ->
     (detected.1 = "filter" -> result = (None, dropped "IMPORTANCE_FILTER" detected.2))
     /\ (detected.1 = "normal" -> result = (None, dropped "IMPORTANCE_NORMAL" ""))
     /\ ((exists r, In r result.2 /\ DecisionLogger.stage r = "importance"
                    /\ DecisionLogger.decision r = "pass") ->
         detected.1 = "major" \/ detected.1 = "minor")
     /\ (forall item, result.1 = Some item ->
           (detected.1 = "major" \/ detected.1 = "minor")
           /\ Storage.importance item = Some detected.1))
  /\ (forall label, In label ["major"; "minor"; "normal"; "filter"] ->
        accepted_importance label = if String.eqb label "major" then "major" else "minor")
  /\ (forall (self : Source) (poll_id run_id : string) (decision_logger : bool) (now : Z)
             (net : string -> HttpReply) (item : NewsItem),
        In item (fetch self poll_id run_id decision_logger now net).1.2 ->
        Storage.importance item = Some "major" \/ Storage.importance item = Some "minor").
Proof.
  split; [| split].
  - intros self poll_id run_id screen_name tier dl tweet txt detected result dropped
      Htext Hne.
    pose proof (classify_tweet_cases self poll_id run_id screen_name tier dl tweet txt
                  Htext Hne) as Hcases.
    cbv zeta in Hcases. fold detected result in Hcases.
    destruct Hcases
      as [[Hl Hres] | [[Hl Hres] | [Hl [(kw & _ & Hres) | (_ & item' & Himp & Hres)]]]];
      (split; [| split; [| split]]).
    + intros _. exact Hres.
    + rewrite Hl. discriminate.
    + intros (r & Hin & Hstage & Hdec). rewrite Hres in Hin.
      apply in_emit in Hin. subst r. discriminate.
    + intros item Hitem. rewrite Hres in Hitem. discriminate.
    + rewrite Hl. discriminate.
    + intros _. exact Hres.
    + intros (r & Hin & Hstage & Hdec). rewrite Hres in Hin.
      apply in_emit in Hin. subst r. discriminate.
    + intros item Hitem. rewrite Hres in Hitem. discriminate.
    + intros Hlabel. destruct Hl as [Hl | Hl]; rewrite Hl in Hlabel; discriminate.
    + intros Hlabel. destruct Hl as [Hl | Hl]; rewrite Hl in Hlabel; discriminate.
    + intros _. exact Hl.
    + intros item Hitem. rewrite Hres in Hitem. discriminate.
    + intros Hlabel. destruct Hl as [Hl | Hl]; rewrite Hl in Hlabel; discriminate.
    + intros Hlabel. destruct Hl as [Hl | Hl]; rewrite Hl in Hlabel; discriminate.
    + intros _. exact Hl.
    + intros item Hitem. rewrite Hres in Hitem. injection Hitem as <-.
      split; [exact Hl | exact Himp].
  - intros label Hin. simpl in Hin.
    destruct Hin as [<- | [<- | [<- | [<- | []]]]]; reflexivity.
  - intros self poll_id run_id dl now net item Hin. unfold fetch in Hin.
    apply fetch_loop_items in Hin. destruct Hin as [[] | (s & n & t & tw & Hres)].
    apply classify_tweet_item in Hres. destruct Hres as [[_ Himp] | [_ Himp]]; auto.
Qed.

End GateFacts.

(** ** The audit trail *)

Section AuditFacts.
Context `{PyRuntime}.
Import Clock Policy TikHubTwitterSource Closed.

Lemma window_loop_records (poll_id run_id screen_name tier : string) (last now : Z)
    (tweets : list Tweet) :
  (window_loop poll_id run_id screen_name tier true last now tweets).2
  = flat_map
      (fun t =>
         [DecisionLogger.log poll_id run_id screen_name (default "unknown" (tweet_id t))
            tier "raw" "pass" "RAW_FETCHED" "" None;
          if in_window last now t
          then DecisionLogger.log poll_id run_id screen_name
                 (default "unknown" (tweet_id t)) tier "window" "pass"
                 "WINDOW_IN_RANGE" "" None
          else DecisionLogger.log poll_id run_id screen_name
                 (default "unknown" (tweet_id t)) tier "window" "drop"
                 "WINDOW_OLD" (default "" (created_at t)) None])
      tweets.
Proof.
  induction tweets as [| t rest IH]; [reflexivity |].
  cbn [window_loop flat_map]. unfold window_step at 1. fold (in_window last now t).
  destruct (window_loop poll_id run_id screen_name tier true last now rest) as [kept' recs'].
  cbn [snd] in IH. subst recs'.
  destruct (in_window last now t); reflexivity.
Qed.

Lemma classify_loop_records (self : Source) (poll_id run_id screen_name tier : string)
    (dl : bool) (tweets : list Tweet) :
  (classify_loop self poll_id run_id screen_name tier dl tweets).2
  = flat_map (fun t => (classify_tweet self poll_id run_id screen_name tier dl t).2) tweets.
Proof.
  induction tweets as [| t rest IH]; [reflexivity |].
  cbn [classify_loop flat_map].
  destruct (classify_tweet self poll_id run_id screen_name tier dl t) as [item recs].
  destruct (classify_loop self poll_id run_id screen_name tier dl rest) as [items recs'].
  cbn [snd] in *. now rewrite IH.
Qed.

Lemma no_logger_no_records (self : Source) (poll_id run_id screen_name tier : string)
    (last now : Z) (tweets : list Tweet) :
  (window_loop poll_id run_id screen_name tier false last now tweets).2 = []
  /\ (classify_loop self poll_id run_id screen_name tier false tweets).2 = [].
Proof.
  split.
  - induction tweets as [| t rest IH]; [reflexivity |].
    cbn [window_loop]. unfold window_step at 1.
    destruct (window_loop poll_id run_id screen_name tier false last now rest).
    cbn [snd] in IH. subst. destruct (_is_in_window _ _ _); reflexivity.
  - rewrite classify_loop_records. induction tweets as [| t rest IH]; [reflexivity |].
    cbn [flat_map]. rewrite IH, app_nil_r.
    destruct (String.eqb_spec (default "" (text t)) "") as [Hnone | Hsome].
    + now rewrite classify_tweet_no_text.
    + destruct (text t) as [txt |] eqn:Htext; [| now contradiction Hsome].
      change (default "" (Some txt)) with txt in Hsome.
      destruct (classify_tweet_cases self poll_id run_id screen_name tier false t txt
                  Htext Hsome)
        as [[_ ->] | [[_ ->] | [_ [(kw & _ & ->) | (_ & item & _ & ->)]]]]; reflexivity.
Qed.

(** C8, as the code has it. With the decision logger [run_once] passes: every
    candidate of a polled account, in the window or not, gets exactly one raw
    record (pass) followed by exactly one window record, pass when it is in
    the window, drop with the provider's timestamp string as matched rule
    when it is not. Every in-window tweet that has a text gets exactly one
    importance record and, when that one is a pass, exactly one noise
    record; it is output exactly when both are passes. An in-window tweet
    whose text is missing or empty is skipped before the Importance stage: it
    gets no further record and is not output. The trail of one poll is the
    window records of all candidates followed by the classification records
    of the tweets kept. *)
Theorem audit_trail (poll_id run_id screen_name tier : string) :
  (forall (last now : Z) (tweets : list Tweet),
     (window_loop poll_id run_id screen_name tier true last now tweets).2
     = flat_map
         (fun t =>
            [DecisionLogger.log poll_id run_id screen_name
               (default "unknown" (tweet_id t)) tier "raw" "pass" "RAW_FETCHED" "" None;
             if in_window last now t
             then DecisionLogger.log poll_id run_id screen_name
                    (default "unknown" (tweet_id t)) tier "window" "pass"
                    "WINDOW_IN_RANGE" "" None
             else DecisionLogger.log poll_id run_id screen_name
                    (default "unknown" (tweet_id t)) tier "window" "drop"
                    "WINDOW_OLD" (default "" (created_at t)) None])
         tweets)
  /\ (forall (self : Source) (tweet : Tweet),
        let result := classify_tweet self poll_id run_id screen_name tier true tweet in
        (default "" (text tweet) = "" -> result = (None, []))
        /\ (default "" (text tweet) <> "" ->
            exists r1,
              DecisionLogger.stage r1 = "importance"
              /\ DecisionLogger.tweet_id r1 = default "" (tweet_id tweet)
              /\ ((DecisionLogger.decision r1 = "drop" /\ result = (None, [r1]))
                  \/ (DecisionLogger.decision r1 = "pass"
                      /\ exists r2,
                           DecisionLogger.stage r2 = "noise"
                           /\ DecisionLogger.tweet_id r2 = default "" (tweet_id tweet)
                           /\ ((DecisionLogger.decision r2 = "drop"
                                /\ result = (None, [r1; r2]))
                               \/ (DecisionLogger.decision r2 = "pass"
                                   /\ exists item, result = (Some item, [r1; r2])))))))
  /\ (forall (now : Z) (net : string -> HttpReply) (self : Source)
             (all_items : list NewsItem) (audit : list DecisionRecord) (acc : Account)
             (state : AccountState),
        account_screen_name acc = screen_name -> screen_name <> "" ->
        account_states self !! lower screen_name = Some state ->
        (_should_poll_account self screen_name now).1 = true ->
        let tweets := candidates (_fetch_user_tweets net screen_name) in
        (fetch_account poll_id run_id true now net (self, all_items, audit) acc).2
        = (audit
           ++ (window_loop poll_id (DecisionLogger.str_or run_id poll_id) screen_name
                 (TikHubTwitterSource.tier state) true (last_check_time state) now tweets).2
           ++ flat_map
                (fun t =>
                   (classify_tweet self poll_id run_id screen_name
                      (TikHubTwitterSource.tier state) true t).2)
                (List.filter (in_window (last_check_time state) now) tweets))%list).
Proof.
  split; [| split].
  - intros last now tweets. apply window_loop_records.
  - intros self tweet result. split.
    + intros Hnone. now apply classify_tweet_no_text.
    + intros Hsome. destruct (text tweet) as [txt |] eqn:Htext; [| now contradiction Hsome].
      change (default "" (Some txt)) with txt in Hsome.
      destruct (classify_tweet_cases self poll_id run_id screen_name tier true tweet txt
                  Htext Hsome)
        as [[_ Hres] | [[_ Hres] | [_ [(kw & _ & Hres) | (_ & item & _ & Hres)]]]];
        fold result in Hres; rewrite Hres; cbn [emit app].
      * eexists. split; [| split; [| left; split; [| reflexivity]]]; reflexivity.
      * eexists. split; [| split; [| left; split; [| reflexivity]]]; reflexivity.
      * eexists.
        split; [| split; [| right; split; [| eexists;
          split; [| split; [| left; split; [| reflexivity]]]]]]; reflexivity.
      * eexists.
        split; [| split; [| right; split; [| eexists;
          split; [| split; [| right; split; [| exists item; reflexivity]]]]]]; reflexivity.
  - intros now net self all_items audit acc state Hacc Hname Hlook Hdue tweets.
    rewrite (should_poll_present _ _ _ _ Hlook) in Hdue. cbn [fst] in Hdue.
    subst screen_name.
    rewrite (fetch_account_present _ _ _ _ _ _ _ _ _ _ Hname Hlook), Hdue.
    cbn [snd]. now rewrite classify_loop_records.
Qed.

End AuditFacts.

(** A due account whose only candidate is in the window and has an empty
    text: the audit trail of the call holds its raw and window records and
    nothing else, and the tweet is not output. *)
Lemma audit_trail_counterexample :
  (@TikHubTwitterSource.fetch Sample.runtime Examples.started "p1" "p1" true
     Examples.noon (Examples.answer [Examples.silent_tweet])).2
  = [DecisionLogger.log "p1" "p1" "OpenAI" "1001" "A" "raw" "pass" "RAW_FETCHED" "" None;
     DecisionLogger.log "p1" "p1" "OpenAI" "1001" "A" "window" "pass"
       "WINDOW_IN_RANGE" "" None]
  /\ (@TikHubTwitterSource.fetch Sample.runtime Examples.started "p1" "p1" true
        Examples.noon (Examples.answer [Examples.silent_tweet])).1.2 = [].
Proof. split; vm_compute; reflexivity. Qed.

(** ** Storage and the round driver *)

Section StorageFacts.
Context `{PyRuntime} `{TelegramNotifier.TelegramEnv}.
Import Storage DecisionLogger TelegramNotifier Main.

Lemma save_if_new_fault (entries : list Row) (e : exn) (item : NewsItem) :
  save_if_new entries (Some e) item = (Return false, entries).
Proof. unfold save_if_new, execute_insert. destruct e; reflexivity. Qed.

Lemma save_if_new_duplicate (entries : list Row) (item : NewsItem) :
  existsb (fun r => String.eqb (content_hash r) (build_item_hash item)) entries = true ->
  save_if_new entries None item = (Return false, entries).
Proof. intros Hdup. unfold save_if_new, execute_insert. simpl. now rewrite Hdup. Qed.

Lemma save_if_new_fresh (entries : list Row) (item : NewsItem) :
  existsb (fun r => String.eqb (content_hash r) (build_item_hash item)) entries = false ->
  save_if_new entries None item
  = (Return true,
     (entries ++ [{| row_source := source item; row_title := title item;
                     row_url := url item; row_summary := summary item;
                     row_published_at := published_at item;
                     content_hash := build_item_hash item |}])%list).
Proof. intros Hnew. unfold save_if_new, execute_insert. simpl. now rewrite Hnew. Qed.

(** C10. [save_if_new] returns [False] when the fingerprint is already in
    the table, and also on any exception the insert raises; it always
    returns and never raises. In [run_once] an item whose insert failed for
    another reason than the constraint is therefore treated exactly like a
    duplicate: it is not staged for notification and the record logged is
    the duplicate's (DEDUPE_HASH, content_hash_exists). *)
Theorem save_if_new_swallows :
  (forall (entries : list Row) (fault : option exn) (item : NewsItem),
     exists saved, (save_if_new entries fault item).1 = Return saved)
  /\ (forall (entries : list Row) (e : exn) (item : NewsItem),
        save_if_new entries (Some e) item = (Return false, entries))
  /\ (forall (entries : list Row) (item : NewsItem),
        save_if_new entries None item
        = if existsb (fun r => String.eqb (content_hash r) (build_item_hash item)) entries
          then (Return false, entries)
          else (Return true,
                (entries ++ [{| row_source := source item; row_title := title item;
                                row_url := url item; row_summary := summary item;
                                row_published_at := published_at item;
                                content_hash := build_item_hash item |}])%list))
  /\ (forall (faults duplicate : nat -> option exn) (poll_id : string) (st : RunState)
             (item : NewsItem) (what : string),
        In (importance_of item) ["major"; "minor"] ->
        faults (save_calls st) = Some (OtherException what) ->
        duplicate (save_calls st) = None ->
        existsb (fun r => String.eqb (content_hash r) (build_item_hash item)) (entries st)
        = true ->
        stage_item faults poll_id st item = stage_item duplicate poll_id st item
        /\ stage_item faults poll_id st item
           = (Return tt,
              {| entries := entries st; save_calls := S (save_calls st);
                 staged_items := staged_items st;
                 audit := (audit st ++
                   [log poll_id poll_id (account_of item) (tweet_id_of item) (tier_of item)
                      "dedupe" "drop" "DEDUPE_HASH" "content_hash_exists" None])%list |}))
  /\ (forall (faults : nat -> option exn) (poll_id : string) (st : RunState)
             (item : NewsItem) (e : exn),
        In (importance_of item) ["major"; "minor"] ->
        faults (save_calls st) = Some e ->
        staged_items (stage_item faults poll_id st item).2 = staged_items st
        /\ entries (stage_item faults poll_id st item).2 = entries st).
Proof.
  split; [| split; [| split; [| split]]].
  - intros entries fault item. destruct fault as [e |].
    + rewrite save_if_new_fault. now exists false.
    + destruct (existsb (fun r => String.eqb (content_hash r) (build_item_hash item))
                  entries) eqn:Hdup.
      * rewrite (save_if_new_duplicate _ _ Hdup). now exists false.
      * rewrite (save_if_new_fresh _ _ Hdup). now exists true.
  - apply save_if_new_fault.
  - intros entries item.
    destruct (existsb (fun r => String.eqb (content_hash r) (build_item_hash item))
                entries) eqn:Hdup.
    + now apply save_if_new_duplicate.
    + now apply save_if_new_fresh.
  - intros faults duplicate poll_id st item what Himp Hfault Hnone Hdup.
    assert (Hkeep : negb (existsb (String.eqb (importance_of item)) ["major"; "minor"])
                    = false).
    { simpl in Himp. destruct Himp as [<- | [<- | []]]; reflexivity. }
    unfold stage_item. rewrite Hkeep, Hfault, Hnone.
    rewrite save_if_new_fault, (save_if_new_duplicate _ _ Hdup). split; reflexivity.
  - intros faults poll_id st item e Himp Hfault.
    assert (Hkeep : negb (existsb (String.eqb (importance_of item)) ["major"; "minor"])
                    = false).
    { simpl in Himp. destruct Himp as [<- | [<- | []]]; reflexivity. }
    unfold stage_item. rewrite Hkeep, Hfault, save_if_new_fault. split; reflexivity.
Qed.

End StorageFacts.

Section PushFacts.
Context `{PyRuntime} `{TelegramNotifier.TelegramEnv}.
Import Storage DecisionLogger TelegramNotifier Main.

(** The item-by-item loop posts one message per item, in order, whatever
    the earlier answers were, and logs one record per item. *)
Lemma push_each_all (poll_id matched_rule : string) (extra : option (list string))
    (items : list NewsItem) :
  forall (sent : list string) (pushed : nat),
    push_each poll_id matched_rule extra sent pushed items
    = ((sent ++ map _format_item items)%list,
       (pushed + length (List.filter id
                           (imap (fun i item => api (length sent + i) (_format_item item))
                              items)))%nat,
       imap (fun i item =>
               push_record poll_id (account_of item) (tweet_id_of item) (tier_of item)
                 (api (length sent + i) (_format_item item)) matched_rule extra)
         items).
Proof.
  induction items as [| item rest IH]; intros sent pushed.
  - simpl. now rewrite app_nil_r, Nat.add_0_r.
  - cbn [push_each]. unfold send, _send_text. rewrite IH.
    rewrite !imap_cons, Nat.add_0_r. cbn [map].
    rewrite <- app_assoc. cbn [app].
    assert (Hshift : forall i, (length (sent ++ [_format_item item]) + i
                                = length sent + S i)%nat).
    { intros i. rewrite length_app. simpl. lia. }
    f_equal; [f_equal |].
    + destruct (api (length sent) (_format_item item)); cbn [List.filter id length];
        rewrite (imap_ext _ ((fun i item0 => api (length sent + i) (_format_item item0)) ∘ S))
          by (intros i x _; simpl; now rewrite Hshift); lia.
    + f_equal. apply imap_ext. intros i x _. simpl. now rewrite Hshift.
Qed.

(** C9. In the day window, when [send_batch] on the staged items returns
    [False], [run_once] then sends every staged item on its own, in order:
    one request per item follows the batch's requests, whatever the earlier
    per-item sends answered, and each item gets a push record, PUSH_OK or
    PUSH_FAIL by its own answer, marked day_batch_fallback_single. *)
Theorem batch_failure_falls_back (poll_id : string) (sent : list string)
    (staged : list NewsItem) :
  let after_batch := (send_batch sent staged).2 in
  let answer (i : nat) (item : NewsItem) :=
    api (length after_batch + i) (_format_item item) in
  let ids := map tweet_id_of staged in
  (send_batch sent staged).1 = false ->
  push_phase poll_id false sent staged
  = ((after_batch ++ map _format_item staged)%list,
     length (List.filter id (imap answer staged)),
     push_record poll_id "__batch__" (join "," ids) "-" false "day_batch" (Some ids)
     :: imap (fun i item =>
                push_record poll_id (account_of item) (tweet_id_of item) (tier_of item)
                  (answer i item) "day_batch_fallback_single" (Some ids))
          staged)
  /\ (forall (faults : nat -> option exn) (entries : list Row)
             (fetched : list (list NewsItem)),
        staged_items
          (fold_left (stage_items faults poll_id) fetched
             {| entries := entries; save_calls := 0; staged_items := []; audit := [] |})
        = staged ->
        final_sent (run_once faults poll_id false entries sent fetched)
        = (after_batch ++ map _format_item staged)%list).
Proof.
  intros after_batch answer ids Hfail.
  assert (Hpush : push_phase poll_id false sent staged
                  = ((after_batch ++ map _format_item staged)%list,
                     length (List.filter id (imap answer staged)),
                     push_record poll_id "__batch__" (join "," ids) "-" false "day_batch"
                       (Some ids)
                     :: imap (fun i item =>
                                push_record poll_id (account_of item) (tweet_id_of item)
                                  (tier_of item) (answer i item)
                                  "day_batch_fallback_single" (Some ids))
                          staged)).
  { unfold push_phase. fold ids.
    destruct (send_batch sent staged) as [ok sent1] eqn:Hbatch.
    cbn [fst snd] in *. subst ok after_batch. rewrite push_each_all. reflexivity. }
  split; [exact Hpush |].
  intros faults entries fetched Hstaged. unfold run_once. rewrite Hstaged.
  destruct staged as [| item rest] eqn:Hlist.
  - simpl in Hfail. discriminate.
  - rewrite <- Hlist in *. rewrite Hpush. reflexivity.
Qed.

End PushFacts.

(** ** The theorems at work on the example data *)

Section Witnesses.
Import Clock Policy TikHubTwitterSource Closed Examples.


(** A tweet stamped 11:30 is kept by the poll at noon of an account whose
    window opened at 11:00. *)
Lemma window_filter_keeps_witness :
  In launch_tweet
    (@_extract_tweets Sample.runtime started
       {| pinned := None; timeline := [Some silent_tweet; Some launch_tweet] |}
       "OpenAI" noon "p1" "p1" "A" true).1.1.
Proof.
  apply (@window_filter_keeps Sample.runtime started
           {| pinned := None; timeline := [Some silent_tweet; Some launch_tweet] |}
           "OpenAI" noon "p1" "p1" "A" true launch_tweet).
  split.
  - right. left. reflexivity.
  - exists 1793763000000000. split; [reflexivity |]. vm_compute. split; [reflexivity | discriminate].
Defined.

(** A poll without news takes the streak of the example account from 0 to 1. *)
Lemma empty_streak_bounds_witness :
  exists state',
    account_states
      (@fetch_account Sample.runtime "p1" "p1" true noon failing (started, [], []) openai).1.1
      !! "openai" = Some state'
    /\ no_news_streak state' = 1.
Proof.
  destruct (@empty_streak_bounds Sample.runtime) as (_ & Hpoll & _).
  destruct (Hpoll "p1" "p1" true noon failing started [] [] openai
              (fresh_state "A" 1793761200000000))
    as (_ & state' & Hlook & _ & Hempty).
  - vm_compute. discriminate.
  - vm_compute. reflexivity.
  - vm_compute. reflexivity.
  - exists state'. split; [exact Hlook |]. apply Hempty. vm_compute. reflexivity.
Defined.

(** After the failed poll at noon the example account is due at 22:00
    (night, ten hours later) and not due at 12:10; the call at 12:10 leaves
    its entry as it was. *)
Lemma due_set_selector_witness :
  (@_should_poll_account Sample.runtime polled_once "OpenAI" late).1 = true
  /\ account_states
       (@fetch Sample.runtime polled_once "p1" "p1" true (noon + minutes 10)
          (answer [launch_tweet])).1.1 !! "openai"
     = Some after_failed_poll.
Proof.
  split.
  - destruct (@due_set_selector Sample.runtime polled_once "OpenAI" late after_failed_poll)
      as (Hnight & _); [vm_compute; reflexivity |].
    apply Hnight; [reflexivity |]. right. exists noon. split; [reflexivity |].
    vm_compute. discriminate.
  - destruct (@due_set_selector Sample.runtime polled_once "OpenAI" (noon + minutes 10)
                after_failed_poll) as (_ & _ & _ & Hskip); [vm_compute; reflexivity |].
    apply Hskip. vm_compute. reflexivity.
Defined.

(** A greeting is labelled normal and dropped at the Importance stage. *)
Lemma importance_gate_witness :
  @classify_tweet Sample.runtime started "p1" "p1" "OpenAI" "A" true greeting_tweet
  = (None,
     [DecisionLogger.log "p1" "p1" "OpenAI" "1003" "A" "importance" "drop"
        "IMPORTANCE_NORMAL" "" None]).
Proof.
  destruct (@importance_gate Sample.runtime) as (Hstage & _ & _).
  destruct (Hstage started "p1" "p1" "OpenAI" "A" true greeting_tweet "Good morning")
    as (_ & Hnormal & _); [reflexivity | discriminate |].
  apply Hnormal. vm_compute. reflexivity.
Defined.

(** The audit trail of the example poll with a tweet without text and a
    launch tweet: two window-stage records each, then the two classification
    records of the launch tweet. *)
Lemma audit_trail_witness :
  length
    (@fetch_account Sample.runtime "p1" "p1" true noon
       (answer [silent_tweet; launch_tweet]) (started, [], []) openai).2
  = 6%nat.
Proof.
  destruct (@audit_trail Sample.runtime "p1" "p1" "OpenAI" "A") as (_ & _ & Hpoll).
  rewrite (Hpoll noon (answer [silent_tweet; launch_tweet]) started [] [] openai
             (fresh_state "A" 1793761200000000)).
  - vm_compute. reflexivity.
  - vm_compute. reflexivity.
  - vm_compute. discriminate.
  - vm_compute. reflexivity.
  - vm_compute. reflexivity.
Defined.

(** With the flaky API the batch fails, then both items are sent one by one:
    the first alone fails, the second is still sent and goes through. *)
Lemma batch_failure_falls_back_witness :
  (@Main.push_phase Sample.runtime flaky "p1" false [] [item_a; item_b]).1
  = (["batch
OpenAI ships GPT-5

Bug fix for the editor";
      "OpenAI ships GPT-5 https://x.com/OpenAI/status/1002";
      "Bug fix for the editor https://x.com/OpenAI/status/1004"],
     1%nat).
Proof.
  destruct (@batch_failure_falls_back Sample.runtime flaky "p1" [] [item_a; item_b])
    as [Hpush _]; [vm_compute; reflexivity |].
  rewrite Hpush. vm_compute. reflexivity.
Defined.

(** A locked database and a duplicate leave [run_once] in the same state. *)
Lemma save_if_new_swallows_witness :
  @Main.stage_item Sample.runtime locked "p1"
    {| Main.entries := table_with_a; Main.save_calls := 0;
       Main.staged_items := []; Main.audit := [] |} item_a
  = @Main.stage_item Sample.runtime healthy "p1"
      {| Main.entries := table_with_a; Main.save_calls := 0;
         Main.staged_items := []; Main.audit := [] |} item_a.
Proof.
  destruct (@save_if_new_swallows Sample.runtime) as (_ & _ & _ & Hsame & _).
  apply (Hsame locked healthy "p1" _ item_a "database is locked").
  - vm_compute. left. reflexivity.
  - reflexivity.
  - reflexivity.
  - vm_compute. reflexivity.
Defined.

End Witnesses.

(** ** The scenarios of the specification, run on the model *)

Section Scenarios.
Import Clock Policy TikHubTwitterSource Closed Examples.

(** Tier A by day: 30 minutes at streak 0, 90 minutes at streak 2. *)
Example scenario_intervals :
  _next_interval_minutes "A" 0 noon = 30 /\ _next_interval_minutes "A" 2 noon = 90.
Proof. split; reflexivity. Qed.

(** The window is open below and closed above; a timestamp that does not
    parse is out. *)
Example scenario_window_bounds :
  (@_extract_tweets Sample.runtime started
     {| pinned := None; timeline := [Some boundary_old; Some boundary_new; Some undated] |}
     "OpenAI" noon "p1" "p1" "A" true).1.1
  = [boundary_new].
Proof. vm_compute. reflexivity. Qed.

(** A launch tweet comes out as a major item. *)
Example scenario_launch :
  (@fetch Sample.runtime started "p1" "p1" true noon (answer [launch_tweet])).1.2
  = [item_a].
Proof. vm_compute. reflexivity. Qed.

(** A major text with a noise term is dropped at the Noise stage. *)
Example scenario_noise :
  @classify_tweet Sample.runtime started "p1" "p1" "OpenAI" "A" true hiring_tweet
  = (None,
     [DecisionLogger.log "p1" "p1" "OpenAI" "4" "A" "importance" "pass"
        "IMPORTANCE_PASS" "launch" None;
      DecisionLogger.log "p1" "p1" "OpenAI" "4" "A" "noise" "drop"
        "NOISE_KEYWORD" "hiring" None]).
Proof. vm_compute. reflexivity. Qed.

(** A failed request: the entry after the poll; and a streak that went to
    2 is back at 0 after a poll with news. *)
Example scenario_failed_fetch :
  account_states polled_once !! "openai" = Some after_failed_poll.
Proof. vm_compute. reflexivity. Qed.

Example scenario_streak_reset :
  no_news_streak <$>
    (account_states
       (@run_ticks Sample.runtime started
          [tick_noon;
           {| tick_poll_id := "p2"; tick_now := noon + minutes 60; tick_net := failing |};
           {| tick_poll_id := "p3"; tick_now := noon + minutes 150;
              tick_net := answer [afternoon_tweet] |}])
       !! "openai")
  = Some 0.
Proof. vm_compute. reflexivity. Qed.

End Scenarios.

(** * Further properties of the code *)

(** ** The interval ladder and the tick of the main loop *)

Section LadderFacts.
Import Clock Policy Loop.

Lemma next_interval_bounds (tier : string) (streak now : Z) :
  15 <= _next_interval_minutes tier streak now <= 90.
Proof.
  unfold _next_interval_minutes, _day_base_minutes.
  destruct (_is_night_window now); [lia |].
  destruct (String.eqb tier "B"); simpl;
    destruct (streak <=? 0); try lia; destruct (streak =? 1); lia.
Qed.

(** X10. For every tier string and every time, the interval never gets
    shorter when the streak grows, and it always lies between 15 and 90
    minutes. *)
Theorem ladder_monotone_bounded (tier : string) (streak streak' now : Z) :
  streak <= streak' ->
  _next_interval_minutes tier streak now <= _next_interval_minutes tier streak' now
  /\ 15 <= _next_interval_minutes tier streak now <= 90.
Proof.
  intros Hle. split; [| apply next_interval_bounds].
  unfold _next_interval_minutes, _day_base_minutes.
  destruct (_is_night_window now); [lia |].
  destruct (String.eqb tier "B"); simpl;
    destruct (Z.leb_spec streak 0); destruct (Z.leb_spec streak' 0); try lia;
    destruct (Z.eqb_spec streak 1); destruct (Z.eqb_spec streak' 1); lia.
Qed.

Lemma ladder_monotone_bounded_witness :
  _next_interval_minutes "S" 1 Examples.noon <= _next_interval_minutes "S" 5 Examples.noon
  /\ 15 <= _next_interval_minutes "S" 1 Examples.noon <= 90.
Proof. apply (ladder_monotone_bounded "S" 1 5 Examples.noon). lia. Defined.

(** X11. With a Twitter source among the clients the main loop sleeps 15
    minutes at night and 30 by day, which is never longer than the interval
    the policy gives any account at that time; with no Twitter source it
    sleeps the configured default. *)
Theorem loop_tick_within_intervals (sources : list Client) (default_minutes now : Z) :
  ((exists source, In (TwitterClient source) sources) ->
     get_poll_interval sources default_minutes now
     = (if _is_night_window now then 15 * 60 else 30 * 60)
     /\ forall tier streak,
          get_poll_interval sources default_minutes now
          <= 60 * _next_interval_minutes tier streak now)
  /\ ((forall source, ~ In (TwitterClient source) sources) ->
      get_poll_interval sources default_minutes now = default_minutes * 60).
Proof.
  split.
  - intros [source Hin].
    assert (Htick : get_poll_interval sources default_minutes now = _get_poll_interval now).
    { induction sources as [| [rss | tw] rest IH]; [destruct Hin | | reflexivity].
      simpl. apply IH. destruct Hin as [Heq | Hin]; [discriminate | exact Hin]. }
    rewrite Htick. unfold _get_poll_interval.
    split; [destruct (_is_night_window now); reflexivity |].
    intros tier streak. unfold _next_interval_minutes, _day_base_minutes.
    destruct (_is_night_window now); [lia |].
    destruct (String.eqb tier "B"); simpl;
      destruct (streak <=? 0); try lia; destruct (streak =? 1); lia.
  - intros Hnone. induction sources as [| [rss | tw] rest IH]; [reflexivity | |].
    + simpl. apply IH. intros source Hin. apply (Hnone source). now right.
    + exfalso. apply (Hnone tw). now left.
Qed.

Lemma loop_tick_within_intervals_witness :
  get_poll_interval
    [RssClient {| RSSSource.name := "blog"; RSSSource.url := "https://example.org/feed";
                  RSSSource.max_items := 10 |};
     TwitterClient Examples.started] 10 Examples.late
  = 15 * 60.
Proof.
  apply (loop_tick_within_intervals
           [RssClient {| RSSSource.name := "blog"; RSSSource.url := "https://example.org/feed";
                         RSSSource.max_items := 10 |};
            TwitterClient Examples.started] 10 Examples.late).
  exists Examples.started. right. left. reflexivity.
Defined.

End LadderFacts.

(** ** The schedule after a poll *)

Section ScheduleFacts.
Context `{PyRuntime}.
Import Clock Policy TikHubTwitterSource Closed.

Lemma minutes_unfold (m : Z) : minutes m = m * 60000000.
Proof. reflexivity. Qed.

Lemma is_due_polled (state : AccountState) (has_news : bool) (now now' : Z) :
  (now <= now' < now + minutes 15 -> is_due (polled state has_news now) now' = false)
  /\ (now + minutes 90 <= now' -> is_due (polled state has_news now) now' = true).
Proof.
  pose proof (next_interval_bounds (tier state)
                (if has_news then 0 else Z.min (no_news_streak state + 1) 6) now) as Hb.
  unfold is_due, polled. cbn [last_polled_at next_due_at].
  rewrite !minutes_unfold.
  change (15 * 60 * usec_per_second) with 900000000.
  split; intros Hnow; destruct (_is_night_window now').
  - apply Z.leb_gt. lia.
  - apply Z.leb_gt. lia.
  - apply Z.leb_le. lia.
  - apply Z.leb_le. lia.
Qed.

(** The entry of a polled account after [fetch] handled it. *)
Lemma fetch_account_polled_entry (poll_id run_id : string) (dl : bool) (now : Z)
    (net : string -> HttpReply) (self : Source) (all_items : list NewsItem)
    (audit : list DecisionRecord) (acc : Account) (state : AccountState) :
  account_screen_name acc <> "" ->
  account_states self !! lower (account_screen_name acc) = Some state ->
  (_should_poll_account self (account_screen_name acc) now).1 = true ->
  exists has_news,
    account_states
      (fetch_account poll_id run_id dl now net (self, all_items, audit) acc).1.1
      !! lower (account_screen_name acc)
    = Some (polled state has_news now).
Proof.
  intros Hname Hlook Hdue.
  rewrite (should_poll_present _ _ _ _ Hlook) in Hdue. cbn [fst] in Hdue.
  rewrite (fetch_account_present _ _ _ _ _ _ _ _ _ _ Hname Hlook), Hdue.
  eexists. cbn [fst snd with_states account_states]. apply lookup_insert_eq.
Qed.

(** X1. After [fetch] polled an account at [now], its entry records the
    poll ([last_polled_at = now]), keeps its tier, and has [next_due_at] equal
    to [now] plus the interval of the policy for the new streak, hence
    between 15 and 90 minutes after [now]. *)
Theorem poll_schedules_next (poll_id run_id : string) (decision_logger : bool) (now : Z)
    (net : string -> HttpReply) (self : Source) (all_items : list NewsItem)
    (audit : list DecisionRecord) (acc : Account) (state : AccountState) :
  account_screen_name acc <> "" ->
  account_states self !! lower (account_screen_name acc) = Some state ->
  (_should_poll_account self (account_screen_name acc) now).1 = true ->
  exists state',
    account_states
      (fetch_account poll_id run_id decision_logger now net
         (self, all_items, audit) acc).1.1
      !! lower (account_screen_name acc) = Some state'
    /\ last_polled_at state' = Some now
    /\ tier state' = tier state
    /\ next_due_at state'
       = now + minutes (_next_interval_minutes (tier state) (no_news_streak state') now)
    /\ now + minutes 15 <= next_due_at state' <= now + minutes 90.
Proof.
  intros Hname Hlook Hdue.
  destruct (fetch_account_polled_entry poll_id run_id decision_logger now net self
              all_items audit acc state Hname Hlook Hdue) as [has_news Hentry].
  exists (polled state has_news now). split; [exact Hentry |].
  unfold polled. cbn [last_polled_at tier next_due_at no_news_streak].
  repeat split; try reflexivity;
    pose proof (next_interval_bounds (tier state)
                  (if has_news then 0 else Z.min (no_news_streak state + 1) 6) now);
    rewrite !minutes_unfold; lia.
Qed.

(** X2. After [fetch] polled an account at [now], the account is not due
    again at any time from [now] up to 15 minutes later, night or day, and it
    is due at every time from 90 minutes after [now] on. *)
Theorem polled_account_due_window (poll_id run_id : string) (decision_logger : bool)
    (now now' : Z) (net : string -> HttpReply) (self : Source)
    (all_items : list NewsItem) (audit : list DecisionRecord) (acc : Account)
    (state : AccountState) :
  let self' :=
    (fetch_account poll_id run_id decision_logger now net (self, all_items, audit) acc).1.1 in
  account_screen_name acc <> "" ->
  account_states self !! lower (account_screen_name acc) = Some state ->
  (_should_poll_account self (account_screen_name acc) now).1 = true ->
  (now <= now' < now + minutes 15 ->
     (_should_poll_account self' (account_screen_name acc) now').1 = false)
  /\ (now + minutes 90 <= now' ->
      (_should_poll_account self' (account_screen_name acc) now').1 = true).
Proof.
  intros self' Hname Hlook Hdue.
  destruct (fetch_account_polled_entry poll_id run_id decision_logger now net self
              all_items audit acc state Hname Hlook Hdue) as [has_news Hentry].
  fold self' in Hentry.
  rewrite (should_poll_present _ _ _ _ Hentry). cbn [fst].
  apply is_due_polled.
Qed.

End ScheduleFacts.

(** ** Start-up, duplicates in the configuration, tiers *)

Section StartFacts.
Context `{PyRuntime}.
Import Clock Policy TikHubTwitterSource Closed.

Lemma account_tier_valid (acc : Account) : In (account_tier acc) ["S"; "A"; "B"].
Proof.
  unfold account_tier.
  destruct (existsb _ ["S"; "A"; "B"]) eqn:Hin; [| simpl; auto].
  apply existsb_exists in Hin. destruct Hin as (t & Hin & Heq).
  apply String.eqb_eq in Heq. now rewrite Heq.
Qed.

Lemma init_entries_fresh (cfg_accounts : list Account) (t0 : Z) (key : string)
    (state : AccountState) :
  account_states (__init__ cfg_accounts t0) !! key = Some state ->
  exists tier, In tier ["S"; "A"; "B"] /\ state = fresh_state tier t0.
Proof.
  unfold __init__.
  set (start := {| accounts := cfg_accounts; vendor_map := ∅; account_states := ∅;
                   _init_time := t0 |}).
  assert (Hstart : _init_time start = t0
                   /\ forall k st, account_states start !! k = Some st ->
                        exists tier, In tier ["S"; "A"; "B"] /\ st = fresh_state tier t0).
  { split; [reflexivity |]. intros k st Hlook. simpl in Hlook.
    rewrite lookup_empty in Hlook. discriminate. }
  clearbody start. revert start Hstart key state.
  generalize cfg_accounts at 1 as accs.
  induction accs as [| acc rest IH]; intros start [Hinit Hall] key state Hlook.
  - exact (Hall _ _ Hlook).
  - cbn [fold_left] in Hlook. revert Hlook. apply IH. unfold init_account.
    destruct (String.eqb (account_screen_name acc) ""); [split; assumption |].
    simpl. split; [exact Hinit |]. intros k st Hlook.
    destruct (decide (lower (account_screen_name acc) = k)) as [<- | Hne].
    + rewrite lookup_insert_eq in Hlook. injection Hlook as <-.
      exists (account_tier acc). rewrite Hinit. split; [apply account_tier_valid | reflexivity].
    + rewrite lookup_insert_ne in Hlook by exact Hne. exact (Hall _ _ Hlook).
Qed.

(** X3. Right after [__init__] every configured account with a non-blank
    name has a fresh entry (tier S, A or B, streak 0, never polled, window
    bound and due time equal to the start time), and it is due at every time
    that is not before the start time, by night and by day. *)
Theorem first_tick_polls_everyone (cfg_accounts : list Account) (t0 now : Z)
    (acc : Account) :
  In acc cfg_accounts -> account_screen_name acc <> "" -> t0 <= now ->
  (exists tier,
     In tier ["S"; "A"; "B"]
     /\ account_states (__init__ cfg_accounts t0) !! lower (account_screen_name acc)
        = Some {| tier := tier; last_check_time := t0; last_polled_at := None;
                  no_news_streak := 0; next_due_at := t0 |})
  /\ (_should_poll_account (__init__ cfg_accounts t0) (account_screen_name acc) now).1
     = true.
Proof.
  intros Hin Hname Hle.
  destruct (configured_accounts_registered cfg_accounts t0 [] acc Hin Hname)
    as [state Hlook].
  cbn [run_ticks] in Hlook.
  destruct (init_entries_fresh _ _ _ _ Hlook) as (tier & Htier & ->).
  split; [exists tier; split; [exact Htier | exact Hlook] |].
  rewrite (should_poll_present _ _ _ _ Hlook). cbn [fst].
  unfold is_due, fresh_state. cbn [last_polled_at next_due_at].
  destruct (_is_night_window now); [reflexivity | now apply Z.leb_le].
Qed.

(** X4. Two entries of the configuration whose names differ at most in
    case share one registry entry, and within one [fetch] the second is a
    no-op: the source, the items and the audit trail are those left by the
    first. *)
Theorem same_key_polled_once (poll_id run_id : string) (decision_logger : bool) (now : Z)
    (net : string -> HttpReply) (st : FetchState) (acc acc' : Account) :
  account_screen_name acc <> "" -> account_screen_name acc' <> "" ->
  lower (account_screen_name acc') = lower (account_screen_name acc) ->
  fetch_account poll_id run_id decision_logger now net
    (fetch_account poll_id run_id decision_logger now net st acc) acc'
  = fetch_account poll_id run_id decision_logger now net st acc.
Proof.
  intros Hname Hname' Hkey. destruct st as [[self items] audit].
  rewrite (fetch_account_get_state _ _ _ _ _ self).
  apply String.eqb_neq in Hname. rewrite Hname. apply String.eqb_neq in Hname.
  pose proof (get_state_lookup self (account_screen_name acc)) as Hlook.
  rewrite (fetch_account_present _ _ _ _ _ _ _ _ _ _ Hname Hlook).
  destruct (is_due (_get_state self (account_screen_name acc)).1 now) eqn:Hdue.
  - rewrite (fetch_account_present _ _ _ _ _ _ _ _ _
               (polled (_get_state self (account_screen_name acc)).1
                  (0 <? Z.of_nat (length
                     (classify_loop (_get_state self (account_screen_name acc)).2
                        poll_id run_id (account_screen_name acc)
                        (tier (_get_state self (account_screen_name acc)).1)
                        decision_logger
                        (List.filter
                           (in_window
                              (last_check_time (_get_state self (account_screen_name acc)).1)
                              now)
                           (candidates (_fetch_user_tweets net (account_screen_name acc))))).1))
                  now) Hname').
    + rewrite (proj1 (is_due_polled _ _ now now)); [reflexivity |].
      rewrite minutes_unfold. lia.
    + rewrite Hkey. cbn [with_states account_states]. apply lookup_insert_eq.
  - rewrite (fetch_account_present _ _ _ _ _ _ _ _ _
               (_get_state self (account_screen_name acc)).1 Hname').
    + now rewrite Hdue.
    + now rewrite Hkey.
Qed.

Lemma fetch_loop_keeps_tier (poll_id run_id : string) (dl : bool) (now : Z)
    (net : string -> HttpReply) (key : string) (accs : list Account) :
  forall (st : FetchState) (state : AccountState),
    account_states st.1.1 !! key = Some state ->
    exists state',
      account_states
        (fold_left (fetch_account poll_id run_id dl now net) accs st).1.1 !! key
      = Some state'
      /\ tier state' = tier state.
Proof.
  induction accs as [| acc rest IH]; intros [[self items] audit] state Hlook.
  - exists state. auto.
  - cbn [fold_left].
    destruct (fetch_account_lookup poll_id run_id dl now net self items audit acc key)
      as [has_news Hstep].
    simpl in Hlook.
    destruct (String.eqb (account_screen_name acc) "");
      [rewrite Hlook in Hstep; exact (IH _ _ Hstep) |].
    destruct (decide (key = lower (account_screen_name acc))) as [-> | Hne];
      [| rewrite Hlook in Hstep; exact (IH _ _ Hstep)].
    rewrite (get_state_present _ _ _ Hlook) in Hstep. cbn [fst] in Hstep.
    destruct (IH _ _ Hstep) as (state' & Hlook' & Htier).
    exists state'. split; [exact Hlook' |]. rewrite Htier.
    destruct (is_due state now); reflexivity.
Qed.

Lemma fetch_loop_tiers_valid (poll_id run_id : string) (dl : bool) (now : Z)
    (net : string -> HttpReply) (accs : list Account) :
  forall st : FetchState,
    (forall key state, account_states st.1.1 !! key = Some state ->
       In (tier state) ["S"; "A"; "B"]) ->
    forall key state,
      account_states
        (fold_left (fetch_account poll_id run_id dl now net) accs st).1.1 !! key
      = Some state ->
      In (tier state) ["S"; "A"; "B"].
Proof.
  induction accs as [| acc rest IH]; intros [[self items] audit] Hvalid; [exact Hvalid |].
  cbn [fold_left]. apply IH. intros key state Hlook.
  destruct (fetch_account_lookup poll_id run_id dl now net self items audit acc key)
    as [has_news Hstep].
  rewrite Hstep in Hlook. cbn [fst] in Hvalid.
  destruct (String.eqb (account_screen_name acc) ""); [exact (Hvalid _ _ Hlook) |].
  destruct (decide (key = lower (account_screen_name acc))); [| exact (Hvalid _ _ Hlook)].
  injection Hlook as <-.
  assert (Hstate0 : In (tier (_get_state self (account_screen_name acc)).1) ["S"; "A"; "B"]).
  { destruct (get_state_cases self (account_screen_name acc)) as [Hsome | [_ Hfresh]].
    - exact (Hvalid _ _ Hsome).
    - rewrite Hfresh. simpl. auto. }
  destruct (is_due _ now); exact Hstate0.
Qed.

(** X5. [fetch] never changes the tier of a registry entry, and from
    [__init__] on, through any number of ticks, every tier in the registry is
    S, A or B (an entry created on the fly gets A). *)
Theorem tiers_stay_valid :
  (forall (poll_id run_id : string) (decision_logger : bool) (now : Z)
          (net : string -> HttpReply) (self : Source) (key : string)
          (state : AccountState),
     account_states self !! key = Some state ->
     exists state',
       account_states (fetch self poll_id run_id decision_logger now net).1.1 !! key
       = Some state'
       /\ tier state' = tier state)
  /\ (forall (cfg_accounts : list Account) (t0 : Z) (ticks : list Tick) (key : string)
             (state : AccountState),
        account_states (run_ticks (__init__ cfg_accounts t0) ticks) !! key = Some state ->
        In (tier state) ["S"; "A"; "B"]).
Proof.
  split.
  - intros poll_id run_id dl now net self key state Hlook. unfold fetch.
    exact (fetch_loop_keeps_tier _ _ _ _ _ _ _ (self, [], []) _ Hlook).
  - intros cfg_accounts t0 ticks.
    assert (Hinit : forall key state,
              account_states (__init__ cfg_accounts t0) !! key = Some state ->
              In (tier state) ["S"; "A"; "B"]).
    { intros key state Hlook.
      destruct (init_entries_fresh _ _ _ _ Hlook) as (tier & Htier & ->). exact Htier. }
    revert Hinit. generalize (__init__ cfg_accounts t0) as self.
    induction ticks as [| k rest IH]; intros self Hvalid; [exact Hvalid |].
    cbn [run_ticks]. apply IH. unfold fetch.
    exact (fetch_loop_tiers_valid _ _ _ _ _ _ (self, [], []) Hvalid).
Qed.

End StartFacts.

(** ** What [fetch] delivers *)

Section DeliveryFacts.
Context `{PyRuntime}.
Import Clock Policy TikHubTwitterSource Closed Derived.

(** X6. A tweet kept by the poll of an account at [now] is never kept
    again for that account afterwards: the poll moves the window bound to
    [now], and the tweet's timestamp is not later than [now]. *)
Theorem no_redelivery (poll_id run_id : string) (decision_logger : bool) (now : Z)
    (net : string -> HttpReply) (self : Source) (all_items : list NewsItem)
    (audit : list DecisionRecord) (acc : Account) (state : AccountState) (t : Tweet) :
  let screen_name := account_screen_name acc in
  let self' :=
    (fetch_account poll_id run_id decision_logger now net (self, all_items, audit) acc).1.1 in
  screen_name <> "" ->
  account_states self !! lower screen_name = Some state ->
  (_should_poll_account self screen_name now).1 = true ->
  In t (_extract_tweets self (_fetch_user_tweets net screen_name) screen_name now
          poll_id run_id (tier state) decision_logger).1.1 ->
  forall (raw_data : RawData) (later : Z) (poll_id' run_id' tier' : string)
         (decision_logger' : bool),
    ~ In t (_extract_tweets self' raw_data screen_name later poll_id' run_id' tier'
              decision_logger').1.1.
Proof.
  intros screen_name self' Hname Hlook Hdue Hkept raw_data later poll_id' run_id' tier' dl'
    Hagain.
  destruct (fetch_account_polled_entry poll_id run_id decision_logger now net self
              all_items audit acc state Hname Hlook Hdue) as [has_news Hentry].
  fold self' screen_name in Hentry.
  rewrite extract_tweets_kept, filter_In in Hkept, Hagain.
  rewrite (get_state_present _ _ _ Hlook) in Hkept.
  rewrite (get_state_present _ _ _ Hentry) in Hagain.
  destruct Hkept as [_ Hfirst]. destruct Hagain as [_ Hsecond].
  unfold in_window in Hfirst, Hsecond.
  apply is_in_window_iff in Hfirst, Hsecond.
  destruct Hfirst as (time & Htime & _ & Hle).
  destruct Hsecond as (time' & Htime' & Hlt & _).
  rewrite Htime in Htime'. injection Htime' as <-.
  unfold polled in Hlt. cbn [fst last_check_time] in Hlt. lia.
Qed.

Lemma keywords_not_empty (kw : string) :
  In kw (major_keywords ++ minor_keywords)%list -> DecisionLogger.str_or kw "n/a" = kw.
Proof.
  intros Hin.
  assert (Hall : forallb (fun k => negb (String.eqb k ""))
                   (major_keywords ++ minor_keywords)%list = true) by reflexivity.
  rewrite forallb_forall in Hall. specialize (Hall _ Hin).
  unfold DecisionLogger.str_or. now destruct (String.eqb kw "").
Qed.

Lemma detect_rule_in (text vendor label rule : string) :
  _detect_importance_with_rule text vendor = (label, rule) ->
  String.eqb label "filter" = false ->
  existsb (String.eqb label) ["normal"; "filter"] = false ->
  In rule (major_keywords ++ minor_keywords)%list.
Proof.
  intros Hdetect Hfilter Hnormal.
  assert (Hscan : scan_keywords (lower text) = (label, rule) ->
                  In rule (major_keywords ++ minor_keywords)%list).
  { unfold scan_keywords.
    destruct (first_hit major_keywords (lower text)) as [kw |] eqn:Hmajor.
    - intros [= <- <-]. apply in_or_app. left. exact (first_hit_in _ _ _ Hmajor).
    - destruct (first_hit minor_keywords (lower text)) as [kw |] eqn:Hminor.
      + intros [= <- <-]. apply in_or_app. right. exact (first_hit_in _ _ _ Hminor).
      + intros [= <- <-]. discriminate. }
  unfold _detect_importance_with_rule in Hdetect.
  destruct (String.eqb vendor "AI快讯"); [| exact (Hscan Hdetect)].
  destruct (first_hit filter_keywords (lower text));
    [injection Hdetect as <- <-; discriminate |].
  destruct (negb _); [injection Hdetect as <- <-; discriminate | exact (Hscan Hdetect)].
Qed.

(** The fields of an item the loop body of [fetch] builds. *)
Lemma classify_tweet_fields (self : Source) (poll_id run_id screen_name tier : string)
    (dl : bool) (tweet : Tweet) (item : NewsItem) :
  (classify_tweet self poll_id run_id screen_name tier dl tweet).1 = Some item ->
  Storage.source item = "Twitter:" ++ screen_name
  /\ Storage.account item = Some screen_name
  /\ Storage.tweet_id item = Some (default "" (tweet_id tweet))
  /\ Storage.url item
     = "https://x.com/" ++ screen_name ++ "/status/" ++ default "" (tweet_id tweet)
  /\ Storage.tier item = Some tier
  /\ Storage.vendor item = Some (_get_vendor self screen_name)
  /\ exists kw, In kw (major_keywords ++ minor_keywords)%list
                /\ Storage.selected_reason item = Some ("importance:" ++ kw).
Proof.
  unfold classify_tweet.
  destruct (String.eqb (default "" (text tweet)) ""); [discriminate |].
  destruct (_detect_importance_with_rule (default "" (text tweet))
              (_get_vendor self screen_name)) as [label rule] eqn:Hdetect.
  destruct (String.eqb label "filter") eqn:Hfilter; [discriminate |].
  destruct (existsb (String.eqb label) ["normal"; "filter"]) eqn:Hnormal; [discriminate |].
  destruct (negb _); [discriminate |].
  cbn [fst]. intros [= <-]. cbn.
  repeat split. exists rule.
  pose proof (detect_rule_in _ _ _ _ Hdetect Hfilter Hnormal) as Hin.
  split; [exact Hin |]. now rewrite (keywords_not_empty _ Hin).
Qed.

Lemma fetch_loop_item_origin (poll_id run_id : string) (dl : bool) (now : Z)
    (net : string -> HttpReply) (vendors : gmap string VendorInfo) (item : NewsItem)
    (accs : list Account) :
  forall st : FetchState,
    vendor_map st.1.1 = vendors ->
    In item (fold_left (fetch_account poll_id run_id dl now net) accs st).1.2 ->
    In item st.1.2
    \/ exists acc self' tier tweet,
         In acc accs /\ account_screen_name acc <> "" /\ vendor_map self' = vendors
         /\ (classify_tweet self' poll_id run_id (account_screen_name acc) tier dl tweet).1
            = Some item.
Proof.
  induction accs as [| acc rest IH]; intros [[self items] audit] Hvendors Hin; [auto |].
  cbn [fold_left] in Hin.
  pose proof (fetch_account_init_time poll_id run_id dl now net self items audit acc)
    as (_ & _ & Hvm).
  apply IH in Hin; [| cbn [fst] in *; congruence].
  destruct Hin as [Hin | (a & s & t & tw & Ha & Hn & Hv & Hres)].
  - revert Hin. rewrite fetch_account_get_state.
    destruct (String.eqb (account_screen_name acc) "") eqn:Hname; [auto |].
    apply String.eqb_neq in Hname.
    rewrite (fetch_account_present _ _ _ _ _ _ _ _ _ _ Hname (get_state_lookup self _)).
    destruct (is_due _ now); [| auto].
    cbn [fst snd]. intros Hin. apply in_app_or in Hin. destruct Hin as [Hin | Hin]; [auto |].
    right. apply classify_loop_items in Hin. destruct Hin as (tweet & _ & Hres).
    exists acc. do 3 eexists. split; [now left |]. split; [exact Hname |].
    split; [| exact Hres].
    rewrite <- Hvendors. apply get_state_fields.
  - right. exists a, s, t, tw. split; [now right | auto].
Qed.

(** X7. Every item [fetch] returns belongs to a configured account: its
    source is "Twitter:" followed by the account name, its [account]
    attribute is that name, its URL is the status URL of the tweet id it
    carries, its vendor is the configured vendor label, and its
    [selected_reason] is "importance:" followed by the keyword of the major or
    minor list that decided, never "importance:n/a". *)
Theorem output_item_metadata (self : Source) (poll_id run_id : string)
    (decision_logger : bool) (now : Z) (net : string -> HttpReply) (item : NewsItem) :
  In item (fetch self poll_id run_id decision_logger now net).1.2 ->
  exists acc id tier kw,
    In acc (accounts self)
    /\ account_screen_name acc <> ""
    /\ Storage.source item = "Twitter:" ++ account_screen_name acc
    /\ Storage.account item = Some (account_screen_name acc)
    /\ Storage.tweet_id item = Some id
    /\ Storage.url item = "https://x.com/" ++ account_screen_name acc ++ "/status/" ++ id
    /\ Storage.tier item = Some tier
    /\ Storage.vendor item = Some (_get_vendor self (account_screen_name acc))
    /\ In kw (major_keywords ++ minor_keywords)%list
    /\ Storage.selected_reason item = Some ("importance:" ++ kw).
Proof.
  intros Hin. unfold fetch in Hin.
  apply (fetch_loop_item_origin _ _ _ _ _ (vendor_map self)) in Hin; [| reflexivity].
  destruct Hin as [[] | (acc & self' & tier & tweet & Hacc & Hnonblank & Hvendors & Hres)].
  pose proof (classify_tweet_fields _ _ _ _ _ _ _ _ Hres)
    as (Hsrc & Hname & Hid & Hurl & Htier & Hvendor & kw & Hkw & Hreason).
  exists acc, (default "" (tweet_id tweet)), tier, kw.
  repeat split; try assumption.
  rewrite Hvendor. unfold _get_vendor. now rewrite Hvendors.
Qed.

End DeliveryFacts.

(** ** The funnel of the audit trail *)

Section FunnelFacts.
Context `{PyRuntime}.
Import Clock Policy TikHubTwitterSource Closed Derived.

Lemma with_reason_app (reason : string) (a b : list DecisionRecord) :
  with_reason reason (a ++ b)%list = (with_reason reason a ++ with_reason reason b)%list.
Proof. apply List.filter_app. Qed.

Lemma balanced_app (n m : nat) (a b : list DecisionRecord) :
  balanced n a -> balanced m b -> balanced (n + m) (a ++ b)%list.
Proof.
  unfold balanced. intros (Ha1 & Ha2 & Ha3) (Hb1 & Hb2 & Hb3).
  rewrite !with_reason_app, !length_app. lia.
Qed.

Lemma window_records_balanced (poll_id run_id screen_name tier : string) (last now : Z)
    (tweets : list Tweet) :
  balanced 0 (window_loop poll_id run_id screen_name tier true last now tweets).2.
Proof.
  rewrite window_loop_records.
  induction tweets as [| t rest IH]; [repeat split |].
  cbn [flat_map]. apply (balanced_app 0 0); [| exact IH].
  destruct (in_window last now t); repeat split.
Qed.

Lemma classify_tweet_balanced (self : Source) (poll_id run_id screen_name tier : string)
    (tweet : Tweet) :
  balanced
    (length (match (classify_tweet self poll_id run_id screen_name tier true tweet).1 with
             | Some i => [i]
             | None => []
             end))
    (classify_tweet self poll_id run_id screen_name tier true tweet).2.
Proof.
  destruct (String.eqb_spec (default "" (text tweet)) "") as [Hnone | Hsome].
  - rewrite (classify_tweet_no_text _ _ _ _ _ _ _ Hnone). repeat split.
  - destruct (text tweet) as [txt |] eqn:Htext; [| now contradiction Hsome].
    change (default "" (Some txt)) with txt in Hsome.
    destruct (classify_tweet_cases self poll_id run_id screen_name tier true tweet txt
                Htext Hsome)
      as [[_ ->] | [[_ ->] | [_ [(kw & _ & ->) | (_ & item & _ & ->)]]]];
      repeat split.
Qed.

Lemma classify_records_balanced (self : Source) (poll_id run_id screen_name tier : string)
    (tweets : list Tweet) :
  balanced (length (classify_loop self poll_id run_id screen_name tier true tweets).1)
    (classify_loop self poll_id run_id screen_name tier true tweets).2.
Proof.
  induction tweets as [| tweet rest IH]; [repeat split |].
  cbn [classify_loop].
  pose proof (classify_tweet_balanced self poll_id run_id screen_name tier tweet) as Hone.
  destruct (classify_tweet self poll_id run_id screen_name tier true tweet) as [item recs].
  destruct (classify_loop self poll_id run_id screen_name tier true rest) as [items recs'].
  cbn [fst snd] in *. rewrite length_app. now apply balanced_app.
Qed.

Lemma fetch_account_balanced (poll_id run_id : string) (now : Z)
    (net : string -> HttpReply) (self : Source) (all_items : list NewsItem)
    (audit : list DecisionRecord) (acc : Account) :
  balanced (length all_items) audit ->
  balanced
    (length (fetch_account poll_id run_id true now net (self, all_items, audit) acc).1.2)
    (fetch_account poll_id run_id true now net (self, all_items, audit) acc).2.
Proof.
  intros Hbal. rewrite fetch_account_get_state.
  destruct (String.eqb (account_screen_name acc) "") eqn:Hname; [exact Hbal |].
  apply String.eqb_neq in Hname.
  rewrite (fetch_account_present _ _ _ _ _ _ _ _ _ _ Hname (get_state_lookup self _)).
  destruct (is_due _ now); [| exact Hbal].
  cbn [fst snd]. rewrite length_app. apply balanced_app; [exact Hbal |].
  apply (balanced_app 0); [apply window_records_balanced | apply classify_records_balanced].
Qed.

(** X8. In the audit trail [fetch] writes with a decision logger, the
    number of RAW_FETCHED records equals WINDOW_IN_RANGE plus WINDOW_OLD, the
    number of IMPORTANCE_PASS records equals NOISE_PASS plus NOISE_KEYWORD,
    and the number of NOISE_PASS records equals the number of items
    returned. *)
Theorem audit_funnel_balances (self : Source) (poll_id run_id : string) (now : Z)
    (net : string -> HttpReply) :
  let result := fetch self poll_id run_id true now net in
  length (with_reason "RAW_FETCHED" result.2)
  = (length (with_reason "WINDOW_IN_RANGE" result.2)
     + length (with_reason "WINDOW_OLD" result.2))%nat
  /\ length (with_reason "IMPORTANCE_PASS" result.2)
     = (length (with_reason "NOISE_PASS" result.2)
        + length (with_reason "NOISE_KEYWORD" result.2))%nat
  /\ length (with_reason "NOISE_PASS" result.2) = length result.1.2.
Proof.
  intros result. subst result. unfold fetch.
  assert (Hloop : forall accs (st : FetchState),
            balanced (length st.1.2) st.2 ->
            balanced
              (length (fold_left (fetch_account poll_id run_id true now net) accs st).1.2)
              (fold_left (fetch_account poll_id run_id true now net) accs st).2).
  { induction accs as [| acc rest IH]; intros [[s items] audit] Hbal; [exact Hbal |].
    cbn [fold_left]. apply IH.
    pose proof (fetch_account_balanced poll_id run_id now net s items audit acc Hbal) as Hone.
    destruct (fetch_account poll_id run_id true now net (s, items, audit) acc) as [[? ?] ?].
    exact Hone. }
  apply (Hloop (accounts self) (self, [], [])). repeat split.
Qed.

(** X9. For the vendor label "AI快讯" the attention filter decides first:
    if a keyword of the deny list occurs in the lower-cased text the label is
    filter with the first such keyword as rule, even when an allowed name
    occurs too; otherwise, if no keyword of the allow list occurs, the label is
    filter with the rule "AI快讯_非大厂"; otherwise the keyword scan decides.
    The label of a founder account, which carries a suffix, is never the
    filtered one, so a founder's tweets always go to the keyword scan. *)
Theorem attention_filter_rules (text : string) :
  (forall kw, first_occurrence filter_keywords (lower text) kw ->
     _detect_importance_with_rule text "AI快讯" = ("filter", kw))
  /\ (none_occurs filter_keywords (lower text) ->
      none_occurs important_keywords (lower text) ->
      _detect_importance_with_rule text "AI快讯" = ("filter", "AI快讯_非大厂"))
  /\ (none_occurs filter_keywords (lower text) ->
      ~ none_occurs important_keywords (lower text) ->
      _detect_importance_with_rule text "AI快讯" = scan_keywords (lower text))
  /\ (forall (self : Source) (screen_name : string) (info : VendorInfo),
        vendor_map self !! lower screen_name = Some info ->
        is_founder info = true ->
        _detect_importance_with_rule text (_get_vendor self screen_name)
        = scan_keywords (lower text)).
Proof.
  split; [| split; [| split]].
  - intros kw Hkw. apply first_hit_some in Hkw.
    unfold _detect_importance_with_rule. cbn [String.eqb]. 
    change (String.eqb "AI快讯" "AI快讯") with true. cbv iota. now rewrite Hkw.
  - intros Hdeny Hallow. apply first_hit_none in Hdeny.
    apply existsb_contains_false in Hallow.
    unfold _detect_importance_with_rule.
    change (String.eqb "AI快讯" "AI快讯") with true. cbv iota.
    now rewrite Hdeny, Hallow.
  - intros Hdeny Hallow. apply detect_is_scan. right. auto.
  - intros self screen_name info Hlook Hfounder. apply detect_is_scan. left.
    unfold _get_vendor. rewrite Hlook, Hfounder. intros Heq.
    apply (f_equal String.length) in Heq.
    assert (Hlen : forall a b, String.length (a ++ b) = (String.length a + String.length b)%nat).
    { induction a as [| c a IH]; intros b; simpl; [reflexivity | now rewrite IH]. }
    rewrite Hlen in Heq. simpl in Heq. lia.
Qed.

End FunnelFacts.

(** ** Fingerprints and the table *)

Section FingerprintFacts.
Context `{PyRuntime}.
Import Storage Derived.

Lemma hash_present (entries : list Row) (h : string) :
  existsb (fun r => String.eqb (content_hash r) h) entries = true <-> In h (hashes entries).
Proof.
  unfold hashes. rewrite existsb_exists, in_map_iff. split.
  - intros (r & Hin & Heq). apply String.eqb_eq in Heq. eauto.
  - intros (r & Heq & Hin). exists r. split; [exact Hin | now apply String.eqb_eq].
Qed.

Lemma save_if_new_result (entries : list Row) (fault : option exn) (item : NewsItem) :
  save_if_new entries fault item
  = match fault with
    | Some _ => (Return false, entries)
    | None =>
        if existsb (fun r => String.eqb (content_hash r) (build_item_hash item)) entries
        then (Return false, entries)
        else (Return true, (entries ++ [row_of item])%list)
    end.
Proof.
  destruct fault as [e |]; [apply save_if_new_fault |].
  destruct (existsb _ entries) eqn:Hdup.
  - now apply save_if_new_duplicate.
  - now apply save_if_new_fresh.
Qed.

Lemma save_if_new_unique (entries : list Row) (fault : option exn) (item : NewsItem) :
  NoDup (hashes entries) -> NoDup (hashes (save_if_new entries fault item).2).
Proof.
  intros Hnodup. rewrite save_if_new_result.
  destruct fault; [exact Hnodup |].
  destruct (existsb _ entries) eqn:Hdup; [exact Hnodup |].
  cbn [snd]. unfold hashes. rewrite map_app. cbn [map].
  apply NoDup_app. split; [exact Hnodup |]. split; [| apply NoDup_singleton].
  intros h Hin Hrow. apply list_elem_of_In in Hin. apply list_elem_of_In in Hrow.
  destruct Hrow as [<- | []]. cbn [row_of content_hash] in Hin.
  apply hash_present in Hin. congruence.
Qed.

(** X12. [save_if_new] keeps the fingerprints of the table pairwise
    distinct, whatever the database does to the insert: the UNIQUE
    constraint holds after every call if it held before. The table only
    grows, by at most the row of the item, and exactly when the call returns
    [True]. *)
Theorem save_keeps_hashes_unique (entries : list Row) (fault : option exn)
    (item : NewsItem) :
  NoDup (hashes entries) ->
  NoDup (hashes (save_if_new entries fault item).2)
  /\ ((save_if_new entries fault item).1 = Return true ->
      (save_if_new entries fault item).2 = (entries ++ [row_of item])%list
      /\ ~ In (build_item_hash item) (hashes entries))
  /\ ((save_if_new entries fault item).1 = Return false ->
      (save_if_new entries fault item).2 = entries).
Proof.
  intros Hnodup. split; [now apply save_if_new_unique |].
  rewrite save_if_new_result. destruct fault.
  - split; [discriminate | reflexivity].
  - destruct (existsb _ entries) eqn:Hdup; (split; [| try discriminate; reflexivity]).
    + discriminate.
    + intros _. split; [reflexivity |]. rewrite <- hash_present. congruence.
Qed.

(** X13. The fingerprint looks only at the normalised title and the first
    ten characters of the stripped publication date: once an item is stored,
    any item with the same normalised title and the same date part is
    rejected, whatever its source, URL or summary, and the table stays as it
    is. *)
Theorem same_title_and_date_rejected (entries : list Row) (fault : option exn)
    (item item' : NewsItem) :
  let stored := (save_if_new entries None item).2 in
  join " " (split (lower (strip (title item'))))
  = join " " (split (lower (strip (title item)))) ->
  String.substring 0 10 (strip (published_at item'))
  = String.substring 0 10 (strip (published_at item)) ->
  save_if_new stored fault item' = (Return false, stored).
Proof.
  intros stored Htitle Hdate.
  assert (Hhash : build_item_hash item' = build_item_hash item)
    by (unfold build_item_hash; now rewrite Htitle, Hdate).
  assert (Hin : In (build_item_hash item) (hashes stored)).
  { subst stored. rewrite save_if_new_result.
    destruct (existsb _ entries) eqn:Hdup; cbn [snd].
    - now apply hash_present.
    - unfold hashes. rewrite map_app. apply in_or_app. right. now left. }
  rewrite save_if_new_result. destruct fault; [reflexivity |].
  rewrite Hhash. apply hash_present in Hin. now rewrite Hin.
Qed.

End FingerprintFacts.

(** ** Staging in [run_once] *)

Section StagingFacts.
Context `{PyRuntime}.
Import Storage DecisionLogger TelegramNotifier Main Derived.
Variable faults : nat -> option exn.
Variable poll_id : string.

Lemma stage_item_result (st : RunState) (item : NewsItem) :
  stage_item faults poll_id st item
  = (Return tt,
     if negb (existsb (String.eqb (importance_of item)) ["major"; "minor"]) then st
     else
       match (save_if_new (entries st) (faults (save_calls st)) item).1 with
       | Return true =>
           {| entries := (save_if_new (entries st) (faults (save_calls st)) item).2;
              save_calls := S (save_calls st);
              staged_items := (staged_items st ++ [item])%list;
              audit := (audit st ++
                [log poll_id poll_id (account_of item) (tweet_id_of item) (tier_of item)
                   "dedupe" "pass" "DEDUPE_NEW"
                   (default "" (Storage.selected_reason item)) None])%list |}
       | _ =>
           {| entries := (save_if_new (entries st) (faults (save_calls st)) item).2;
              save_calls := S (save_calls st);
              staged_items := staged_items st;
              audit := (audit st ++
                [log poll_id poll_id (account_of item) (tweet_id_of item) (tier_of item)
                   "dedupe" "drop" "DEDUPE_HASH" "content_hash_exists" None])%list |}
       end).
Proof.
  unfold stage_item.
  destruct (negb (existsb (String.eqb (importance_of item)) ["major"; "minor"]));
    [reflexivity |].
  rewrite save_if_new_result.
  destruct (faults (save_calls st)); [reflexivity |].
  destruct (existsb _ (entries st)); reflexivity.
Qed.

(** The loop over the items of a source never stops early: it is a fold of
    the loop body. *)
Lemma stage_items_fold (items : list NewsItem) :
  forall st : RunState,
    stage_items faults poll_id st items
    = fold_left (fun st item => (stage_item faults poll_id st item).2) items st.
Proof.
  induction items as [| item rest IH]; intros st; [reflexivity |].
  cbn [stage_items fold_left]. rewrite stage_item_result. cbn [snd]. apply IH.
Qed.

Lemma staging_fold (fetched : list (list NewsItem)) :
  forall st : RunState,
    fold_left (stage_items faults poll_id) fetched st
    = fold_left (fun st item => (stage_item faults poll_id st item).2) (concat fetched) st.
Proof.
  induction fetched as [| items rest IH]; intros st; [reflexivity |].
  cbn [fold_left concat]. rewrite fold_left_app, IH, stage_items_fold. reflexivity.
Qed.

(** An invariant of the loop body is an invariant of the staging. *)
Lemma staging_invariant (P : RunState -> Prop) (fetched : list (list NewsItem)) :
  (forall st item, In item (concat fetched) -> P st ->
     P (stage_item faults poll_id st item).2) ->
  forall st : RunState, P st -> P (fold_left (stage_items faults poll_id) fetched st).
Proof.
  intros Hstep st. rewrite staging_fold. revert st.
  induction (concat fetched) as [| item rest IH]; intros st Hst; [exact Hst |].
  cbn [fold_left]. apply IH.
  - intros st' item' Hin. apply Hstep. now right.
  - apply Hstep; [now left | exact Hst].
Qed.

Lemma stage_item_rows (st : RunState) (item : NewsItem) (before : list Row) :
  entries st = (before ++ map row_of (staged_items st))%list ->
  entries (stage_item faults poll_id st item).2
  = (before ++ map row_of (staged_items (stage_item faults poll_id st item).2))%list.
Proof.
  intros Hrows. rewrite stage_item_result. cbn [snd].
  destruct (negb _); [exact Hrows |].
  rewrite save_if_new_result.
  destruct (faults (save_calls st)); [exact Hrows |].
  destruct (existsb _ (entries st)); cbn [fst snd entries staged_items]; [exact Hrows |].
  rewrite Hrows, map_app. cbn [map]. now rewrite app_assoc.
Qed.

(** X14. The rows [run_once] adds to the table are exactly the rows of the
    items it staged, in order; every staged item is one of the fetched items
    and has importance major or minor, so an item labelled normal never
    reaches the table or the notifier. *)
Theorem staged_are_the_new_rows `{TelegramEnv} (night : bool) (entries : list Row)
    (sent : list string) (fetched : list (list NewsItem)) :
  let staged :=
    staged_items
      (fold_left (stage_items faults poll_id) fetched
         {| entries := entries; save_calls := 0; staged_items := []; audit := [] |}) in
  final_entries (run_once faults poll_id night entries sent fetched)
  = (entries ++ map row_of staged)%list
  /\ forall item, In item staged ->
       In item (concat fetched)
       /\ (importance_of item = "major" \/ importance_of item = "minor").
Proof.
  intros staged. subst staged.
  set (start := {| entries := entries; save_calls := 0; staged_items := []; audit := [] |}).
  split.
  - assert (Hrows : Main.entries (fold_left (stage_items faults poll_id) fetched start)
                    = (entries ++ map row_of
                         (staged_items (fold_left (stage_items faults poll_id) fetched start)))%list).
    { apply (staging_invariant
               (fun st => Main.entries st = (entries ++ map row_of (staged_items st))%list)).
      - intros st item _. apply stage_item_rows.
      - simpl. now rewrite app_nil_r. }
    rewrite <- Hrows. unfold run_once. fold start.
    destruct (staged_items (fold_left (stage_items faults poll_id) fetched start));
      [reflexivity |].
    destruct (push_phase poll_id night sent _) as [[? ?] ?]. reflexivity.
  - apply (staging_invariant
             (fun st => forall item, In item (staged_items st) ->
                In item (concat fetched)
                /\ (importance_of item = "major" \/ importance_of item = "minor")));
      [| intros item []].
    intros st item Hin Hst. rewrite stage_item_result. cbn [snd].
    destruct (existsb (String.eqb (importance_of item)) ["major"; "minor"]) eqn:Himp;
      cbn [negb]; [| exact Hst].
    destruct (save_if_new _ _ item).1 as [[|] | e]; cbn [staged_items]; try exact Hst.
    intros item' Hin'. apply in_app_or in Hin'. destruct Hin' as [Hin' | [<- | []]];
      [exact (Hst _ Hin') |].
    split; [exact Hin |].
    cbn [existsb] in Himp. rewrite !orb_true_iff in Himp.
    destruct Himp as [Heq | [Heq | Heq]]; [| | discriminate];
      apply String.eqb_eq in Heq; auto.
Qed.

(** X15. If the fingerprints of the table are pairwise distinct before a
    round, they are after it, and the items staged in the round have
    pairwise distinct fingerprints none of which was in the table: no
    fingerprint is ever staged for notification twice, within a round or
    across rounds that share the table. *)
Theorem staged_once `{TelegramEnv} (night : bool) (entries : list Row)
    (sent : list string) (fetched : list (list NewsItem)) :
  let staged :=
    staged_items
      (fold_left (stage_items faults poll_id) fetched
         {| entries := entries; save_calls := 0; staged_items := []; audit := [] |}) in
  NoDup (hashes entries) ->
  NoDup (hashes (final_entries (run_once faults poll_id night entries sent fetched)))
  /\ NoDup (map build_item_hash staged)
  /\ forall item, In item staged -> ~ In (build_item_hash item) (hashes entries).
Proof.
  intros staged Hnodup. subst staged.
  set (start := {| entries := entries; save_calls := 0; staged_items := []; audit := [] |}).
  assert (Hinv : Main.entries (fold_left (stage_items faults poll_id) fetched start)
                 = (entries ++ map row_of
                      (staged_items (fold_left (stage_items faults poll_id) fetched start)))%list
                 /\ NoDup (hashes (Main.entries
                                     (fold_left (stage_items faults poll_id) fetched start)))).
  { apply (staging_invariant
             (fun st => Main.entries st = (entries ++ map row_of (staged_items st))%list
                        /\ NoDup (hashes (Main.entries st)))).
    - intros st item _ [Hrows Hnd]. split; [now apply stage_item_rows |].
      rewrite stage_item_result. cbn [snd].
      destruct (negb _); [exact Hnd |].
      pose proof (save_if_new_unique (Main.entries st) (faults (save_calls st)) item Hnd).
      destruct (save_if_new _ _ item).1 as [[|] | e]; assumption.
    - simpl. rewrite app_nil_r. auto. }
  destruct Hinv as [Hrows Hnd].
  assert (Hfinal : final_entries (run_once faults poll_id night entries sent fetched)
                   = Main.entries (fold_left (stage_items faults poll_id) fetched start)).
  { unfold run_once. fold start.
    destruct (staged_items (fold_left (stage_items faults poll_id) fetched start)) eqn:Hst;
      [reflexivity |].
    destruct (push_phase poll_id night sent _) as [[? ?] ?]. reflexivity. }
  rewrite Hfinal. split; [exact Hnd |].
  rewrite Hrows in Hnd. unfold hashes in Hnd. rewrite map_app, map_map in Hnd.
  apply NoDup_app in Hnd. destruct Hnd as (_ & Hdisjoint & Hstaged).
  split; [exact Hstaged |].
  intros item Hin Hold. apply (Hdisjoint (build_item_hash item)).
  - apply list_elem_of_In. exact Hold.
  - apply list_elem_of_In. apply in_map_iff. exists item. auto.
Qed.

(** X16. Staging logs exactly one dedupe record for every fetched item of
    importance major or minor and none for the others; the DEDUPE_NEW
    records are as many as the staged items, and every other record is a
    DEDUPE_HASH. *)
Theorem dedupe_records_match (entries : list Row) (fetched : list (list NewsItem)) :
  let st :=
    fold_left (stage_items faults poll_id) fetched
      {| entries := entries; save_calls := 0; staged_items := []; audit := [] |} in
  length (audit st)
  = length (List.filter
              (fun item => existsb (String.eqb (importance_of item)) ["major"; "minor"])
              (concat fetched))
  /\ length (with_reason "DEDUPE_NEW" (audit st)) = length (staged_items st)
  /\ length (audit st)
     = (length (with_reason "DEDUPE_NEW" (audit st))
        + length (with_reason "DEDUPE_HASH" (audit st)))%nat
  /\ forall r, In r (audit st) -> DecisionLogger.stage r = "dedupe".
Proof.
  intros st. subst st. rewrite staging_fold.
  set (start := {| entries := entries; save_calls := 0; staged_items := []; audit := [] |}).
  assert (Hgen : forall items st,
            let st' := fold_left (fun st item => (stage_item faults poll_id st item).2)
                         items st in
            length (audit st')
            = (length (audit st)
               + length (List.filter
                           (fun item => existsb (String.eqb (importance_of item))
                                          ["major"; "minor"]) items))%nat
            /\ (length (with_reason "DEDUPE_NEW" (audit st)) = length (staged_items st) ->
                length (with_reason "DEDUPE_NEW" (audit st')) = length (staged_items st'))
            /\ (length (audit st)
                = (length (with_reason "DEDUPE_NEW" (audit st))
                   + length (with_reason "DEDUPE_HASH" (audit st)))%nat ->
                length (audit st')
                = (length (with_reason "DEDUPE_NEW" (audit st'))
                   + length (with_reason "DEDUPE_HASH" (audit st')))%nat)
            /\ ((forall r, In r (audit st) -> DecisionLogger.stage r = "dedupe") ->
                forall r, In r (audit st') -> DecisionLogger.stage r = "dedupe")).
  { induction items as [| item rest IH]; intros st.
    - cbn. repeat split; auto.
    - cbn [fold_left List.filter]. specialize (IH (stage_item faults poll_id st item).2).
      cbv zeta in IH. destruct IH as (Hlen & Hnew & Hsum & Hstage).
      rewrite stage_item_result in Hlen, Hnew, Hsum, Hstage |- *. cbn [snd] in *.
      destruct (existsb (String.eqb (importance_of item)) ["major"; "minor"]);
        cbn [negb] in *; [| repeat split; auto].
      destruct (save_if_new _ _ item).1 as [[|] | e];
        cbn [audit staged_items] in *;
        unfold with_reason in *; rewrite !List.filter_app, !length_app in *;
        cbn [List.filter reason_code log String.eqb Ascii.eqb Bool.eqb length app] in *;
        (split; [cbn [length]; lia |]);
        (split; [intros Hpre; apply Hnew; lia |]);
        (split; [intros Hpre; apply Hsum; lia |]);
        intros Hpre; apply Hstage; intros r Hin; apply in_app_or in Hin;
        (destruct Hin as [Hin | [<- | []]]; [now apply Hpre | reflexivity]). }
  destruct (Hgen (concat fetched) start) as (Hlen & Hnew & Hsum & Hstage).
  split; [exact Hlen |]. split; [now apply Hnew |]. split; [now apply Hsum |].
  apply Hstage. intros r [].
Qed.

End StagingFacts.

(** ** Sending *)

Section SendingFacts.
Context `{PyRuntime} `{TelegramNotifier.TelegramEnv}.
Import Storage DecisionLogger TelegramNotifier Main Derived.

Lemma send_chunks_all (chunks : list string) :
  forall (sent : list string) (all_ok : bool),
    send_chunks sent all_ok chunks
    = (all_ok && forallb id (imap (fun i msg => api (length sent + i) msg) chunks),
       (sent ++ chunks)%list).
Proof.
  induction chunks as [| msg rest IH]; intros sent all_ok.
  - simpl. now rewrite andb_true_r, app_nil_r.
  - cbn [send_chunks]. unfold _send_text. rewrite IH, imap_cons. cbn [forallb id].
    rewrite Nat.add_0_r, <- app_assoc. cbn [app]. f_equal.
    rewrite <- andb_assoc. f_equal. f_equal. f_equal.
    apply imap_ext. intros i x _. simpl. rewrite length_app. simpl. f_equal. lia.
Qed.

Lemma send_batch_requests (sent : list string) (items : list NewsItem) :
  exists chunks,
    send_batch sent items
    = (forallb id (imap (fun i msg => api (length sent + i) msg) chunks),
       (sent ++ chunks)%list)
    /\ (items = [] -> chunks = []).
Proof.
  unfold send_batch. destruct items as [| item rest].
  - exists []. simpl. now rewrite app_nil_r.
  - destruct (chunk_loop [] (batch_header (length (ordered (item :: rest))))
                (lines_from 1 (ordered (item :: rest)))) as [chunks current].
    eexists. rewrite send_chunks_all. cbn [andb]. split; [reflexivity | discriminate].
Qed.


(** X17. At night every staged item is sent on its own, in order, one
    request per item whatever the earlier answers were; [pushed] counts the
    accepted ones, and every item gets one push record marked night_single,
    PUSH_OK or PUSH_FAIL by its own answer. No batch message is sent. *)
Theorem night_push_each_once (poll_id : string) (sent : list string)
    (staged : list NewsItem) :
  let answer (i : nat) (item : NewsItem) := api (length sent + i) (_format_item item) in
  push_phase poll_id true sent staged
  = ((sent ++ map _format_item staged)%list,
     length (List.filter id (imap answer staged)),
     imap (fun i item =>
             push_record poll_id (account_of item) (tweet_id_of item) (tier_of item)
               (answer i item) "night_single" None)
       staged).
Proof. intros answer. unfold push_phase. now rewrite push_each_all. Qed.


Lemma filter_length_le {A} (f : A -> bool) (l : list A) :
  (length (List.filter f l) <= length l)%nat.
Proof.
  unfold omap. induction l as [| x l IH]; simpl; [lia |]. destruct (f x); simpl; lia.
Qed.

Lemma push_phase_bounds (poll_id : string) (night : bool) (sent : list string)
    (staged : list NewsItem) :
  exists more,
    (push_phase poll_id night sent staged).1.1 = (sent ++ more)%list
    /\ ((push_phase poll_id night sent staged).1.2 <= length staged)%nat.
Proof.
  unfold push_phase. destruct night.
  - rewrite push_each_all. cbn [fst snd]. eexists. split; [reflexivity |].
    rewrite Nat.add_0_l. etransitivity; [apply filter_length_le |]. now rewrite length_imap.
  - destruct (send_batch_requests sent staged) as (chunks & Hbatch & _).
    rewrite Hbatch. destruct (forallb id _).
    + cbn [fst snd]. eexists. split; [reflexivity | lia].
    + rewrite push_each_all. cbn [fst snd]. rewrite <- app_assoc.
      eexists. split; [reflexivity |].
      rewrite Nat.add_0_l. etransitivity; [apply filter_length_le |].
      now rewrite length_imap.
Qed.

(** X19. In every round, night or day, the requests [run_once] makes are
    appended to those made before, and it never reports more pushes than it
    staged items; a round that staged nothing (nothing fetched, or only
    duplicates and items that are neither major nor minor) makes no request,
    reports no push and logs no push record. *)
Theorem pushes_bounded (faults : nat -> option exn) (poll_id : string) (night : bool)
    (entries : list Row) (sent : list string) (fetched : list (list NewsItem)) :
  let st :=
    fold_left (stage_items faults poll_id) fetched
      {| entries := entries; save_calls := 0; staged_items := []; audit := [] |} in
  let result := run_once faults poll_id night entries sent fetched in
  (exists more, final_sent result = (sent ++ more)%list)
  /\ (pushed result <= length (staged_items st))%nat
  /\ (staged_items st = [] ->
      final_sent result = sent /\ pushed result = 0%nat /\ final_audit result = audit st).
Proof.
  intros st result. subst result. unfold run_once. fold st.
  destruct (staged_items st) as [| item rest] eqn:Hstaged.
  - cbn [final_sent pushed final_audit]. split; [exists []; now rewrite app_nil_r |].
    split; [simpl; lia | auto].
  - destruct (push_phase_bounds poll_id night sent (item :: rest)) as (more & Hsent & Hle).
    destruct (push_phase poll_id night sent (item :: rest)) as [[sent' n] recs].
    cbn [fst snd final_sent pushed] in *.
    split; [exists more; exact Hsent |]. split; [exact Hle | discriminate].
Qed.

End SendingFacts.

(** ** The RSS source *)

Section RssFacts.
Context `{PyRuntime} `{RSSSource.RssEnv}.
Import Storage RSSSource.

Lemma omap_length_le {A B} (f : A -> option B) (l : list A) :
  (length (omap f l) <= length l)%nat.
Proof.
  unfold omap. induction l as [| x l IH]; simpl; [lia |]. destruct (f x); simpl; lia.
Qed.

Lemma omap_in {A B} (f : A -> option B) (l : list A) (y : B) :
  In y (omap f l) -> exists x, In x l /\ f x = Some y.
Proof.
  unfold omap. induction l as [| x l IH]; simpl; [intros [] |].
  destruct (f x) as [y' |] eqn:Hfx.
  - intros [<- | Hin]; [eauto |]. destruct (IH Hin) as (x' & Hx' & Hf). eauto.
  - intros Hin. destruct (IH Hin) as (x' & Hx' & Hf). eauto.
Qed.

Lemma slice_to_length {A} (n : Z) (l : list A) :
  (length (slice_to n l) <= length l)%nat
  /\ (0 <= n -> Z.of_nat (length (slice_to n l)) <= n).
Proof.
  unfold slice_to. destruct (Z.leb_spec 0 n).
  - rewrite length_firstn. split; lia.
  - rewrite length_firstn. split; lia.
Qed.

(** X24. Every item the RSS source returns has a non-empty link as URL, a
    non-empty title (the placeholder when the entry has none), the name of
    the source as its source, and no importance attribute, so [run_once]
    labels it with the notifier's rules; there are never more items than
    entries, nor than a non-negative [max_items]; when the feed cannot be
    parsed the result is empty. *)
Theorem rss_items (self : Source) (feed : option (list Entry)) :
  (forall item, In item (fetch self feed) ->
     Storage.url item <> "" /\ Storage.title item <> ""
     /\ Storage.source item = name self /\ Storage.importance item = None)
  /\ (forall entries, feed = Some entries ->
        (length (fetch self feed) <= length entries)%nat
        /\ (0 <= max_items self -> Z.of_nat (length (fetch self feed)) <= max_items self))
  /\ (feed = None -> fetch self feed = []).
Proof.
  split; [| split].
  - intros item Hin. destruct feed as [entries |]; [| destruct Hin].
    cbn [fetch] in Hin. apply omap_in in Hin. destruct Hin as (entry & _ & Hitem).
    unfold item_of_entry in Hitem.
    destruct (String.eqb_spec (strip (or_else (entry_link entry) "")) "") as [| Hlink];
      [discriminate |].
    injection Hitem as <-. cbn [Storage.url Storage.title Storage.source Storage.importance].
    split; [exact Hlink |]. split; [| auto].
    destruct (String.eqb_spec (strip (or_else (entry_title entry) "")) "");
      [discriminate | assumption].
  - intros entries ->. cbn [fetch].
    pose proof (omap_length_le (item_of_entry self) (slice_to (max_items self) entries)).
    pose proof (slice_to_length (max_items self) entries) as [Hlen Hmax].
    split; [lia |]. intros Hpos. specialize (Hmax Hpos). lia.
  - intros ->. reflexivity.
Qed.

End RssFacts.

(** ** The web page source *)

Section WebFacts.
Context `{PyRuntime} `{WebSource.WebEnv}.
Import Storage Snapshots WebSource.

Lemma substring_not_empty (text : string) (n : nat) :
  (4 <= String.length text)%nat -> String.substring 0 (S n) text <> "".
Proof. destruct text; simpl; [lia | discriminate]. Qed.

Lemma length_bound_step (m : Z) (items : list NewsItem) (item : NewsItem) :
  items = [] \/ Z.of_nat (length items) < m ->
  Z.of_nat (length (items ++ [item])) <= Z.max 1 m.
Proof. intros [-> | Hlt]; [simpl; lia |]. rewrite length_app. simpl. lia. Qed.

Lemma structured_loop_items (self : Source) (cs : list Container) :
  forall (seen_urls : gset string) (items : list NewsItem),
    NoDup (map Storage.url items) ->
    (forall item, In item items -> Storage.url item ∈ seen_urls) ->
    (forall item, In item items -> Derived.well_formed (name self) item) ->
    items = [] \/ Z.of_nat (length items) < max_items self ->
    let out := structured_loop self cs seen_urls items in
    NoDup (map Storage.url out)
    /\ (forall item, In item out -> Derived.well_formed (name self) item)
    /\ Z.of_nat (length out) <= Z.max 1 (max_items self).
Proof.
  induction cs as [| container rest IH]; intros seen_urls items Hnodup Hseen Hwf Hlen.
  - cbn. split; [exact Hnodup |]. split; [exact Hwf |]. destruct Hlen as [-> | ?]; simpl; lia.
  - cbn [structured_loop]. destruct (title_el container) as [title_el |]; [| now apply IH].
    destruct (String.eqb_spec (String.substring 0 160 (el_text title_el)) "") as [| Htitle];
      [now apply IH |].
    set (href := if String.eqb _ "" && String.eqb (el_name title_el) "a"
                 then href_of title_el else _).
    destruct (String.eqb href ""); [now apply IH |].
    destruct (bool_decide_reflect (urljoin (url self) href ∈ seen_urls)) as [| Hnew];
      [now apply IH |].
    set (item := plain_item _ _ _ _ _).
    assert (Hnodup' : NoDup (map Storage.url (items ++ [item]))).
    { rewrite map_app. apply NoDup_app. split; [exact Hnodup |].
      split; [| apply NoDup_singleton].
      intros u Hin Hitem. apply list_elem_of_In in Hin. apply list_elem_of_In in Hitem.
      destruct Hitem as [<- | []]. apply in_map_iff in Hin.
      destruct Hin as (old & Hurl & Hold). apply Hnew.
      change (Storage.url item) with (urljoin (url self) href) in Hurl.
      rewrite <- Hurl. now apply Hseen. }
    assert (Hwf' : forall it, In it (items ++ [item]) -> Derived.well_formed (name self) it).
    { intros it Hin. apply in_app_or in Hin. destruct Hin as [Hin | [<- | []]];
        [now apply Hwf |]. repeat split. exact Htitle. }
    destruct (Z.leb_spec (max_items self) (Z.of_nat (length (items ++ [item])))) as [| Hlt].
    + split; [exact Hnodup' |]. split; [exact Hwf' |]. now apply length_bound_step.
    + apply IH; [exact Hnodup' | | exact Hwf' | now right].
      intros it Hin. apply in_app_or in Hin. destruct Hin as [Hin | [<- | []]].
      * apply elem_of_union_r. now apply Hseen.
      * apply elem_of_union_l, elem_of_singleton. reflexivity.
Qed.

Lemma heuristic_loop_items (self : Source) (links : list Element) :
  forall (seen_urls : gset string) (items : list NewsItem),
    NoDup (map (fun item => lower (Storage.url item)) items) ->
    (forall item, In item items -> lower (Storage.url item) ∈ seen_urls) ->
    (forall item, In item items ->
       Derived.well_formed (name self) item
       /\ existsb (fun k => contains k (lower (Storage.url item))) path_markers = true) ->
    items = [] \/ Z.of_nat (length items) < max_items self ->
    let out := heuristic_loop self links seen_urls items in
    NoDup (map (fun item => lower (Storage.url item)) out)
    /\ (forall item, In item out ->
          Derived.well_formed (name self) item
          /\ existsb (fun k => contains k (lower (Storage.url item))) path_markers = true)
    /\ Z.of_nat (length out) <= Z.max 1 (max_items self).
Proof.
  induction links as [| a rest IH]; intros seen_urls items Hnodup Hseen Hwf Hlen.
  - cbn. split; [exact Hnodup |]. split; [exact Hwf |]. destruct Hlen as [-> | ?]; simpl; lia.
  - cbn [heuristic_loop].
    destruct (String.eqb (href_of a) ""); cbn [orb]; [now apply IH |].
    destruct (Nat.ltb_spec (String.length (el_text a)) 4) as [| Htext]; [now apply IH |].
    destruct (bool_decide_reflect (lower (urljoin (url self) (href_of a)) ∈ seen_urls))
      as [| Hnew]; [now apply IH |].
    destruct (existsb (fun k => contains k (lower (urljoin (url self) (href_of a))))
                path_markers) eqn:Hhit.
    + set (item := plain_item _ _ _ _ _).
      assert (Hnodup' : NoDup (map (fun it => lower (Storage.url it)) (items ++ [item]))).
      { rewrite map_app. apply NoDup_app. split; [exact Hnodup |].
        split; [| apply NoDup_singleton].
        intros u Hin Hitem. apply list_elem_of_In in Hin. apply list_elem_of_In in Hitem.
        destruct Hitem as [<- | []]. apply in_map_iff in Hin.
        destruct Hin as (old & Hurl & Hold). apply Hnew.
        change (Storage.url item) with (urljoin (url self) (href_of a)) in Hurl.
        rewrite <- Hurl. now apply Hseen. }
      assert (Hwf' : forall it, In it (items ++ [item]) ->
                Derived.well_formed (name self) it
                /\ existsb (fun k => contains k (lower (Storage.url it))) path_markers
                   = true).
      { intros it Hin. apply in_app_or in Hin. destruct Hin as [Hin | [<- | []]];
          [now apply Hwf |]. split; [| exact Hhit]. repeat split.
        now apply substring_not_empty. }
      destruct (Z.leb_spec (max_items self) (Z.of_nat (length (items ++ [item]))))
        as [| Hlt].
      * split; [exact Hnodup' |]. split; [exact Hwf' |]. now apply length_bound_step.
      * apply IH; [exact Hnodup' | | exact Hwf' | now right].
        intros it Hin. apply in_app_or in Hin. destruct Hin as [Hin | [<- | []]].
        -- apply elem_of_union_r. now apply Hseen.
        -- apply elem_of_union_l, elem_of_singleton. reflexivity.
    + destruct (Z.leb_spec (max_items self) (Z.of_nat (length items))) as [Hfull | Hlt].
      * split; [exact Hnodup |]. split; [exact Hwf |].
        destruct Hlen as [-> | ?]; simpl; lia.
      * now apply IH.
Qed.

(** X21. The items parsed from a page have pairwise distinct URLs,
    non-empty titles, the name of the source as their source and no
    importance attribute; there are at most [max_items] of them, or at most
    one when [max_items] is below 1, since the limit is tested only after an
    item was added. On a page without article containers every URL contains, in
    lower case, one of the path markers /blog, /news, /post, /article. *)
Theorem web_parse_items (self : Source) (html : string) :
  let items := _parse_structured_items self html in
  NoDup (map Storage.url items)
  /\ (forall item, In item items ->
        Storage.title item <> "" /\ Storage.source item = name self
        /\ Storage.importance item = None)
  /\ Z.of_nat (length items) <= Z.max 1 (max_items self)
  /\ (containers (soup_of html) = [] ->
      forall item, In item items ->
        existsb (fun k => contains k (lower (Storage.url item))) path_markers = true).
Proof.
  intros items. subst items. unfold _parse_structured_items.
  destruct (containers (soup_of html)) as [| container rest] eqn:Hcs.
  - destruct (heuristic_loop_items self (anchors (soup_of html)) ∅ [])
      as (Hnodup & Hwf & Hlen); [constructor | intros ? [] | intros ? [] | now left |].
    rewrite <- (map_map Storage.url lower) in Hnodup.
    split; [exact (NoDup_fmap_1 lower _ Hnodup) |].
    split; [intros item Hin; exact (proj1 (Hwf _ Hin)) |].
    split; [exact Hlen |]. intros _ item Hin. exact (proj2 (Hwf _ Hin)).
  - destruct (structured_loop_items self (container :: rest) ∅ [])
      as (Hnodup & Hwf & Hlen); [constructor | intros ? [] | intros ? [] | now left |].
    split; [exact Hnodup |]. split; [exact Hwf |]. split; [exact Hlen | discriminate].
Qed.

(** X22. A failed request leaves the snapshots as they are and yields no
    item. After any other [fetch] the snapshot of the source holds the
    fingerprint of this visit (of the parsed items when there are some, of
    the whole page otherwise), and the snapshots of all other sources are
    untouched. *)
Theorem web_snapshot_bookkeeping (self : Source) (snapshots : gmap string Snapshot)
    (checked_at noticed_at : string) :
  fetch self None snapshots checked_at noticed_at = ([], snapshots)
  /\ forall html,
       let items := _parse_structured_items self html in
       let after := (fetch self (Some html) snapshots checked_at noticed_at).2 in
       get_snapshot_hash after (name self)
       = Some (match items with
               | [] => sha256_hexdigest html
               | _ =>
                   sha256_hexdigest
                     (join "||"
                        (map (fun it => Storage.title it ++ "|" ++ Storage.url it) items))
               end)
       /\ (forall other, other <> name self ->
             get_snapshot_hash after other = get_snapshot_hash snapshots other)
       /\ (items <> [] ->
           (fetch self (Some html) snapshots checked_at noticed_at).1 = items).
Proof.
  split; [reflexivity |]. intros html items after. subst after. unfold fetch. fold items.
  destruct items as [| item rest].
  - assert (Hafter : forall flag : bool,
              (if flag
               then ([plain_item (name self) "官网页面检测到更新" (url self)
                        "未解析到结构化文章，但页面内容发生变化。" noticed_at],
                     upsert_snapshot_hash snapshots (name self) (sha256_hexdigest html)
                       checked_at)
               else ([], upsert_snapshot_hash snapshots (name self)
                           (sha256_hexdigest html) checked_at)).2
              = upsert_snapshot_hash snapshots (name self) (sha256_hexdigest html)
                  checked_at) by (intros []; reflexivity).
    rewrite Hafter. unfold get_snapshot_hash, upsert_snapshot_hash.
    split; [now rewrite lookup_insert_eq |]. split; [| intros Hne; now contradiction Hne].
    intros other Hne. now rewrite lookup_insert_ne.
  - cbn [snd fst]. unfold get_snapshot_hash, upsert_snapshot_hash.
    split; [now rewrite lookup_insert_eq |]. split; [| reflexivity].
    intros other Hne. now rewrite lookup_insert_ne.
Qed.

(** X23. For a page from which no item can be parsed, [fetch] returns the
    single change notice exactly when the fallback is switched on and a
    non-empty snapshot of the source exists that differs from the fingerprint
    of the page; on the first visit it returns nothing, and fetching the same
    page again right after any visit of it returns nothing. *)
Theorem web_change_notice (self : Source) (html : string)
    (snapshots : gmap string Snapshot) (checked_at noticed_at : string) :
  _parse_structured_items self html = [] ->
  let result := (fetch self (Some html) snapshots checked_at noticed_at).1 in
  (result
   = [plain_item (name self) "官网页面检测到更新" (url self)
        "未解析到结构化文章，但页面内容发生变化。" noticed_at]
   \/ result = [])
  /\ (result <> [] <->
      fallback_change_notice self = true
      /\ exists old, get_snapshot_hash snapshots (name self) = Some old
                     /\ old <> "" /\ old <> sha256_hexdigest html)
  /\ (get_snapshot_hash snapshots (name self) = None -> result = [])
  /\ (forall checked_at' noticed_at',
        (fetch self (Some html)
           (fetch self (Some html) snapshots checked_at noticed_at).2
           checked_at' noticed_at').1 = []).
Proof.
  intros Hnone result.
  assert (Hfetch : forall snaps c n,
            fetch self (Some html) snaps c n
            = (if fallback_change_notice self
                  && match get_snapshot_hash snaps (name self) with
                     | Some old =>
                         negb (String.eqb old "")
                         && negb (String.eqb old (sha256_hexdigest html))
                     | None => false
                     end
               then [plain_item (name self) "官网页面检测到更新" (url self)
                       "未解析到结构化文章，但页面内容发生变化。" n]
               else [],
               upsert_snapshot_hash snaps (name self) (sha256_hexdigest html) c)).
  { intros snaps c n. unfold fetch. rewrite Hnone.
    destruct (fallback_change_notice self && _); reflexivity. }
  subst result. rewrite !Hfetch. cbn [fst snd].
  split; [destruct (_ && _); auto |]. split; [| split].
  - destruct (fallback_change_notice self); cbn [andb].
    + destruct (get_snapshot_hash snapshots (name self)) as [old |].
      * destruct (String.eqb_spec old ""); destruct (String.eqb_spec old (sha256_hexdigest html));
          cbn [negb andb]; split; try (intros Hres; now contradiction Hres);
          try discriminate.
        -- intros (_ & old' & [= <-] & Hne & _). contradiction.
        -- intros (_ & old' & [= <-] & Hne & _). contradiction.
        -- intros (_ & old' & [= <-] & _ & Hne). contradiction.
        -- intros _. split; [reflexivity |]. exists old. auto.
      * split; [intros Hres; now contradiction Hres |].
        intros (_ & old & Hold & _). discriminate.
    + split; [intros Hres; now contradiction Hres | intros [Hflag _]; discriminate].
  - intros ->. now rewrite andb_false_r.
  - intros checked_at' noticed_at'. rewrite Hfetch. cbn [fst].
    unfold get_snapshot_hash, upsert_snapshot_hash. rewrite lookup_insert_eq. cbn [fmap option_fmap option_map page_hash].
    rewrite String.eqb_refl. cbn [negb]. now rewrite !andb_false_r.
Qed.

End WebFacts.

(** ** Instances of the further properties on the example data *)

Section FurtherWitnesses.
Import Clock Policy Storage TikHubTwitterSource Closed Examples Pages Derived.

(** The failed poll of the example account at noon schedules the next one
    between 15 and 90 minutes later. *)
Lemma poll_schedules_next_witness :
  exists state',
    account_states
      (@fetch_account Sample.runtime "p1" "p1" true noon failing (started, [], []) openai).1.1
      !! @lower Sample.runtime (@account_screen_name Sample.runtime openai) = Some state'
    /\ last_polled_at state' = Some noon
    /\ tier state' = tier (fresh_state "A" 1793761200000000)
    /\ next_due_at state'
       = noon + minutes (_next_interval_minutes
                           (tier (fresh_state "A" 1793761200000000))
                           (no_news_streak state') noon)
    /\ noon + minutes 15 <= next_due_at state' <= noon + minutes 90.
Proof.
  apply (@poll_schedules_next Sample.runtime "p1" "p1" true noon failing started [] []
           openai (fresh_state "A" 1793761200000000)).
  - vm_compute. discriminate.
  - vm_compute. reflexivity.
  - vm_compute. reflexivity.
Defined.

(** Ten minutes after the poll at noon the example account is not due. *)
Lemma polled_account_due_window_witness :
  (@_should_poll_account Sample.runtime
     (@fetch_account Sample.runtime "p1" "p1" true noon failing (started, [], []) openai).1.1
     (@account_screen_name Sample.runtime openai) (noon + minutes 10)).1 = false.
Proof.
  pose proof (@polled_account_due_window Sample.runtime "p1" "p1" true noon
                (noon + minutes 10) failing started [] [] openai
                (fresh_state "A" 1793761200000000)) as Hdue.
  cbv zeta in Hdue. destruct Hdue as [Hearly _].
  - vm_compute. discriminate.
  - vm_compute. reflexivity.
  - vm_compute. reflexivity.
  - apply Hearly. vm_compute. split; [discriminate | reflexivity].
Defined.

(** The example account is due at noon, an hour after the start. *)
Lemma first_tick_polls_everyone_witness :
  (exists tier,
     In tier ["S"; "A"; "B"]
     /\ account_states (@__init__ Sample.runtime [openai] 1793761200000000)
          !! @lower Sample.runtime (@account_screen_name Sample.runtime openai)
        = Some {| tier := tier; last_check_time := 1793761200000000;
                  last_polled_at := None; no_news_streak := 0;
                  next_due_at := 1793761200000000 |})
  /\ (@_should_poll_account Sample.runtime
        (@__init__ Sample.runtime [openai] 1793761200000000)
        (@account_screen_name Sample.runtime openai) noon).1 = true.
Proof.
  apply (@first_tick_polls_everyone Sample.runtime [openai] 1793761200000000 noon openai).
  - left. reflexivity.
  - vm_compute. discriminate.
  - vm_compute. discriminate.
Defined.

(** Polling OPENAI right after OpenAI changes nothing. *)
Lemma same_key_polled_once_witness :
  @fetch_account Sample.runtime "p1" "p1" true noon (answer [launch_tweet])
    (@fetch_account Sample.runtime "p1" "p1" true noon (answer [launch_tweet])
       (started, [], []) openai)
    openai_caps
  = @fetch_account Sample.runtime "p1" "p1" true noon (answer [launch_tweet])
      (started, [], []) openai.
Proof.
  apply (@same_key_polled_once Sample.runtime "p1" "p1" true noon (answer [launch_tweet])
           (started, [], []) openai openai_caps).
  - vm_compute. discriminate.
  - vm_compute. discriminate.
  - vm_compute. reflexivity.
Defined.

(** The launch tweet is kept by the poll at noon and not by a poll at 22:00
    that gets the same timeline. *)
Lemma no_redelivery_witness :
  In launch_tweet
    (@_extract_tweets Sample.runtime started
       (_fetch_user_tweets (answer [launch_tweet])
          (@account_screen_name Sample.runtime openai))
       (@account_screen_name Sample.runtime openai) noon "p1" "p1" "A" true).1.1
  /\ ~ In launch_tweet
         (@_extract_tweets Sample.runtime
            (@fetch_account Sample.runtime "p1" "p1" true noon (answer [launch_tweet])
               (started, [], []) openai).1.1
            {| pinned := None; timeline := [Some launch_tweet] |}
            (@account_screen_name Sample.runtime openai) late "p2" "p2" "A" true).1.1.
Proof.
  assert (Hkept : In launch_tweet
            (@_extract_tweets Sample.runtime started
               (_fetch_user_tweets (answer [launch_tweet])
                  (@account_screen_name Sample.runtime openai))
               (@account_screen_name Sample.runtime openai) noon "p1" "p1" "A" true).1.1)
    by (vm_compute; left; reflexivity).
  split; [exact Hkept |].
  apply (@no_redelivery Sample.runtime "p1" "p1" true noon (answer [launch_tweet]) started
           [] [] openai (fresh_state "A" 1793761200000000) launch_tweet).
  - vm_compute. discriminate.
  - vm_compute. reflexivity.
  - vm_compute. reflexivity.
  - exact Hkept.
Defined.

(** The item the poll at noon builds from the launch tweet. *)
Lemma output_item_metadata_witness :
  exists acc id tier kw,
    In acc (accounts started)
    /\ @account_screen_name Sample.runtime acc <> ""
    /\ Storage.source item_a = "Twitter:" ++ @account_screen_name Sample.runtime acc
    /\ Storage.account item_a = Some (@account_screen_name Sample.runtime acc)
    /\ Storage.tweet_id item_a = Some id
    /\ Storage.url item_a
       = "https://x.com/" ++ @account_screen_name Sample.runtime acc ++ "/status/" ++ id
    /\ Storage.tier item_a = Some tier
    /\ Storage.vendor item_a
       = Some (@_get_vendor Sample.runtime started (@account_screen_name Sample.runtime acc))
    /\ In kw (major_keywords ++ minor_keywords)%list
    /\ Storage.selected_reason item_a = Some ("importance:" ++ kw).
Proof.
  apply (@output_item_metadata Sample.runtime started "p1" "p1" true noon
           (answer [launch_tweet]) item_a).
  vm_compute. left. reflexivity.
Defined.

(** Saving [item_b] into the table that holds [item_a]. *)
Lemma save_keeps_hashes_unique_witness :
  NoDup (hashes (@save_if_new Sample.runtime table_with_a None item_b).2)
  /\ (@save_if_new Sample.runtime table_with_a None item_b).1 = Return true.
Proof.
  split; [| vm_compute; reflexivity].
  apply (@save_keeps_hashes_unique Sample.runtime table_with_a None item_b).
  vm_compute. apply NoDup_singleton.
Defined.

(** The same news from another source, in another case and later the same
    day, is rejected once [item_a] is stored. *)
Lemma same_title_and_date_rejected_witness :
  @save_if_new Sample.runtime (@save_if_new Sample.runtime [] None item_a).2 None
    item_a_again
  = (Return false, (@save_if_new Sample.runtime [] None item_a).2).
Proof.
  apply (@same_title_and_date_rejected Sample.runtime [] None item_a item_a_again).
  - vm_compute. reflexivity.
  - vm_compute. reflexivity.
Defined.

(** A round that fetches [item_a] twice and [item_b] once stages two items
    with distinct fingerprints. *)
Lemma staged_once_witness :
  NoDup (hashes (Main.final_entries
                   (@Main.run_once Sample.runtime flaky healthy "p1" true [] []
                      [[item_a; item_a]; [item_b]])))
  /\ NoDup (map (@build_item_hash Sample.runtime)
              (Main.staged_items
                 (fold_left (@Main.stage_items Sample.runtime healthy "p1")
                    [[item_a; item_a]; [item_b]]
                    {| Main.entries := []; Main.save_calls := 0; Main.staged_items := [];
                       Main.audit := [] |})))
  /\ length (Main.staged_items
               (fold_left (@Main.stage_items Sample.runtime healthy "p1")
                  [[item_a; item_a]; [item_b]]
                  {| Main.entries := []; Main.save_calls := 0; Main.staged_items := [];
                     Main.audit := [] |})) = 2%nat.
Proof.
  pose proof (@staged_once Sample.runtime healthy "p1" flaky true [] []
                [[item_a; item_a]; [item_b]]) as Honce.
  cbv zeta in Honce. destruct Honce as (Htable & Hstaged & _); [constructor |].
  split; [exact Htable |]. split; [exact Hstaged | vm_compute; reflexivity].
Defined.


(** A page without items whose text changed since the last visit gives the
    notice once; fetching it again gives nothing. *)
Lemma web_change_notice_witness :
  (@WebSource.fetch Sample.runtime web (lab 10) (Some "<p>v2</p>") visited
     "2026-11-04T04:00:00+00:00" "2026-11-04T04:00:01+00:00").1
  = [WebSource.plain_item "Lab" "官网页面检测到更新" "https://lab.example"
       "未解析到结构化文章，但页面内容发生变化。" "2026-11-04T04:00:01+00:00"]
  /\ (@WebSource.fetch Sample.runtime web (lab 10) (Some "<p>v2</p>")
        (@WebSource.fetch Sample.runtime web (lab 10) (Some "<p>v2</p>") visited
           "2026-11-04T04:00:00+00:00" "2026-11-04T04:00:01+00:00").2
        "2026-11-04T04:30:00+00:00" "2026-11-04T04:30:01+00:00").1 = [].
Proof.
  pose proof (@web_change_notice Sample.runtime web (lab 10) "<p>v2</p>" visited
                "2026-11-04T04:00:00+00:00" "2026-11-04T04:00:01+00:00") as Hnotice.
  cbv zeta in Hnotice. destruct Hnotice as (Hcases & Hiff & _ & Hagain).
  - vm_compute. reflexivity.
  - split; [| apply Hagain].
    destruct Hcases as [Hcase | Hcase]; [exact Hcase |].
    exfalso. apply (proj2 Hiff); [| exact Hcase].
    split; [reflexivity |]. exists "<p>v1</p>".
    split; [vm_compute; reflexivity |]. split; discriminate.
Defined.

End FurtherWitnesses.

(** ** The parsers on the example page *)

Section PageScenarios.
Import Pages.

(** Both links of the example page are taken, the URLs joined to the root. *)
Example heuristic_links_example :
  map Storage.url (@WebSource._parse_structured_items Sample.runtime web (lab 10) listing)
  = ["https://lab.example/blog/agents"; "https://lab.example/news"].
Proof. vm_compute. reflexivity. Qed.

(** With [max_items] 0 the parser still returns the first item. *)
Example limit_zero_example :
  map Storage.url (@WebSource._parse_structured_items Sample.runtime web (lab 0) listing)
  = ["https://lab.example/blog/agents"].
Proof. vm_compute. reflexivity. Qed.

End PageScenarios.
